(** * WhatsApp link logger: a shallow embedding of [app.py] and [main.py]

    The repository holds two variants of one webhook bot.  [app.py] summarises
    with the Hugging Face inference API and falls back to local keyword
    extraction; [main.py] summarises with a local Ollama server and falls back
    to the OpenAI chat API.  Everything else (URL pattern, title fetching,
    spreadsheet logging, message processing, webhook) is the same text in both
    files and is embedded once.

    Python values are modelled as follows.
    - A [str] is the list of its Unicode code points ([N]); slicing
      [s[:n]] is [firstn n].
    - Library functions whose behaviour needs tables that are not part of the
      repository ([str.lower], [urllib.parse.urlparse], BeautifulSoup) are
      fields of the record [PyLib].
    - The outside world (HTTP servers, the OpenAI and Twilio clients, the
      Google sheet, the clock, the process environment) is a record
      [Externals] of functions over an abstract state [E].
    - Code that performs effects lives in the monad [M]: a function from the
      bot's world to a result (a value or a raised exception) and the world
      after it. *)

From Stdlib Require Import String Ascii DecimalString.
From Stdlib Require Import List NArith ZArith Bool Arith Lia.
Import ListNotations.

Set Implicit Arguments.

(* ================================================================= *)
(** ** Python strings *)

Module Py.

Definition char := N.
Definition str := list char.

(** A literal of the source text (ASCII only). *)
Definition lit (s : string) : str :=
  map N_of_ascii (list_ascii_of_string s).

Definition chr (a : ascii) : char := N_of_ascii a.

Definition char_eqb (a b : char) : bool := N.eqb a b.

Fixpoint str_eqb (a b : str) : bool :=
  match a, b with
  | [], [] => true
  | x :: a', y :: b' => char_eqb x y && str_eqb a' b'
  | _, _ => false
  end.

(** [x in xs] for a set or list of strings. *)
Definition str_in (x : str) (xs : list str) : bool :=
  existsb (str_eqb x) xs.

Definition char_in (c : char) (cs : str) : bool :=
  existsb (char_eqb c) cs.

(** Truth value of a string: [if s:]. *)
Definition truthy (s : str) : bool :=
  match s with [] => false | _ :: _ => true end.

(** Truth value of an optional string: [None] and [''] are false. *)
Definition truthy_opt (s : option str) : bool :=
  match s with None => false | Some s' => truthy s' end.

(** [x or d] on an optional string. *)
Definition or_else (x : option str) (d : str) : str :=
  match x with
  | Some (c :: s) => c :: s
  | _ => d
  end.

Definition in_range (lo hi c : char) : bool :=
  (N.leb lo c && N.leb c hi)%bool.

(** Code points on which [str.split()] and [str.strip()] split and strip:
    the ASCII table of CPython ([\t\n\v\f\r], [\x1c]..[\x1f], space) and the
    Unicode white space above it. *)
Definition isspace (c : char) : bool :=
  (in_range 9 13 c || in_range 28 32 c
   || N.eqb c 133 || N.eqb c 160 || N.eqb c 5760
   || in_range 8192 8202 c || N.eqb c 8232 || N.eqb c 8233
   || N.eqb c 8239 || N.eqb c 8287 || N.eqb c 12288)%N%bool.

(** [s.split()]: the maximal runs of non-space characters, in order.
    [w] is the word being read. *)
Fixpoint split_from (w : str) (s : str) : list str :=
  match s with
  | [] => match w with [] => [] | _ :: _ => [w] end
  | c :: s' =>
      if isspace c
      then match w with
           | [] => split_from [] s'
           | _ :: _ => w :: split_from [] s'
           end
      else split_from (w ++ [c]) s'
  end.

Definition split (s : str) : list str := split_from [] s.

(** [sep.join(ws)]. *)
Fixpoint join (sep : str) (ws : list str) : str :=
  match ws with
  | [] => []
  | [w] => w
  | w :: ws' => w ++ sep ++ join sep ws'
  end.

Fixpoint lstrip (s : str) : str :=
  match s with
  | c :: s' => if isspace c then lstrip s' else s
  | [] => []
  end.

Definition rstrip (s : str) : str := rev (lstrip (rev s)).

(** [s.strip()]. *)
Definition strip (s : str) : str := rstrip (lstrip s).

Fixpoint startswith (p s : str) : bool :=
  match p, s with
  | [], _ => true
  | x :: p', y :: s' => char_eqb x y && startswith p' s'
  | _ :: _, [] => false
  end.

(** [s.replace(old, new)] for a non-empty [old]: the occurrences of [old] are
    found from the left and do not overlap.  [skip] counts the characters of
    an occurrence that are still to be passed over. *)
Fixpoint replace_from (old new : str) (skip : nat) (s : str) : str :=
  match s with
  | [] => []
  | c :: s' =>
      match skip with
      | S k => replace_from old new k s'
      | O =>
          if startswith old s
          then new ++ replace_from old new (length old - 1) s'
          else c :: replace_from old new 0 s'
      end
  end.

Definition replace (old new : str) (s : str) : str :=
  replace_from old new 0 s.

(** [str(n)] and [f"{n}"] for integers. *)
Definition str_of_nat (n : nat) : str :=
  lit (NilZero.string_of_uint (Nat.to_uint n)).

Definition str_of_Z (z : Z) : str :=
  lit (NilZero.string_of_int (Z.to_int z)).

End Py.

Import Py.

(* ================================================================= *)
(** ** The URL pattern ([url_pattern], app.py and main.py lines 36-38)

    [http[s]?://(?:[a-zA-Z]|[0-9]|[$-_@.&+]|[!*\\(\\),]|(?:%[0-9a-fA-F][0-9a-fA-F]))+]

    The pattern is a raw string, so [\\] inside a class is an escaped
    backslash; [$-_] inside a class is the range from [$] to [_]. *)

Module UrlPattern.

(** [[a-zA-Z]] *)
Definition alt_letter (c : char) : bool :=
  in_range (chr "a") (chr "z") c || in_range (chr "A") (chr "Z") c.

(** [[0-9]] *)
Definition alt_digit (c : char) : bool :=
  in_range (chr "0") (chr "9") c.

(** [[$-_@.&+]] *)
Definition alt_range (c : char) : bool :=
  in_range (chr "$") (chr "_") c || char_in c (lit "@.&+").

(** [[!*\\(\\),]] *)
Definition alt_punct (c : char) : bool :=
  char_in c (lit "!*\(\),").

(** [[0-9a-fA-F]] *)
Definition is_hex (c : char) : bool :=
  in_range (chr "0") (chr "9") c || in_range (chr "a") (chr "f") c
  || in_range (chr "A") (chr "F") c.

(** The repeated group [(?: ... )+], greedy, its alternatives tried in the
    order of the pattern; the fifth alternative takes three characters.
    Nothing follows the group in the pattern, so the first way through is
    the match.  Returns the text taken and the text left; the text taken is
    empty when not even one repetition matches. *)
Fixpoint group_repeat (s : str) : str * str :=
  match s with
  | [] => ([], [])
  | c :: s' =>
      if alt_letter c || alt_digit c || alt_range c || alt_punct c
      then let (m, r) := group_repeat s' in (c :: m, r)
      else
        match s' with
        | h1 :: h2 :: s'' =>
            if char_eqb c (chr "%") && is_hex h1 && is_hex h2
            then let (m, r) := group_repeat s'' in (c :: h1 :: h2 :: m, r)
            else ([], s)
        | _ => ([], s)
        end
  end.

(** [://] and the group, after the prefix [pre] has been read. *)
Definition after_scheme (pre : str) (r : str) : option str :=
  if startswith (lit "://") r
  then match fst (group_repeat (skipn 3 r)) with
       | [] => None
       | c :: m => Some (pre ++ lit "://" ++ c :: m)
       end
  else None.

(** The text the pattern matches at the start of [s], if it matches there.
    [[s]?] is greedy: the match with the [s] is tried first. *)
Definition match_here (s : str) : option str :=
  if startswith (lit "http") s
  then
    let r := skipn 4 s in
    if startswith (lit "s") r
    then match after_scheme (lit "https") (skipn 1 r) with
         | Some m => Some m
         | None => after_scheme (lit "http") r
         end
    else after_scheme (lit "http") r
  else None.

(** [url_pattern.findall(s)]: the matches from left to right; the search
    resumes where the previous match ended.  [skip] counts the characters of
    the previous match that are still to be passed over. *)
Fixpoint findall_from (skip : nat) (s : str) : list str :=
  match s with
  | [] => []
  | _ :: s' =>
      match skip with
      | S k => findall_from k s'
      | O =>
          match match_here s with
          | Some m => m :: findall_from (length m - 1) s'
          | None => findall_from 0 s'
          end
      end
  end.

Definition findall (s : str) : list str := findall_from 0 s.

(** *** The pattern as the specification words it

    "[http(s)://] followed by one or more characters drawn from letters,
    digits, and the symbol set [$-_@.&+!*'(),] and [%XX] escapes", every
    symbol read as itself. *)

Definition spec_symbol (c : char) : bool :=
  char_in c (lit "$-_@.&+!*'(),").

Fixpoint spec_group_repeat (s : str) : str * str :=
  match s with
  | [] => ([], [])
  | c :: s' =>
      if alt_letter c || alt_digit c || spec_symbol c
      then let (m, r) := spec_group_repeat s' in (c :: m, r)
      else
        match s' with
        | h1 :: h2 :: s'' =>
            if char_eqb c (chr "%") && is_hex h1 && is_hex h2
            then let (m, r) := spec_group_repeat s'' in (c :: h1 :: h2 :: m, r)
            else ([], s)
        | _ => ([], s)
        end
  end.

Definition spec_after_scheme (pre : str) (r : str) : option str :=
  if startswith (lit "://") r
  then match fst (spec_group_repeat (skipn 3 r)) with
       | [] => None
       | c :: m => Some (pre ++ lit "://" ++ c :: m)
       end
  else None.

Definition spec_match_here (s : str) : option str :=
  if startswith (lit "https") s
  then spec_after_scheme (lit "https") (skipn 5 s)
  else if startswith (lit "http") s
       then spec_after_scheme (lit "http") (skipn 4 s)
       else None.

Fixpoint spec_findall_from (skip : nat) (s : str) : list str :=
  match s with
  | [] => []
  | _ :: s' =>
      match skip with
      | S k => spec_findall_from k s'
      | O =>
          match spec_match_here s with
          | Some m => m :: spec_findall_from (length m - 1) s'
          | None => spec_findall_from 0 s'
          end
      end
  end.

Definition spec_findall (s : str) : list str := spec_findall_from 0 s.

(** *** What the pattern of the code accepts after [://] *)

(** [!], the code points from [$] (36) to [_] (95), and [a]..[z]. *)
Definition url_char (c : char) : bool :=
  (N.eqb c 33 || in_range 36 95 c || in_range 97 122 c)%N.

(** The longest prefix of [s] made of [url_char]s. *)
Fixpoint url_run (s : str) : str :=
  match s with
  | c :: s' => if url_char c then c :: url_run s' else []
  | [] => []
  end.

(** The pattern matches [m] at the start of [s]: [m] is [http://] or
    [https://] and the longest non-empty run of [url_char]s after it. *)
Definition occurs_at (s m : str) : Prop :=
  exists pre body,
    (pre = lit "http://" \/ pre = lit "https://") /\
    startswith pre s = true /\
    body = url_run (skipn (length pre) s) /\
    body <> [] /\
    m = pre ++ body.

(** The occurrences of the pattern in [s], from the left, not overlapping. *)
Inductive url_occurrences : str -> list str -> Prop :=
| occ_end : url_occurrences [] []
| occ_skip c s l :
    (forall m, ~ occurs_at (c :: s) m) ->
    url_occurrences s l ->
    url_occurrences (c :: s) l
| occ_match s m l :
    occurs_at s m ->
    url_occurrences (skipn (length m) s) l ->
    url_occurrences s (m :: l).

End UrlPattern.

(* ================================================================= *)
(** ** Values exchanged with the outside world *)

(** A raised exception, as the text [str(e)] that the handlers log. *)
Definition exn := str.

Inductive result (A : Type) : Type :=
| Ok (a : A)
| Raise (e : exn).

Arguments Ok {A} a.
Arguments Raise {A} e.

(** A decoded JSON document, as [response.json()] returns it, and the
    payloads and bodies the code builds with dict literals and [jsonify]. *)
Inductive json : Type :=
| JNull
| JBool (b : bool)
| JInt (z : Z)
| JFloat (digits : str)
| JStr (s : str)
| JList (items : list json)
| JDict (items : list (str * json)).

(** A [requests.Response]: [status_code], [text], and what [json()] does. *)
Record Response : Type := mkResponse {
  status_code : Z;
  text : str;
  json_body : result json
}.

Inductive level : Type := INFO | WARNING | ERROR.

(** A request that leaves the process. *)
Inductive call : Type :=
| HttpGet (url : str) (headers : list (str * str)) (timeout : Z)
| HttpPost (url : str) (headers : list (str * str)) (payload : json)
           (timeout : Z)
| ChatCompletion (model : str) (messages : list (str * str))
                 (max_tokens : Z) (temperature : str)
| AppendRow (row : list str)
| MessagesCreate (body from_ to : str)
| Sleep (seconds : Z).

(** A row of the sheet: the list of its seven cells. *)
Definition Row := list str.

(** The collaborators outside the process, over their own state [E]. *)
Record Externals (E : Type) : Type := mkExternals {
  (** [os.environ.get(name)] *)
  environ_get : str -> option str;
  (** [datetime.now()], formatted with ["%Y-%m-%d"] and ["%H:%M:%S"] *)
  clock : E -> (str * str) * E;
  (** [requests.get(url, headers=..., timeout=...)] *)
  get : str -> list (str * str) -> E -> result Response * E;
  (** [requests.post(url, headers=..., json=..., timeout=...)] *)
  post : str -> list (str * str) -> json -> E -> result Response * E;
  (** [openai.ChatCompletion.create(...)]: the [message.content] of each of
      [response.choices] *)
  chat_create : str -> list (str * str) -> E -> result (list (option str)) * E;
  (** [sheet.append_row(row)] on the remote sheet: the row is stored unless
      the call raises *)
  append_row : Row -> E -> result unit * E;
  (** [twilio_client.messages.create(body=..., from_=..., to=...)] *)
  messages_create : str -> str -> str -> E -> result unit * E
}.

(** Library functions that are not code of the repository. *)
Record PyLib : Type := mkPyLib {
  (** [s.lower()] *)
  str_lower : str -> str;
  (** [urllib.parse.urlparse(url).netloc] *)
  urlparse_netloc : str -> result str;
  (** [BeautifulSoup(text, 'html.parser').find('title')] and, when a tag is
      found, its [get_text()] *)
  soup_title_text : str -> result (option str)
}.

(** The state the bot works on: the outside world, the fields of the
    [WhatsAppLinkLogger] object set by [__init__] ([sheet] is [None] when
    [setup_google_sheets] failed, and otherwise stands for the rows of the
    sheet behind the handle), the records written to [logger], and the
    requests issued so far. *)
Record World (E : Type) : Type := mkWorld {
  ext : E;
  sheet : option (list Row);
  twilio_phone_number : option str;
  log : list (level * str);
  calls : list call
}.

(* ================================================================= *)
(** ** The monad of effectful code *)

Section Monad.

Context {E : Type}.

Definition M (A : Type) : Type := World E -> result A * World E.

Definition ret {A} (a : A) : M A := fun w => (Ok a, w).

Definition raise {A} (e : exn) : M A := fun w => (Raise e, w).

Definition bind {A B} (m : M A) (k : A -> M B) : M B :=
  fun w =>
    match m w with
    | (Ok a, w') => k a w'
    | (Raise e, w') => (Raise e, w')
    end.

(** [try: m  except Exception as e: h e] *)
Definition try_except {A} (m : M A) (h : exn -> M A) : M A :=
  fun w =>
    match m w with
    | (Ok a, w') => (Ok a, w')
    | (Raise e, w') => h e w'
    end.

(** A pure computation that may raise. *)
Definition lift {A} (r : result A) : M A := fun w => (r, w).

(** [logger.info], [logger.warning], [logger.error] *)
Definition logger (l : level) (msg : str) : M unit :=
  fun w =>
    (Ok tt, mkWorld (ext w) (sheet w) (twilio_phone_number w)
                    (log w ++ [(l, msg)]) (calls w)).

(** Issue a request: it is recorded, the collaborator answers and moves to
    its next state. *)
Definition request {A} (c : call) (f : E -> result A * E) : M A :=
  fun w =>
    let (r, e') := f (ext w) in
    (r, mkWorld e' (sheet w) (twilio_phone_number w) (log w)
                (calls w ++ [c])).

(** [for x in xs: body x] *)
Fixpoint for_each {A} (xs : list A) (body : A -> M unit) : M unit :=
  match xs with
  | [] => ret tt
  | x :: xs' => bind (body x) (fun _ => for_each xs' body)
  end.

End Monad.

Arguments M : clear implicits.

Notation "x <- m ;; k" := (bind m (fun x => k))
  (at level 61, m at next level, right associativity).
Notation "m ;; k" := (bind m (fun _ => k))
  (at level 61, right associativity).

(* ================================================================= *)
(** ** Code shared by [app.py] and [main.py] *)

Section Shared.

Context {E : Type} (X : Externals E) (L : PyLib).

(** [requests.get] *)
Definition requests_get (url : str) (headers : list (str * str))
    (timeout : Z) : M E Response :=
  request (HttpGet url headers timeout) (get X url headers).

(** [requests.post] *)
Definition requests_post (url : str) (headers : list (str * str))
    (payload : json) (timeout : Z) : M E Response :=
  request (HttpPost url headers payload timeout) (post X url headers payload).

(** [type(j).__name__] of a decoded JSON value. *)
Definition type_name (j : json) : str :=
  match j with
  | JNull => lit "NoneType"
  | JBool _ => lit "bool"
  | JInt _ => lit "int"
  | JFloat _ => lit "float"
  | JStr _ => lit "str"
  | JList _ => lit "list"
  | JDict _ => lit "dict"
  end.

(** The text of the [AttributeError] for a method that [j] does not have. *)
Definition no_attribute (j : json) (name : str) : exn :=
  lit "'" ++ type_name j ++ lit "' object has no attribute '" ++ name
  ++ lit "'".

(** [d.get(key, '')] on a value that may not be a dict: any other value has
    no attribute [get]. *)
Fixpoint dict_lookup (key : str) (items : list (str * json)) : option json :=
  match items with
  | [] => None
  | (k, v) :: items' => if str_eqb k key then Some v else dict_lookup key items'
  end.

Definition json_get (j : json) (key : str) : result json :=
  match j with
  | JDict items =>
      match dict_lookup key items with
      | Some v => Ok v
      | None => Ok (JStr [])
      end
  | _ => Raise (no_attribute j (lit "get"))
  end.

(** [v.strip()] on a JSON value: only a [str] has the method. *)
Definition json_strip (j : json) : result str :=
  match j with
  | JStr s => Ok (strip s)
  | _ => Raise (no_attribute j (lit "strip"))
  end.

(** [extract_page_title] (lines 81-96) *)
Definition extract_page_title (url : str) : M E (option str) :=
  try_except
    (response <- requests_get url
       [(lit "User-Agent",
         lit "Mozilla/5.0 (Windows NT 10.0; Win64; x64) AppleWebKit/537.36 (KHTML, like Gecko) Chrome/91.0.4472.124 Safari/537.36")]
       10 ;;
     if Z.eqb (status_code response) 200
     then
       title <- lift (soup_title_text L (text response)) ;;
       match title with
       | Some t => ret (Some (firstn 100 (strip t)))
       | None => ret None
       end
     else ret None)
    (fun e =>
       logger ERROR (lit "Error extracting title from " ++ url ++ lit ": " ++ e) ;;
       ret None).

(** [response.choices[0].message.content.strip()] *)
Definition first_choice_content (choices : list (option str)) : result str :=
  match choices with
  | [] => Raise (lit "list index out of range")
  | None :: _ => Raise (lit "'NoneType' object has no attribute 'strip'")
  | Some c :: _ => Ok (strip c)
  end.

(** Lines 189-201 of app.py (143-155 of main.py): the chat completion for
    [prompt] and the summary cut out of its answer. *)
Definition chat_summary (prompt : str) : M E str :=
  let messages :=
    [(lit "system",
      lit "You are a helpful assistant that creates very brief 4-5 word summaries.");
     (lit "user", prompt)] in
  choices <- request
     (ChatCompletion (lit "gpt-3.5-turbo") messages 20 (lit "0.3"))
     (chat_create X (lit "gpt-3.5-turbo") messages) ;;
  summary <- lift (first_choice_content choices) ;;
  let words := firstn 5 (split summary) in
  ret (join (lit " ") words).

(** [generate_summary_with_openai] (app.py lines 180-205, main.py lines
    134-159) *)
Definition generate_summary_with_openai (content : str) (url : option str)
    : M E str :=
  try_except
    (prompt <-
       (match url with
        | Some (c :: u) =>
            page_title <- extract_page_title (c :: u) ;;
            ret (lit "Summarize this URL in exactly 4-5 words: " ++ (c :: u)
                 ++ lit " - " ++ or_else page_title [])
        | _ =>
            ret (lit "Summarize this message in exactly 4-5 words: "
                 ++ firstn 200 content)
        end) ;;
     chat_summary prompt)
    (fun e =>
       logger ERROR (lit "Error with OpenAI API: " ++ e) ;;
       ret (lit "Summary unavailable")).

(** The row built in [log_to_spreadsheet] (lines 218-226 of app.py). *)
Definition build_row (date_str time_str message_type content : str)
    (url : option str) (summary sender : str) : Row :=
  [date_str; time_str; message_type; firstn 500 content; or_else url [];
   summary; sender].

(** [self.sheet.append_row(row)]: the request is issued; when it returns the
    row is in the sheet, when it raises the sheet is as before. *)
Definition sheet_append_row (rows : list Row) (row : Row) : M E unit :=
  fun w =>
    let (r, e') := append_row X row (ext w) in
    (r,
     mkWorld e'
       (match r with Ok _ => Some (rows ++ [row]) | Raise _ => sheet w end)
       (twilio_phone_number w) (log w) (calls w ++ [AppendRow row])).

(** [datetime.now()] and the two [strftime] calls. *)
Definition now_strings : M E (str * str) :=
  fun w =>
    let (dt, e') := clock X (ext w) in
    (Ok dt, mkWorld e' (sheet w) (twilio_phone_number w) (log w) (calls w)).

Definition get_sheet : M E (option (list Row)) :=
  fun w => (Ok (sheet w), w).

(** [log_to_spreadsheet] (app.py lines 207-232, main.py lines 161-186) *)
Definition log_to_spreadsheet (message_type content : str) (url : option str)
    (summary sender : str) : M E unit :=
  handle <- get_sheet ;;
  match handle with
  | None => logger ERROR (lit "Google Sheets not configured")
  | Some rows =>
      try_except
        (dt <- now_strings ;;
         let row := build_row (fst dt) (snd dt) message_type content url
                              summary sender in
         sheet_append_row rows row ;;
         logger INFO (lit "Logged to spreadsheet: " ++ message_type
                      ++ lit " - " ++ summary))
        (fun e => logger ERROR (lit "Error logging to spreadsheet: " ++ e))
  end.

(** [f"{x}"] for a value that may be [None]. *)
Definition format_opt (x : option str) : str :=
  match x with Some s => s | None => lit "None" end.

Definition get_twilio_phone_number : M E (option str) :=
  fun w => (Ok (twilio_phone_number w), w).

(** [send_whatsapp_message] (app.py lines 272-282, main.py lines 226-236) *)
Definition send_whatsapp_message (to_number message : str) : M E unit :=
  try_except
    (number <- get_twilio_phone_number ;;
     let from_ := lit "whatsapp:" ++ format_opt number in
     let to := lit "whatsapp:" ++ to_number in
     request (MessagesCreate message from_ to)
             (messages_create X message from_ to) ;;
     logger INFO (lit "Sent message to " ++ to_number))
    (fun e => logger ERROR (lit "Error sending message: " ++ e)).

(** [request.form.get(key, '')]: the first value posted under [key]. *)
Fixpoint form_get (form : list (str * str)) (key : str) (default : str) : str :=
  match form with
  | [] => default
  | (k, v) :: form' => if str_eqb k key then v else form_get form' key default
  end.

(** The check-mark emoji U+2705 that starts both replies of
    [process_message]. *)
Definition check_mark : str := [9989%N].

End Shared.

(* ================================================================= *)
(** ** The message processor and the webhook

    [process_message] and [webhook] have the same text in both files, up to
    the name of the summariser that [process_message] calls
    ([generate_summary_with_huggingface] in app.py,
    [generate_summary_with_ollama] in main.py). *)

Section Processor.

Context {E : Type} (X : Externals E).

Variable summarize : str -> option str -> M E str.

(** The body of the loop of [process_message] (app.py lines 243-253,
    main.py lines 197-207). *)
Definition log_link (message_body sender_number url : str) : M E unit :=
  summary <- summarize message_body (Some url) ;;
  log_to_spreadsheet X (lit "Link") message_body (Some url) summary
                     sender_number.

(** [process_message] (app.py lines 234-270, main.py lines 188-224) *)
Definition process_message_with (message_body sender_number : str) : M E str :=
  logger INFO (lit "Processing message from " ++ sender_number ++ lit ": "
               ++ message_body) ;;
  let urls := UrlPattern.findall message_body in
  match urls with
  | _ :: _ =>
      for_each urls (log_link message_body sender_number) ;;
      ret (check_mark ++ lit " Logged " ++ str_of_nat (length urls)
           ++ lit " link(s) to your spreadsheet!")
  | [] =>
      summary <- summarize message_body None ;;
      log_to_spreadsheet X (lit "Message") message_body None summary
                         sender_number ;;
      ret (check_mark ++ lit " Message logged to your spreadsheet!")
  end.

(** Lines 292-302 of [webhook] in app.py (246-256 in main.py), for the
    posted form that [request.form] gives. *)
Definition webhook_body (form : list (str * str)) : M E (json * Z) :=
  let message_body := form_get form (lit "Body") [] in
  let sender_number :=
    replace (lit "whatsapp:") [] (form_get form (lit "From") []) in
  (if truthy message_body && truthy sender_number
   then
     response_text <- process_message_with message_body sender_number ;;
     send_whatsapp_message X sender_number response_text
   else ret tt) ;;
  ret (JDict [(lit "status", JStr (lit "success"))], 200%Z).

(** The [except] branch of [webhook] (lines 304-306 of app.py). *)
Definition webhook_error (e : exn) : M E (json * Z) :=
  logger ERROR (lit "Webhook error: " ++ e) ;;
  ret (JDict [(lit "status", JStr (lit "error"));
              (lit "message", JStr e)], 500%Z).

(** [webhook] (app.py lines 287-306, main.py lines 241-260): from the
    request to the JSON body and the HTTP status of the response.
    [request_form] is what evaluating [request.form] gives: the posted form,
    or the exception that the framework raises while it parses the request
    (a form over its size limits, a connection that breaks).  The source
    evaluates it inside the [try] statement. *)
Definition webhook_request_with (request_form : result (list (str * str)))
    : M E (json * Z) :=
  try_except
    (form <- lift request_form ;;
     webhook_body form)
    webhook_error.

(** [webhook] on a request whose form has been read. *)
Definition webhook_with (form : list (str * str)) : M E (json * Z) :=
  webhook_request_with (Ok form).

End Processor.

(* ================================================================= *)
(** ** app.py: Hugging Face, then local keyword extraction *)

Module App.

Section Code.

Context {E : Type} (X : Externals E) (L : PyLib).

(** The set literal of line 172. *)
Definition common_words : list str :=
  map lit ["the"; "and"; "or"; "but"; "in"; "on"; "at"; "to"; "for"; "of";
           "with"; "by"; "is"; "are"; "was"; "were"; "a"; "an"]%string.

(** [generate_simple_summary] (lines 159-178) *)
Definition generate_simple_summary (content : str) (url : option str)
    : M E str :=
  try_except
    (match url with
     | Some (c :: u) =>
         domain <- lift (urlparse_netloc L (c :: u)) ;;
         let domain_words :=
           replace (lit ".net") []
             (replace (lit ".org") []
                (replace (lit ".com") []
                   (replace (lit "www.") [] domain))) in
         ret (domain_words ++ lit " link shared")
     | _ =>
         let words := split (str_lower L content) in
         let keywords :=
           firstn 4
             (filter (fun word =>
                        (3 <? length word) && negb (str_in word common_words))
                     words) in
         ret (match keywords with
              | [] => lit "message received"
              | _ :: _ => join (lit " ") keywords
              end)
     end)
    (fun e =>
       logger ERROR (lit "Error in simple summary: " ++ e) ;;
       ret (lit "content logged")).

Definition hf_url : str :=
  lit "https://api-inference.huggingface.co/models/facebook/bart-large-cnn".

(** Lines 131-136 and 145-149: the summary read from a response with status
    200; [None] when the decoded body is not a non-empty list, in which case
    the code goes on to the warning of line 151. *)
Definition read_summary (response : Response) : M E (option str) :=
  result <- lift (json_body response) ;;
  match result with
  | JList (first :: _) =>
      v <- lift (json_get first (lit "summary_text")) ;;
      summary <- lift (json_strip v) ;;
      let words := firstn 5 (split summary) in
      ret (Some (match words with
                 | [] => lit "Summary generated"
                 | _ :: _ => join (lit " ") words
                 end))
  | _ => ret None
  end.

(** Line 151, reached when no branch above it returned. *)
Definition warn_status (response : Response) : M E (option str) :=
  logger WARNING (lit "HuggingFace API returned status "
                  ++ str_of_Z (status_code response)) ;;
  ret None.

(** The [try] block of [generate_summary_with_huggingface] (lines 100-151):
    [Some s] when it returns [s], [None] when control leaves the block at
    its end. *)
Definition huggingface_try_body (content : str) (url : option str)
    : M E (option str) :=
  headers <-
    (match environ_get X (lit "HUGGINGFACE_API_KEY") with
     | Some (c :: k) =>
         ret [(lit "Authorization", lit "Bearer " ++ c :: k)]
     | _ =>
         logger WARNING (lit "HUGGINGFACE_API_KEY not found, trying without auth") ;;
         ret []
     end) ;;
  text_to_summarize <-
    (match url with
     | Some (c :: u) =>
         page_title <- extract_page_title X L (c :: u) ;;
         ret (lit "Website: " ++ (c :: u) ++ lit ". Title: "
              ++ or_else page_title (lit "Unknown") ++ lit ". Content: "
              ++ firstn 300 content)
     | _ => ret (firstn 500 content)
     end) ;;
  let payload :=
    JDict [(lit "inputs", JStr text_to_summarize);
           (lit "parameters",
            JDict [(lit "max_length", JInt 15); (lit "min_length", JInt 3);
                   (lit "do_sample", JBool false)])] in
  response <- requests_post X hf_url headers payload 30 ;;
  if Z.eqb (status_code response) 200
  then
    r <- read_summary response ;;
    match r with
    | Some s => ret (Some s)
    | None => warn_status response
    end
  else if Z.eqb (status_code response) 503
  then
    logger INFO (lit "HuggingFace model loading, retrying in 10 seconds...") ;;
    request (Sleep 10) (fun e => (Ok tt, e)) ;;
    response2 <- requests_post X hf_url headers payload 30 ;;
    if Z.eqb (status_code response2) 200
    then
      r <- read_summary response2 ;;
      match r with
      | Some s => ret (Some s)
      | None => warn_status response2
      end
    else warn_status response2
  else warn_status response.

(** The [try] statement of lines 100-154: the summary it returns, [None]
    when control goes on to line 157. *)
Definition huggingface_try (content : str) (url : option str)
    : M E (option str) :=
  try_except (huggingface_try_body content url)
    (fun e =>
       logger ERROR (lit "Error with HuggingFace API: " ++ e) ;;
       ret None).

(** [generate_summary_with_huggingface] (lines 98-157) *)
Definition generate_summary_with_huggingface (content : str)
    (url : option str) : M E str :=
  r <- huggingface_try content url ;;
  match r with
  | Some s => ret s
  | None => generate_simple_summary content url
  end.

Definition process_message : str -> str -> M E str :=
  process_message_with X generate_summary_with_huggingface.

Definition webhook_request : result (list (str * str)) -> M E (json * Z) :=
  webhook_request_with X generate_summary_with_huggingface.

Definition webhook : list (str * str) -> M E (json * Z) :=
  webhook_with X generate_summary_with_huggingface.

End Code.

End App.

(* ================================================================= *)
(** ** main.py: Ollama, then OpenAI *)

Module Main.

Section Code.

Context {E : Type} (X : Externals E) (L : PyLib).

Definition ollama_url : str := lit "http://localhost:11434/api/generate".

(** The [try] block of [generate_summary_with_ollama] (lines 100-126):
    [Some s] when it returns [s], [None] when control leaves the block at
    its end. *)
Definition ollama_try_body (content : str) (url : option str)
    : M E (option str) :=
  prompt <-
    (match url with
     | Some (c :: u) =>
         page_title <- extract_page_title X L (c :: u) ;;
         ret (lit "Summarize this URL and content in exactly 4-5 words: "
              ++ (c :: u) ++ lit " - " ++ or_else page_title [] ++ lit " - "
              ++ firstn 200 content)
     | _ =>
         ret (lit "Summarize this message in exactly 4-5 words: "
              ++ firstn 200 content)
     end) ;;
  let payload :=
    JDict [(lit "model", JStr (lit "llama3.2:1b"));
           (lit "prompt", JStr prompt);
           (lit "stream", JBool false);
           (lit "options",
            JDict [(lit "temperature", JFloat (lit "0.3"));
                   (lit "num_predict", JInt 20)])] in
  response <- requests_post X ollama_url [] payload 30 ;;
  if Z.eqb (status_code response) 200
  then
    result <- lift (json_body response) ;;
    v <- lift (json_get result (lit "response")) ;;
    summary <- lift (json_strip v) ;;
    let words := firstn 5 (split summary) in
    ret (Some (join (lit " ") words))
  else ret None.

(** The [try] statement of lines 100-129: the summary it returns, [None]
    when control goes on to line 132. *)
Definition ollama_try (content : str) (url : option str)
    : M E (option str) :=
  try_except (ollama_try_body content url)
    (fun e =>
       logger ERROR (lit "Error with Ollama API: " ++ e) ;;
       ret None).

(** [generate_summary_with_ollama] (lines 98-132) *)
Definition generate_summary_with_ollama (content : str) (url : option str)
    : M E str :=
  r <- ollama_try content url ;;
  match r with
  | Some s => ret s
  | None => generate_summary_with_openai X L content url
  end.

Definition process_message : str -> str -> M E str :=
  process_message_with X generate_summary_with_ollama.

Definition webhook_request : result (list (str * str)) -> M E (json * Z) :=
  webhook_request_with X generate_summary_with_ollama.

Definition webhook : list (str * str) -> M E (json * Z) :=
  webhook_with X generate_summary_with_ollama.

End Code.

End Main.

(* ================================================================= *)
(** ** Concrete libraries and outside worlds, to run the code on *)

Module Sample.

(** [str.lower] on ASCII text. *)
Definition ascii_lower (c : char) : char :=
  if in_range (chr "A") (chr "Z") c then (c + 32)%N else c.

Fixpoint take_until (stop : str) (s : str) : str :=
  match s with
  | [] => []
  | c :: s' => if char_in c stop then [] else c :: take_until stop s'
  end.

Fixpoint drop_scheme (s : str) : str :=
  match s with
  | [] => []
  | c :: s' => if char_eqb c (chr ":") then s' else drop_scheme s'
  end.

(** [urlparse(url).netloc] for an ASCII URL of the form [scheme://...]:
    the text between [//] and the first of [/], [?], [#]; a netloc with one
    square bracket and not the other is refused. *)
Definition netloc (url : str) : result str :=
  let rest := drop_scheme url in
  if startswith (lit "//") rest
  then
    let n := take_until (lit "/?#") (skipn 2 rest) in
    if xorb (char_in (chr "[") n) (char_in (chr "]") n)
    then Raise (lit "Invalid IPv6 URL")
    else Ok n
  else Ok [].

(** The library on ASCII text; no page is parsed in the examples. *)
Definition lib : PyLib :=
  {| str_lower := map ascii_lower;
     urlparse_netloc := netloc;
     soup_title_text := fun _ => Ok None |}.

(** An outside world that gives the same answer to every request of a
    kind. *)
Record Answers : Type := mkAnswers {
  get_answer : result Response;
  post_answer : result Response;
  chat_answer : result (list (option str));
  append_answer : result unit;
  send_answer : result unit
}.

Definition externals (a : Answers) : Externals unit :=
  {| environ_get := fun _ => None;
     clock := fun e => ((lit "2024-01-15", lit "09:30:00"), e);
     get := fun _ _ e => (get_answer a, e);
     post := fun _ _ _ e => (post_answer a, e);
     chat_create := fun _ _ e => (chat_answer a, e);
     append_row := fun _ e => (append_answer a, e);
     messages_create := fun _ _ _ e => (send_answer a, e) |}.

Definition refused {A} : result A := Raise (lit "Connection refused").

(** No summarisation backend and no page can be reached; the sheet and the
    messaging gateway work. *)
Definition offline : Answers :=
  mkAnswers refused refused refused (Ok tt) (Ok tt).

(** As [offline], and the sheet refuses every row. *)
Definition sheet_down : Answers :=
  mkAnswers refused refused refused refused (Ok tt).

(** The Hugging Face endpoint is down, the chat model would answer. *)
Definition chat_only : Answers :=
  mkAnswers refused refused (Ok [Some (lit "Chat model summary here")])
            (Ok tt) (Ok tt).

(** The summarisation endpoint answers every request with status 500; the
    chat model would answer. *)
Definition server_error : Answers :=
  mkAnswers refused
    (Ok (mkResponse 500 (lit "Internal Server Error")
           (Raise (lit "Expecting value: line 1 column 1 (char 0)"))))
    (Ok [Some (lit "Chat model summary here")])
    (Ok tt) (Ok tt).

(** The model server answers 200 with an empty [response] text. *)
Definition empty_reply : Answers :=
  mkAnswers refused
    (Ok (mkResponse 200
           (lit "{" ++ [34%N] ++ lit "response" ++ [34%N] ++ lit ": "
            ++ [34%N; 34%N] ++ lit "}")
           (Ok (JDict [(lit "response", JStr [])]))))
    refused (Ok tt) (Ok tt).

(** The chat model answers with white space only. *)
Definition blank_chat : Answers :=
  mkAnswers refused refused (Ok [Some (lit "  ")]) (Ok tt) (Ok tt).

(** The Hugging Face endpoint answers 200 with a list whose first element
    has no [summary_text]. *)
Definition no_summary_text : Answers :=
  mkAnswers refused
    (Ok (mkResponse 200 (lit "[{}]") (Ok (JList [JDict []]))))
    refused (Ok tt) (Ok tt).

(** A bot whose sheet has the rows [rows] ([None]: the set-up failed). *)
Definition world (rows : option (list Row)) : World unit :=
  mkWorld tt rows (Some (lit "+14155238886")) [] [].

(** An outside world whose state counts the rows sent to the sheet: no
    summarisation backend and no page can be reached, and the sheet takes
    two rows and refuses every later one. *)
Definition small_sheet : Externals nat :=
  {| environ_get := fun _ => None;
     clock := fun e => ((lit "2024-01-15", lit "09:30:00"), e);
     get := fun _ _ e => (refused, e);
     post := fun _ _ _ e => (refused, e);
     chat_create := fun _ _ e => (refused, e);
     append_row := fun _ e => (if e <? 2 then Ok tt else refused, S e);
     messages_create := fun _ _ _ e => (Ok tt, e) |}.

(** A bot with an empty sheet in that world. *)
Definition small_world : World nat :=
  mkWorld 0 (Some []) (Some (lit "+14155238886")) [] [].

(** Message bodies and a sender. *)
Definition one_link : str := lit "see https://www.example.com/a".

Definition two_links : str :=
  lit "read https://a.io/x and again https://a.io/x".

Definition plain : str := lit "hello team".

Definition sender : str := lit "+15551234567".

End Sample.

(* ================================================================= *)
(** ** Vocabulary of the properties *)

Section Vocabulary.

Context {E : Type}.

(** [m] returns a value from every world: it never raises. *)
Definition returns {A} (m : M E A) : Prop :=
  forall w, exists a, fst (m w) = Ok a.

(** A relation between the world before and the world after that every
    step of a computation maintains.  [allowed] says which requests the
    relation lets through. *)
Class Frame (R : World E -> World E -> Prop) : Type := {
  allowed : call -> Prop;
  frame_refl : forall w, R w w;
  frame_trans : forall a b c, R a b -> R b c -> R a c;
  frame_log : forall w entries,
    R w (mkWorld (ext w) (sheet w) (twilio_phone_number w)
                 (log w ++ entries) (calls w));
  frame_ext : forall w e',
    R w (mkWorld e' (sheet w) (twilio_phone_number w) (log w) (calls w));
  frame_call : forall w c, allowed c ->
    R w (mkWorld (ext w) (sheet w) (twilio_phone_number w) (log w)
                 (calls w ++ [c]))
}.

Definition keeps (R : World E -> World E -> Prop) {A} (m : M E A) : Prop :=
  forall w, R w (snd (m w)).

(** The sheet is left as it is. *)
Definition same_sheet (w w' : World E) : Prop := sheet w' = sheet w.

(** The requests issued are added at the end of [calls], and each of them
    satisfies [P]. *)
Definition calls_extend (P : call -> Prop) (w w' : World E) : Prop :=
  exists d, calls w' = calls w ++ d /\ Forall P d.

#[export] Instance same_sheet_frame : Frame same_sheet.
Proof.
  refine {| allowed := fun _ => True |}; unfold same_sheet; intros;
    try reflexivity.
  congruence.
Defined.

#[export] Instance calls_extend_frame (P : call -> Prop) :
  Frame (calls_extend P).
Proof.
  refine {| allowed := P |}; unfold calls_extend; simpl.
  - intros w; exists []; rewrite app_nil_r; auto.
  - intros a b c (d1 & H1 & F1) (d2 & H2 & F2). exists (d1 ++ d2).
    rewrite H2, H1, app_assoc. split; [reflexivity|].
    apply Forall_app; auto.
  - intros w _; exists []; rewrite app_nil_r; auto.
  - intros w _; exists []; rewrite app_nil_r; auto.
  - intros w c Hc; exists [c]; auto.
Defined.

(** The request goes to the chat-completion backend. *)
Definition is_chat (c : call) : bool :=
  match c with
  | ChatCompletion _ _ _ _ => true
  | _ => false
  end.

Section Rows.

Context (X : Externals E).

(** The row that [log_to_spreadsheet] builds in world [w]. *)
Definition row_in (w : World E) (message_type content : str)
    (url : option str) (summary sender : str) : Row :=
  let dt := fst (clock X (ext w)) in
  build_row (fst dt) (snd dt) message_type content url summary sender.

(** The state of the outside world when [append_row] is called. *)
Definition ext_at_append (w : World E) : E := snd (clock X (ext w)).

End Rows.

Section Appends.

Context (X : Externals E).

Variable summarize : str -> option str -> M E str.

(** The append that [log_to_spreadsheet] requests, when it is called in
    world [w] with these arguments, returns. *)
Definition append_returns (message_type content : str) (url : option str)
    (summary sender : str) (w : World E) : Prop :=
  fst (append_row X (row_in X w message_type content url summary sender)
         (ext_at_append X w))
  = Ok tt.

(** No append raises while the loop of [process_message] runs over [urls]
    from world [w]: for each URL in turn, the append requested once its
    summary is there returns. *)
Fixpoint loop_appends_return (body sender : str) (urls : list str)
    (w : World E) : Prop :=
  match urls with
  | [] => True
  | url :: rest =>
      match summarize body (Some url) w with
      | (Ok summary, w1) =>
          append_returns (lit "Link") body (Some url) summary sender w1 /\
          loop_appends_return body sender rest
            (snd (log_to_spreadsheet X (lit "Link") body (Some url) summary
                    sender w1))
      | (Raise _, _) => True
      end
  end.

(** No append raises in the run of [process_message] from world [w]: the
    appends looked at are those that this run requests, in the states of
    the outside world in which it requests them. *)
Definition appends_return (body sender : str) (w : World E) : Prop :=
  let w0 :=
    snd (logger INFO (lit "Processing message from " ++ sender ++ lit ": "
                      ++ body) w) in
  match UrlPattern.findall body with
  | [] =>
      match summarize body None w0 with
      | (Ok summary, w1) =>
          append_returns (lit "Message") body None summary sender w1
      | (Raise _, _) => True
      end
  | url :: urls => loop_appends_return body sender (url :: urls) w0
  end.

End Appends.

End Vocabulary.

Arguments keeps {E} R {A} m.

(** A row of kind [Link], logged for [url] out of the message [body] sent
    by [sender]. *)
Definition is_link_row (body sender url : str) (row : Row) : Prop :=
  exists date time summary,
    row = [date; time; lit "Link"; firstn 500 body; url; summary; sender].

(** A row of kind [Message], logged for the message [body] sent by
    [sender]. *)
Definition is_message_row (body sender : str) (row : Row) : Prop :=
  exists date time summary,
    row = [date; time; lit "Message"; firstn 500 body; []; summary; sender].

(** [sub in s] *)
Fixpoint contains (sub s : str) : bool :=
  startswith sub s
  || match s with
     | [] => false
     | _ :: s' => contains sub s'
     end.

(** Every position of [s] at which [p] occurs satisfies [ok]. *)
Definition occurs_only (p s : str) (ok : nat -> bool) : bool :=
  forallb (fun i => negb (startswith p (skipn i s)) || ok i)
          (seq 0 (S (length s))).

(** [p] occurs in [s] at its start or not at all. *)
Definition only_leading (p s : str) : bool :=
  occurs_only p s (Nat.eqb 0).

(** [p] occurs in [s] at its end or not at all. *)
Definition only_trailing (p s : str) : bool :=
  occurs_only p s (fun i => i + length p =? length s).

(** The local fallback as the specification words it. *)
Module Spec.

Definition strip_leading (p s : str) : str :=
  if startswith p s then skipn (length p) s else s.

Definition strip_suffix (p s : str) : str :=
  rev (strip_leading (rev p) (rev s)).

(** "derive the host name, strip a leading [www.] and the suffixes
    [.com]/[.org]/[.net], and return [{remaining host} link shared]" *)
Definition host_summary (host : str) : str :=
  strip_suffix (lit ".net")
    (strip_suffix (lit ".org")
       (strip_suffix (lit ".com") (strip_leading (lit "www.") host)))
  ++ lit " link shared".

Definition stop_words : list str :=
  map lit ["the"; "and"; "or"; "but"; "in"; "on"; "at"; "to"; "for"; "of";
           "with"; "by"; "is"; "are"; "was"; "were"; "a"; "an"]%string.

(** "lower-case the content, split into words, drop a fixed stop-word set,
    keep words longer than 3 characters, take the first 4, join with spaces;
    if none remain return [message received]"; [lowered] is the lower-cased
    content. *)
Definition keyword_summary (lowered : str) : str :=
  let words := split lowered in
  let without_stop_words :=
    filter (fun word => negb (str_in word stop_words)) words in
  let long_words :=
    filter (fun word => 3 <? length word) without_stop_words in
  match firstn 4 long_words with
  | [] => lit "message received"
  | first :: others => join (lit " ") (first :: others)
  end.

End Spec.

(* ================================================================= *)
(** ** Vocabulary of the further properties *)

(** A word: not empty and without white space. *)
Definition is_word (w : str) : bool :=
  truthy w && forallb (fun c => negb (isspace c)) w.

(** The number of words that [s.split()] finds in [s]. *)
Definition word_count (s : str) : nat := length (split s).

Definition is_append (c : call) : bool :=
  match c with
  | AppendRow _ => true
  | _ => false
  end.

Definition is_send (c : call) : bool :=
  match c with
  | MessagesCreate _ _ _ => true
  | _ => false
  end.

(** The number of requests of a kind among [cs]. *)
Definition count_calls (kind : call -> bool) (cs : list call) : nat :=
  length (filter kind cs).

(** The headers that [generate_summary_with_huggingface] sends (app.py
    lines 105-110). *)
Definition hf_headers {E : Type} (X : Externals E) : list (str * str) :=
  match environ_get X (lit "HUGGINGFACE_API_KEY") with
  | Some (c :: k) => [(lit "Authorization", lit "Bearer " ++ c :: k)]
  | _ => []
  end.

(** The payload of app.py lines 119-126 for the text [inputs]. *)
Definition hf_payload (inputs : str) : json :=
  JDict [(lit "inputs", JStr inputs);
         (lit "parameters",
          JDict [(lit "max_length", JInt 15); (lit "min_length", JInt 3);
                 (lit "do_sample", JBool false)])].

(** The request that [generate_summary_with_huggingface] posts for a
    content without URL. *)
Definition hf_post {E : Type} (X : Externals E) (content : str) : call :=
  HttpPost App.hf_url (hf_headers X) (hf_payload (firstn 500 content)) 30.

(** The header that [extract_page_title] sends (line 85). *)
Definition user_agent : list (str * str) :=
  [(lit "User-Agent",
    lit "Mozilla/5.0 (Windows NT 10.0; Win64; x64) AppleWebKit/537.36 (KHTML, like Gecko) Chrome/91.0.4472.124 Safari/537.36")].

(** *** The answers of the summarisation backends *)

Section Backends.

Context {E : Type} (X : Externals E) (L : PyLib).

(** The page title that a summariser fetches for its URL before it builds
    its request (none without URL), and the state of the outside world
    after that. *)
Definition title_step (url : option str) (w : World E) : option str * E :=
  match url with
  | Some (c :: u) =>
      let (r, w1) := extract_page_title X L (c :: u) w in
      (match r with Ok page_title => page_title | Raise _ => None end,
       ext w1)
  | _ => (None, ext w)
  end.

(** The text that [generate_summary_with_huggingface] sends (app.py lines
    113-117). *)
Definition hf_text (content : str) (url : option str)
    (page_title : option str) : str :=
  match url with
  | Some (c :: u) =>
      lit "Website: " ++ (c :: u) ++ lit ". Title: "
      ++ or_else page_title (lit "Unknown") ++ lit ". Content: "
      ++ firstn 300 content
  | _ => firstn 500 content
  end.

(** An answer out of which app.py lines 130-136 read a summary: a response
    with status 200 whose body is a JSON list with a first element that is a
    dict where [summary_text] is missing or is a string. *)
Definition hf_usable (answer : result Response) : bool :=
  match answer with
  | Ok response =>
      Z.eqb (status_code response) 200
      && match json_body response with
         | Ok (JList (JDict items :: _)) =>
             match dict_lookup (lit "summary_text") items with
             | Some (JStr _) | None => true
             | Some _ => false
             end
         | _ => false
         end
  | Raise _ => false
  end.

(** The Hugging Face backend gives no usable result for the request with
    [headers] and [payload] posted in state [e] of the outside world: the
    POST raises; or its answer has status 503 and the POST repeated after it
    gets no usable answer; or its answer has another status and is not
    usable. *)
Definition hf_fails_at (headers : list (str * str)) (payload : json)
    (e : E) : bool :=
  match post X App.hf_url headers payload e with
  | (Raise _, _) => true
  | (Ok response, e1) =>
      if Z.eqb (status_code response) 503
      then negb (hf_usable (fst (post X App.hf_url headers payload e1)))
      else negb (hf_usable (Ok response))
  end.

(** The primary backend of app.py gives no usable result in the run of
    [generate_summary_with_huggingface] from world [w]. *)
Definition hf_fails (content : str) (url : option str) (w : World E)
    : bool :=
  let (page_title, e) := title_step url w in
  hf_fails_at (hf_headers X) (hf_payload (hf_text content url page_title)) e.

(** The prompt and the payload that [generate_summary_with_ollama] sends
    (main.py lines 104-118). *)
Definition ollama_prompt (content : str) (url : option str)
    (page_title : option str) : str :=
  match url with
  | Some (c :: u) =>
      lit "Summarize this URL and content in exactly 4-5 words: "
      ++ (c :: u) ++ lit " - " ++ or_else page_title [] ++ lit " - "
      ++ firstn 200 content
  | _ =>
      lit "Summarize this message in exactly 4-5 words: "
      ++ firstn 200 content
  end.

Definition ollama_payload (prompt : str) : json :=
  JDict [(lit "model", JStr (lit "llama3.2:1b"));
         (lit "prompt", JStr prompt);
         (lit "stream", JBool false);
         (lit "options",
          JDict [(lit "temperature", JFloat (lit "0.3"));
                 (lit "num_predict", JInt 20)])].

(** An answer out of which main.py lines 121-126 read a summary: a response
    with status 200 whose body is a JSON dict where [response] is missing or
    is a string. *)
Definition ollama_usable (answer : result Response) : bool :=
  match answer with
  | Ok response =>
      Z.eqb (status_code response) 200
      && match json_body response with
         | Ok (JDict items) =>
             match dict_lookup (lit "response") items with
             | Some (JStr _) | None => true
             | Some _ => false
             end
         | _ => false
         end
  | Raise _ => false
  end.

(** The primary backend of main.py gives no usable result in the run of
    [generate_summary_with_ollama] from world [w]. *)
Definition ollama_fails (content : str) (url : option str) (w : World E)
    : bool :=
  let (page_title, e) := title_step url w in
  negb (ollama_usable
          (fst (post X Main.ollama_url []
                  (ollama_payload (ollama_prompt content url page_title))
                  e))).

(** The prompt and the messages that [generate_summary_with_openai] sends
    (main.py lines 137-150). *)
Definition openai_prompt (content : str) (url : option str)
    (page_title : option str) : str :=
  match url with
  | Some (c :: u) =>
      lit "Summarize this URL in exactly 4-5 words: " ++ (c :: u)
      ++ lit " - " ++ or_else page_title []
  | _ =>
      lit "Summarize this message in exactly 4-5 words: "
      ++ firstn 200 content
  end.

Definition chat_messages (prompt : str) : list (str * str) :=
  [(lit "system",
    lit "You are a helpful assistant that creates very brief 4-5 word summaries.");
   (lit "user", prompt)].

(** The secondary backend of main.py fails in the run of
    [generate_summary_with_openai] from world [w]: the chat completion
    raises, or it has no first choice with a text. *)
Definition chat_fails (content : str) (url : option str) (w : World E)
    : bool :=
  let (page_title, e) := title_step url w in
  match fst (chat_create X (lit "gpt-3.5-turbo")
               (chat_messages (openai_prompt content url page_title)) e) with
  | Ok (Some _ :: _) => false
  | _ => true
  end.

End Backends.

(** Every value that [m] returns satisfies [Q]. *)
Definition yields {E A : Type} (Q : A -> Prop) (m : M E A) : Prop :=
  forall w a w', m w = (Ok a, w') -> Q a.

(** A summary that is not empty and has at most [n] words. *)
Definition short_summary (n : nat) (s : str) : Prop :=
  s <> [] /\ word_count s <= n.

(** [d] has no white space. *)
Definition spaceless (d : str) : bool :=
  forallb (fun c => negb (isspace c)) d.

(** The URL, when there is one, has a host part without white space. *)
Definition spaceless_host (L : PyLib) (url : option str) : Prop :=
  forall c u d,
    url = Some (c :: u) -> urlparse_netloc L (c :: u) = Ok d ->
    spaceless d = true.

(** What a summariser may do to the world: it leaves the sheet and the
    sender number alone, and the requests it adds are neither appends to
    the sheet nor messages. *)
Definition quiet {E : Type} (w w' : World E) : Prop :=
  sheet w' = sheet w /\
  twilio_phone_number w' = twilio_phone_number w /\
  exists d,
    calls w' = calls w ++ d /\
    Forall (fun c => is_append c = false /\ is_send c = false) d.

#[export] Instance quiet_frame {E : Type} : Frame (quiet (E := E)).
Proof.
  refine {| allowed := fun c => is_append c = false /\ is_send c = false |};
    unfold quiet; simpl.
  - intros w. repeat split. exists []. rewrite app_nil_r. auto.
  - intros a b c (S1 & T1 & d1 & H1 & F1) (S2 & T2 & d2 & H2 & F2).
    split; [congruence|]. split; [congruence|]. exists (d1 ++ d2).
    rewrite H2, H1, app_assoc. split; [reflexivity|].
    apply Forall_app; auto.
  - intros w _. repeat split. exists []. rewrite app_nil_r. auto.
  - intros w _. repeat split. exists []. rewrite app_nil_r. auto.
  - intros w c Hc. repeat split. exists [c]. auto.
Defined.

(** What [process_message] does to the sheet and to the requests, for
    [n] URLs found: the rows are kept, at most [max 1 n] rows of seven cells
    are added, one append is requested per row to log when there is a
    handle and none when there is not, and no message is sent. *)
Definition logged {E : Type} (n : nat) (w w' : World E) : Prop :=
  twilio_phone_number w' = twilio_phone_number w /\
  (exists d,
     calls w' = calls w ++ d /\
     count_calls is_send d = 0 /\
     count_calls is_append d
     = match sheet w with None => 0 | Some _ => n end) /\
  match sheet w with
  | None => sheet w' = None
  | Some rows =>
      exists new_rows,
        sheet w' = Some (rows ++ new_rows) /\
        length new_rows <= n /\
        Forall (fun row => length row = 7) new_rows
  end.

(* ================================================================= *)
(** * Properties *)

(* ================================================================= *)
(** ** Strings *)

Lemma char_eqb_eq (a b : char) : char_eqb a b = true <-> a = b.
Proof. apply N.eqb_eq. Qed.

Lemma str_eqb_eq (a b : str) : str_eqb a b = true <-> a = b.
Proof.
  revert b; induction a as [|x a IH]; intros [|y b]; simpl;
    try (split; [discriminate | congruence]).
  - tauto.
  - rewrite andb_true_iff, char_eqb_eq, IH. split.
    + intros [-> ->]; reflexivity.
    + intros H; inversion H; auto.
Qed.

Lemma startswith_app (p r : str) : startswith p (p ++ r) = true.
Proof.
  induction p as [|x p IH]; simpl; [reflexivity|].
  unfold char_eqb; rewrite N.eqb_refl; exact IH.
Qed.

Lemma startswith_split (p s : str) :
  startswith p s = true -> s = p ++ skipn (length p) s.
Proof.
  revert s; induction p as [|x p IH]; intros s H; [reflexivity|].
  destruct s as [|y s]; simpl in H; [discriminate|].
  apply andb_true_iff in H; destruct H as [Hc Hs].
  apply char_eqb_eq in Hc; subst y. simpl. f_equal. apply IH, Hs.
Qed.

Lemma skipn_length_app {A} (p r : list A) : skipn (length p) (p ++ r) = r.
Proof. induction p; simpl; auto. Qed.

(** Checking a property of code points below 128 one by one. *)
Lemma below_128 (P : char -> bool) :
  forallb P (map N.of_nat (seq 0 128)) = true ->
  forall c, (c < 128)%N -> P c = true.
Proof.
  intros H c Hc. rewrite forallb_forall in H. apply H.
  rewrite <- (N2Nat.id c). apply in_map, in_seq. lia.
Qed.

Lemma in_range_false_above (lo hi c : char) :
  (hi < c)%N -> in_range lo hi c = false.
Proof.
  intros H. unfold in_range.
  replace (N.leb c hi) with false by (symmetry; apply N.leb_gt; exact H).
  apply andb_false_r.
Qed.

Lemma char_in_false_above (cs : str) (c : char) :
  Forall (fun k => (k < c)%N) cs -> char_in c cs = false.
Proof.
  induction 1 as [|k cs Hk _ IH]; simpl; [reflexivity|].
  rewrite IH, orb_false_r. apply N.eqb_neq. lia.
Qed.

(* ================================================================= *)
(** ** The URL pattern *)

Module UrlPatternFacts.

Import UrlPattern.

(** The four one-character alternatives of the group together accept
    exactly [url_char]. *)
Lemma alternatives_url_char (c : char) :
  alt_letter c || alt_digit c || alt_range c || alt_punct c = url_char c.
Proof.
  destruct (N.ltb_spec c 128) as [Hlt|Hge].
  - apply eqb_prop.
    apply (below_128
             (fun c => eqb (alt_letter c || alt_digit c || alt_range c
                            || alt_punct c) (url_char c)));
      [vm_compute; reflexivity | exact Hlt].
  - unfold alt_letter, alt_digit, alt_range, alt_punct, url_char, is_hex.
    rewrite !in_range_false_above by (vm_compute (chr _); lia).
    rewrite !char_in_false_above
      by (vm_compute (lit _); repeat constructor; lia).
    replace (N.eqb c 33) with false by (symmetry; apply N.eqb_neq; lia).
    reflexivity.
Qed.

(** A character that is not a [url_char] is not [%]: the fifth alternative
    of the group is never the one taken. *)
Lemma not_url_char_not_percent (c : char) :
  url_char c = false -> char_eqb c (chr "%") = false.
Proof.
  intros H. apply N.eqb_neq. intros ->. discriminate H.
Qed.

Lemma group_repeat_run (s : str) :
  group_repeat s = (url_run s, skipn (length (url_run s)) s).
Proof.
  induction s as [|c s IH]; [reflexivity|].
  cbn [group_repeat url_run].
  rewrite alternatives_url_char.
  destruct (url_char c) eqn:Hc.
  - rewrite IH. reflexivity.
  - rewrite (not_url_char_not_percent _ Hc).
    destruct s as [|h1 [|h2 s]]; reflexivity.
Qed.


Lemma after_scheme_run (pre r : str) :
  after_scheme pre r =
  if startswith (lit "://") r
  then match url_run (skipn 3 r) with
       | [] => None
       | c :: m => Some (pre ++ lit "://" ++ c :: m)
       end
  else None.
Proof.
  unfold after_scheme. rewrite group_repeat_run. reflexivity.
Qed.

Lemma match_here_occurs (s m : str) :
  match_here s = Some m -> occurs_at s m.
Proof.
  unfold match_here.
  destruct (startswith (lit "http") s) eqn:H1; [|discriminate].
  apply startswith_split in H1.
  set (r := skipn (length (lit "http")) s) in *.
  change (skipn 4 s) with r.
  assert (Hhttp : forall m', after_scheme (lit "http") r = Some m' ->
                             occurs_at s m').
  { intros m'. rewrite after_scheme_run.
    destruct (startswith (lit "://") r) eqn:H2; [|discriminate].
    apply startswith_split in H2.
    destruct (url_run (skipn 3 r)) as [|c b] eqn:Hb; [discriminate|].
    intros Hm; injection Hm as <-.
    exists (lit "http://"), (c :: b). split; [left; reflexivity|].
    rewrite H1, H2. change (length (lit "://")) with 3.
    refine (conj _ (conj _ (conj _ _))).
    - reflexivity.
    - simpl. symmetry; exact Hb.
    - discriminate.
    - reflexivity. }
  destruct (startswith (lit "s") r) eqn:H2; [|apply Hhttp].
  apply startswith_split in H2.
  destruct (after_scheme (lit "https") (skipn 1 r)) as [m'|] eqn:H3;
    [|apply Hhttp].
  intros Hm; injection Hm as <-.
  rewrite after_scheme_run in H3.
  destruct (startswith (lit "://") (skipn 1 r)) eqn:H4; [|discriminate].
  apply startswith_split in H4.
  change (length (lit "s")) with 1 in H2.
  change (length (lit "://")) with 3 in H4.
  destruct (url_run (skipn 3 (skipn 1 r))) as [|c b] eqn:Hb; [discriminate|].
  injection H3 as <-.
  exists (lit "https://"), (c :: b). split; [right; reflexivity|].
  rewrite H1, H2, H4.
  refine (conj _ (conj _ (conj _ _))).
  - reflexivity.
  - simpl. symmetry; exact Hb.
  - discriminate.
  - reflexivity.
Qed.

Lemma occurs_match_here (s m : str) :
  occurs_at s m -> match_here s = Some m.
Proof.
  intros (pre & body & Hpre & Hs & Hb & Hne & ->).
  apply startswith_split in Hs.
  set (t := skipn (length pre) s) in *.
  destruct body as [|c b]; [congruence|].
  unfold match_here.
  destruct Hpre as [-> | ->]; rewrite Hs.
  - simpl. rewrite after_scheme_run. simpl. simpl in Hb. rewrite <- Hb.
    reflexivity.
  - simpl. rewrite after_scheme_run. simpl. simpl in Hb. rewrite <- Hb.
    reflexivity.
Qed.

Lemma occurs_at_length (s m : str) :
  occurs_at s m -> 8 <= length m /\ s <> [].
Proof.
  intros (pre & body & Hpre & Hs & _ & Hne & ->).
  rewrite length_app. split.
  - destruct body; [congruence|].
    destruct Hpre as [-> | ->]; simpl; lia.
  - intros ->. destruct Hpre as [-> | ->]; discriminate Hs.
Qed.

Lemma findall_from_skipn (k : nat) (s : str) :
  findall_from k s = findall (skipn k s).
Proof.
  revert k; induction s as [|c s IH]; intros [|k]; try reflexivity.
  simpl. apply IH.
Qed.

(** [findall] resumes the search right after a match, and one character
    further where the pattern does not match. *)
Lemma findall_cons (c : char) (s : str) :
  findall (c :: s) =
  match match_here (c :: s) with
  | Some m => m :: findall (skipn (length m) (c :: s))
  | None => findall s
  end.
Proof.
  unfold findall at 1. cbn [findall_from].
  destruct (match_here (c :: s)) as [m|] eqn:Hm; [|reflexivity].
  apply match_here_occurs, occurs_at_length in Hm.
  rewrite findall_from_skipn.
  destruct (length m) as [|n]; [lia|].
  simpl. rewrite Nat.sub_0_r. reflexivity.
Qed.

Lemma findall_occurrences (s : str) : url_occurrences s (findall s).
Proof.
  remember (length s) as n eqn:Hn. revert s Hn.
  induction n as [n IH] using lt_wf_ind. intros [|c s] Hn.
  - constructor.
  - rewrite findall_cons.
    destruct (match_here (c :: s)) as [m|] eqn:Hm.
    + pose proof (match_here_occurs _ Hm) as Ho.
      apply occ_match; [exact Ho|].
      apply (IH (length (skipn (length m) (c :: s)))); [|reflexivity].
      apply occurs_at_length in Ho. destruct Ho as [Ho _].
      rewrite length_skipn. subst n. cbn [length]. lia.
    + apply occ_skip.
      * intros m Ho. apply occurs_match_here in Ho. congruence.
      * apply (IH (length s)); [subst n; simpl; lia | reflexivity].
Qed.

Lemma occurrences_findall (s : str) (l : list str) :
  url_occurrences s l -> l = findall s.
Proof.
  induction 1 as [|c s l Hno _ IH|s m l Ho _ IH].
  - reflexivity.
  - rewrite findall_cons.
    destruct (match_here (c :: s)) as [m|] eqn:Hm; [|exact IH].
    exfalso. exact (Hno m (match_here_occurs _ Hm)).
  - destruct s as [|c s]; [apply occurs_at_length in Ho; tauto|].
    rewrite findall_cons, (occurs_match_here Ho), IH. reflexivity.
Qed.

End UrlPatternFacts.

(* ================================================================= *)
(** ** Reasoning about effectful code *)

Section MonadFacts.

Context {E : Type}.


Lemma bind_Ok {A B} (m : M E A) (k : A -> M E B) (w w' : World E) (a : A) :
  m w = (Ok a, w') -> bind m k w = k a w'.
Proof. intros H. unfold bind. rewrite H. reflexivity. Qed.

Lemma bind_Raise {A B} (m : M E A) (k : A -> M E B) (w w' : World E)
    (e : exn) :
  m w = (Raise e, w') -> bind m k w = (Raise e, w').
Proof. intros H. unfold bind. rewrite H. reflexivity. Qed.

Lemma returns_ret {A} (a : A) : returns (E := E) (ret a).
Proof. intros w; exists a; reflexivity. Qed.

Lemma returns_logger (l : level) (msg : str) :
  returns (E := E) (logger l msg).
Proof. intros w; exists tt; reflexivity. Qed.

Lemma returns_bind {A B} (m : M E A) (k : A -> M E B) :
  returns m -> (forall a, returns (k a)) -> returns (bind m k).
Proof.
  intros Hm Hk w. unfold bind. destruct (Hm w) as [a Ha].
  destruct (m w) as [[a'|e] w']; simpl in Ha; [|discriminate].
  apply Hk.
Qed.

Lemma returns_try_except {A} (m : M E A) (h : exn -> M E A) :
  (forall e, returns (h e)) -> returns (try_except m h).
Proof.
  intros Hh w. unfold try_except.
  destruct (m w) as [[a|e] w']; [exists a; reflexivity | apply Hh].
Qed.

Lemma returns_for_each {A} (xs : list A) (body : A -> M E unit) :
  (forall x, returns (body x)) -> returns (for_each xs body).
Proof.
  intros Hb. induction xs as [|x xs IH]; simpl.
  - apply returns_ret.
  - apply returns_bind; [apply Hb | intros _; exact IH].
Qed.


Section Keeps.

Context (R : World E -> World E -> Prop) {F : Frame R}.

Lemma keeps_ret {A} (a : A) : keeps R (ret a).
Proof. intros w; apply frame_refl. Qed.

Lemma keeps_lift {A} (r : result A) : keeps R (lift r).
Proof. intros w; apply frame_refl. Qed.

Lemma keeps_logger (l : level) (msg : str) : keeps R (logger l msg).
Proof. intros w; apply frame_log. Qed.

Lemma keeps_request {A} (c : call) (f : E -> result A * E) :
  allowed c -> keeps R (request c f).
Proof.
  intros Hc w. unfold request. destruct (f (ext w)) as [r e'].
  eapply frame_trans; [apply (frame_call w c Hc)|].
  exact (frame_ext (mkWorld (ext w) (sheet w) (twilio_phone_number w) (log w)
                            (calls w ++ [c])) e').
Qed.

Lemma keeps_bind {A B} (m : M E A) (k : A -> M E B) :
  keeps R m -> (forall a, keeps R (k a)) -> keeps R (bind m k).
Proof.
  intros Hm Hk w. unfold bind. specialize (Hm w).
  destruct (m w) as [[a|e] w']; simpl in Hm; [|exact Hm].
  eapply frame_trans; [exact Hm | apply Hk].
Qed.

Lemma keeps_try_except {A} (m : M E A) (h : exn -> M E A) :
  keeps R m -> (forall e, keeps R (h e)) -> keeps R (try_except m h).
Proof.
  intros Hm Hh w. unfold try_except. specialize (Hm w).
  destruct (m w) as [[a|e] w']; simpl in Hm; [exact Hm|].
  eapply frame_trans; [exact Hm | apply Hh].
Qed.

Lemma keeps_for_each {A} (xs : list A) (body : A -> M E unit) :
  (forall x, keeps R (body x)) -> keeps R (for_each xs body).
Proof.
  intros Hb. induction xs as [|x xs IH]; simpl.
  - apply keeps_ret.
  - apply keeps_bind; [apply Hb | intros _; exact IH].
Qed.

End Keeps.



End MonadFacts.

(** Decompose a computation along its binds, handlers and case
    distinctions. *)
Ltac returns_tac :=
  repeat first
    [ apply returns_ret
    | apply returns_logger
    | apply returns_bind; [|intros ?]
    | apply returns_try_except; intros ?
    | match goal with
      | |- returns (match ?x with _ => _ end) => destruct x
      end
    | solve [intros ?; eexists; reflexivity] ].

Ltac keeps_tac :=
  repeat first
    [ apply keeps_ret; exact _
    | apply keeps_lift; exact _
    | apply keeps_logger; exact _
    | refine (keeps_request (F := _) _ _ _);
      first
        [ exact I
        | match goal with
          | H : _ |- _ => solve [apply H; try reflexivity]
          end ]
    | apply keeps_bind; [exact _ | | intros ?]
    | apply keeps_try_except; [exact _ | | intros ?]
    | match goal with
      | |- keeps _ (match ?x with _ => _ end) => destruct x
      end ].

(* ================================================================= *)
(** ** The summarisers never raise and leave the sheet alone *)


Section SummaryFacts.

Context {E : Type} (X : Externals E) (L : PyLib).

Lemma extract_page_title_returns (url : str) :
  returns (extract_page_title X L url).
Proof. unfold extract_page_title. returns_tac. Qed.

Lemma generate_summary_with_openai_returns (content : str)
    (url : option str) :
  returns (generate_summary_with_openai X L content url).
Proof. unfold generate_summary_with_openai. returns_tac. Qed.

Lemma generate_simple_summary_returns (content : str) (url : option str) :
  returns (App.generate_simple_summary (E := E) L content url).
Proof. unfold App.generate_simple_summary. returns_tac. Qed.

Lemma generate_summary_with_huggingface_returns (content : str)
    (url : option str) :
  returns (App.generate_summary_with_huggingface X L content url).
Proof.
  unfold App.generate_summary_with_huggingface.
  apply returns_bind.
  - returns_tac.
  - intros [s|]; [apply returns_ret | apply generate_simple_summary_returns].
Qed.

Lemma generate_summary_with_ollama_returns (content : str)
    (url : option str) :
  returns (Main.generate_summary_with_ollama X L content url).
Proof.
  unfold Main.generate_summary_with_ollama.
  apply returns_bind.
  - returns_tac.
  - intros [s|];
      [apply returns_ret | apply generate_summary_with_openai_returns].
Qed.

Section Frames.

Context (R : World E -> World E -> Prop) {F : Frame R}.

Lemma extract_page_title_keeps (url : str) :
  (forall c, is_chat c = false -> allowed c) ->
  keeps R (extract_page_title X L url).
Proof. intros Hall. keeps_tac. Qed.

Lemma generate_simple_summary_keeps (content : str) (url : option str) :
  keeps R (App.generate_simple_summary L content url).
Proof. keeps_tac. Qed.

Lemma generate_summary_with_huggingface_keeps (content : str)
    (url : option str) :
  (forall c, is_chat c = false -> allowed c) ->
  keeps R (App.generate_summary_with_huggingface X L content url).
Proof. intros Hall. keeps_tac. Qed.

Lemma generate_summary_with_openai_keeps (content : str)
    (url : option str) :
  (forall c, allowed c) ->
  keeps R (generate_summary_with_openai X L content url).
Proof. intros Hall. keeps_tac. Qed.

Lemma ollama_try_keeps (content : str) (url : option str) :
  (forall c, is_chat c = false -> allowed c) ->
  keeps R (Main.ollama_try X L content url).
Proof. intros Hall. keeps_tac. Qed.

Lemma generate_summary_with_ollama_keeps (content : str)
    (url : option str) :
  (forall c, allowed c) ->
  keeps R (Main.generate_summary_with_ollama X L content url).
Proof. intros Hall. keeps_tac. Qed.

End Frames.

End SummaryFacts.

(* ================================================================= *)
(** ** The log sink *)

Section LogFacts.

Context {E : Type} (X : Externals E).


Lemma log_to_spreadsheet_returns (message_type content : str)
    (url : option str) (summary sender : str) :
  returns (log_to_spreadsheet X message_type content url summary sender).
Proof. unfold log_to_spreadsheet. returns_tac. Qed.

Lemma log_to_spreadsheet_unavailable (message_type content : str)
    (url : option str) (summary sender : str) (w : World E) :
  sheet w = None ->
  log_to_spreadsheet X message_type content url summary sender w =
  (Ok tt,
   mkWorld (ext w) (sheet w) (twilio_phone_number w)
           (log w ++ [(ERROR, lit "Google Sheets not configured")])
           (calls w)).
Proof.
  intros Hs. unfold log_to_spreadsheet, bind, get_sheet, logger.
  destruct (sheet w) eqn:Hw; [discriminate|]. simpl. rewrite ?Hw.
  reflexivity.
Qed.

Lemma log_to_spreadsheet_appended (message_type content : str)
    (url : option str) (summary sender : str) (w : World E)
    (rows : list Row) :
  let row := row_in X w message_type content url summary sender in
  sheet w = Some rows ->
  fst (append_row X row (ext_at_append X w)) = Ok tt ->
  log_to_spreadsheet X message_type content url summary sender w =
  (Ok tt,
   mkWorld (snd (append_row X row (ext_at_append X w)))
           (Some (rows ++ [row])) (twilio_phone_number w)
           (log w ++ [(INFO, lit "Logged to spreadsheet: " ++ message_type
                             ++ lit " - " ++ summary)])
           (calls w ++ [AppendRow row])).
Proof.
  intros row Hs Ha. subst row.
  unfold log_to_spreadsheet, bind, get_sheet, try_except, now_strings,
    sheet_append_row, row_in, ext_at_append, logger in *.
  destruct (sheet w) as [rows'|] eqn:Hw; [|discriminate].
  injection Hs as ->.
  destruct (clock X (ext w)) as [dt e1]. simpl in *.
  destruct (append_row X _ e1) as [r e2]. simpl in *. subst r.
  simpl. rewrite ?Hw. reflexivity.
Qed.

Lemma log_to_spreadsheet_failed (message_type content : str)
    (url : option str) (summary sender : str) (w : World E)
    (rows : list Row) (e : exn) :
  let row := row_in X w message_type content url summary sender in
  sheet w = Some rows ->
  fst (append_row X row (ext_at_append X w)) = Raise e ->
  log_to_spreadsheet X message_type content url summary sender w =
  (Ok tt,
   mkWorld (snd (append_row X row (ext_at_append X w)))
           (sheet w) (twilio_phone_number w)
           (log w ++ [(ERROR, lit "Error logging to spreadsheet: " ++ e)])
           (calls w ++ [AppendRow row])).
Proof.
  intros row Hs Ha. subst row.
  unfold log_to_spreadsheet, bind, get_sheet, try_except, now_strings,
    sheet_append_row, row_in, ext_at_append, logger in *.
  destruct (sheet w) as [rows'|] eqn:Hw; [|discriminate].
  injection Hs as ->.
  destruct (clock X (ext w)) as [dt e1]. simpl in *.
  destruct (append_row X _ e1) as [r e2]. simpl in *. subst r.
  simpl. rewrite ?Hw. reflexivity.
Qed.

End LogFacts.

(* ================================================================= *)
(** ** The message processor, for any summariser that never raises and
    leaves the sheet alone *)

Section ProcessorFacts.

Context {E : Type} (X : Externals E).

Variable summarize : str -> option str -> M E str.

Hypothesis summarize_returns : forall content url,
  returns (summarize content url).

Hypothesis summarize_same_sheet : forall content url,
  keeps same_sheet (summarize content url).

Lemma log_link_returns (body sender url : str) :
  returns (log_link X summarize body sender url).
Proof.
  apply returns_bind; [apply summarize_returns|].
  intros a; apply log_to_spreadsheet_returns.
Qed.

Lemma process_message_reply (body sender : str) (w : World E) :
  fst (process_message_with X summarize body sender w) =
  Ok (match UrlPattern.findall body with
      | [] => check_mark ++ lit " Message logged to your spreadsheet!"
      | url :: urls =>
          check_mark ++ lit " Logged " ++ str_of_nat (length (url :: urls))
          ++ lit " link(s) to your spreadsheet!"
      end).
Proof.
  unfold process_message_with.
  unfold bind at 1. cbn [logger].
  destruct (UrlPattern.findall body) as [|url urls].
  - set (w0 := mkWorld _ _ _ _ _).
    unfold bind at 1.
    destruct (summarize_returns body None w0) as [a Ha].
    destruct (summarize body None w0) as [r w1]; simpl in Ha; subst r.
    unfold bind at 1.
    destruct (log_to_spreadsheet_returns X (lit "Message") body None a sender
                w1) as [u Hu].
    destruct (log_to_spreadsheet X _ _ _ _ _ w1) as [r w2]; simpl in Hu;
      subst r. reflexivity.
  - set (w0 := mkWorld _ _ _ _ _).
    unfold bind at 1.
    destruct (returns_for_each (url :: urls)
                (log_link X summarize body sender)
                (log_link_returns body sender) w0) as [u Hu].
      destruct (for_each (url :: urls) (log_link X summarize body sender) w0) as [r w1];
      simpl in Hu; subst r. reflexivity.
Qed.

Section SheetWorks.

Lemma for_each_links (body sender : str) (urls : list str) :
  forall (w : World E) (rows : list Row),
  sheet w = Some rows ->
  loop_appends_return X summarize body sender urls w ->
  exists new_rows w',
    for_each urls (log_link X summarize body sender) w = (Ok tt, w') /\
    sheet w' = Some (rows ++ new_rows) /\
    Forall2 (is_link_row body sender) urls new_rows.
Proof.
  induction urls as [|url urls IH]; intros w rows Hs Hl.
  - exists [], w. simpl. rewrite app_nil_r. auto.
  - cbn [loop_appends_return] in Hl.
    destruct (summarize_returns body (Some url) w) as [a Ha].
    pose proof (summarize_same_sheet body (Some url) w) as Hk.
    unfold same_sheet in Hk.
    destruct (summarize body (Some url) w) as [r w1] eqn:Hsum;
      simpl in Ha, Hk; subst r.
    rewrite Hs in Hk. destruct Hl as [Happ Hrest].
    pose proof (log_to_spreadsheet_appended X (lit "Link") body (Some url) a
                  sender w1 Hk Happ) as Hlog.
    rewrite Hlog in Hrest. cbn [snd] in Hrest.
    eapply IH in Hrest; [|reflexivity].
    destruct Hrest as (new_rows & w2 & Hr' & Hsheet' & Hrows).
    exists (row_in X w1 (lit "Link") body (Some url) a sender :: new_rows),
      w2.
    cbn [for_each].
    erewrite bind_Ok
      by (unfold log_link; erewrite bind_Ok by exact Hsum; exact Hlog).
    rewrite Hr', Hsheet', <- app_assoc.
    split; [reflexivity|]. split; [reflexivity|].
    constructor; [|exact Hrows].
    unfold row_in, build_row.
    exists (fst (fst (clock X (ext w1)))), (snd (fst (clock X (ext w1)))), a.
    destruct url; reflexivity.
Qed.

Lemma process_message_links (body sender : str) (url : str)
    (urls : list str) (w : World E) (rows : list Row) :
  UrlPattern.findall body = url :: urls ->
  sheet w = Some rows ->
  appends_return X summarize body sender w ->
  exists new_rows,
    sheet (snd (process_message_with X summarize body sender w))
    = Some (rows ++ new_rows) /\
    Forall2 (is_link_row body sender) (url :: urls) new_rows.
Proof.
  intros Hu Hs Ha. unfold appends_return in Ha.
  unfold process_message_with. rewrite Hu in *.
  unfold bind at 1.
  cbv zeta in Ha. eapply for_each_links in Ha; [|exact Hs].
  destruct Ha as (new_rows & w1 & Hr & Hsheet & Hrows).
  exists new_rows. split; [|exact Hrows].
  cbn [logger snd] in Hr |- *. erewrite bind_Ok by exact Hr. exact Hsheet.
Qed.

Lemma process_message_plain (body sender : str) (w : World E)
    (rows : list Row) :
  UrlPattern.findall body = [] ->
  sheet w = Some rows ->
  appends_return X summarize body sender w ->
  exists row,
    sheet (snd (process_message_with X summarize body sender w))
    = Some (rows ++ [row]) /\
    is_message_row body sender row.
Proof.
  intros Hu Hs Ha. unfold appends_return in Ha.
  unfold process_message_with. rewrite Hu in *.
  unfold bind at 1. cbn [logger snd] in Ha |- *. cbv zeta in Ha.
  set (w0 := mkWorld _ _ _ _ _) in *.
  assert (Hs0 : sheet w0 = Some rows) by exact Hs.
  unfold bind at 1.
  destruct (summarize_returns body None w0) as [a Hret].
  pose proof (summarize_same_sheet body None w0) as Hk.
  unfold same_sheet in Hk.
  destruct (summarize body None w0) as [r w1]; simpl in Hret, Hk; subst r.
  assert (Hk' : sheet w1 = Some rows) by (rewrite Hk; exact Hs0).
  unfold bind at 1.
  rewrite (log_to_spreadsheet_appended X (lit "Message") body None a
             sender w1 Hk' Ha).
  eexists. split; [reflexivity|].
  exists (fst (fst (clock X (ext w1)))), (snd (fst (clock X (ext w1)))), a.
  reflexivity.
Qed.

End SheetWorks.

End ProcessorFacts.

(* ================================================================= *)
(** ** Both variants of [process_message] *)

Section Variants.

Context {E : Type} (X : Externals E) (L : PyLib).

Lemma huggingface_same_sheet (content : str) (url : option str) :
  keeps same_sheet (App.generate_summary_with_huggingface X L content url).
Proof.
  apply (generate_summary_with_huggingface_keeps X L (F := same_sheet_frame)).
  intros c _. exact I.
Qed.

Lemma ollama_same_sheet (content : str) (url : option str) :
  keeps same_sheet (Main.generate_summary_with_ollama X L content url).
Proof.
  apply (generate_summary_with_ollama_keeps X L (F := same_sheet_frame)).
  intros c. exact I.
Qed.

End Variants.

(* ================================================================= *)
(** ** The claims about the message processor *)

(** C1, as stated, fails on the code: with one URL in the message and a
    sheet that refuses the row, [process_message] of app.py leaves the sheet
    without any new row, and its reply is not the text
    ["Logged 1 link(s) to your spreadsheet!"]: it starts with a check mark. *)
Lemma C1_counterexample :
  UrlPattern.findall Sample.one_link = [lit "https://www.example.com/a"] /\
  sheet (snd (App.process_message (Sample.externals Sample.sheet_down)
                Sample.lib Sample.one_link Sample.sender
                (Sample.world (Some []))))
  = Some [] /\
  fst (App.process_message (Sample.externals Sample.sheet_down)
         Sample.lib Sample.one_link Sample.sender
         (Sample.world (Some [])))
  <> Ok (lit "Logged 1 link(s) to your spreadsheet!").
Proof.
  split; [vm_compute; reflexivity|].
  split; [vm_compute; reflexivity|].
  vm_compute. discriminate.
Qed.

(** C1 (amended): when the link extractor finds N >= 1 URL occurrences in
    the message body, [process_message] (of app.py and of main.py) returns
    the check mark U+2705 followed by [" Logged N link(s) to your
    spreadsheet!"]; and when the sheet handle is available and no append
    raises, it appends exactly N rows of kind [Link], one per URL occurrence
    in extraction order, each with the body cut to 500 characters and the
    sender. *)
Theorem C1_links_logged {E : Type} (X : Externals E) (L : PyLib)
    (body sender url : str) (urls : list str) (w : World E) :
  UrlPattern.findall body = url :: urls ->
  (fst (App.process_message X L body sender w)
   = Ok (check_mark ++ lit " Logged " ++ str_of_nat (length (url :: urls))
         ++ lit " link(s) to your spreadsheet!") /\
   fst (Main.process_message X L body sender w)
   = Ok (check_mark ++ lit " Logged " ++ str_of_nat (length (url :: urls))
         ++ lit " link(s) to your spreadsheet!")) /\
  (forall rows,
     sheet w = Some rows ->
     (appends_return X (App.generate_summary_with_huggingface X L) body
        sender w ->
      exists new_rows,
        sheet (snd (App.process_message X L body sender w))
        = Some (rows ++ new_rows) /\
        Forall2 (is_link_row body sender) (url :: urls) new_rows) /\
     (appends_return X (Main.generate_summary_with_ollama X L) body
        sender w ->
      exists new_rows,
        sheet (snd (Main.process_message X L body sender w))
        = Some (rows ++ new_rows) /\
        Forall2 (is_link_row body sender) (url :: urls) new_rows)).
Proof.
  intros Hu. split.
  - unfold App.process_message, Main.process_message.
    rewrite !process_message_reply, Hu
      by (first [ apply generate_summary_with_huggingface_returns
                | apply generate_summary_with_ollama_returns ]).
    split; reflexivity.
  - intros rows Hs. split; intros Ha.
    + apply process_message_links; auto.
      * apply generate_summary_with_huggingface_returns.
      * apply huggingface_same_sheet.
    + apply process_message_links; auto.
      * apply generate_summary_with_ollama_returns.
      * apply ollama_same_sheet.
Qed.

(** The witness runs the bot on a sheet that takes the two rows of this run
    and would refuse a third. *)
Lemma C1_witness :
  UrlPattern.findall Sample.two_links
  = [lit "https://a.io/x"; lit "https://a.io/x"] /\
  fst (App.process_message Sample.small_sheet Sample.lib
         Sample.two_links Sample.sender Sample.small_world)
  = Ok (check_mark ++ lit " Logged 2 link(s) to your spreadsheet!") /\
  (exists new_rows,
     sheet (snd (App.process_message Sample.small_sheet Sample.lib
                   Sample.two_links Sample.sender Sample.small_world))
     = Some ([] ++ new_rows) /\
     Forall2 (is_link_row Sample.two_links Sample.sender)
             [lit "https://a.io/x"; lit "https://a.io/x"] new_rows) /\
  (exists new_rows,
     sheet (snd (Main.process_message Sample.small_sheet Sample.lib
                   Sample.two_links Sample.sender Sample.small_world))
     = Some ([] ++ new_rows) /\
     Forall2 (is_link_row Sample.two_links Sample.sender)
             [lit "https://a.io/x"; lit "https://a.io/x"] new_rows).
Proof.
  assert (Hu : UrlPattern.findall Sample.two_links
               = [lit "https://a.io/x"; lit "https://a.io/x"])
    by (vm_compute; reflexivity).
  split; [exact Hu|].
  destruct (C1_links_logged Sample.small_sheet Sample.lib
              Sample.two_links Sample.sender Sample.small_world Hu)
    as [[Hreply _] Hrows].
  split; [exact Hreply|].
  destruct (Hrows [] eq_refl) as [Happ Hmain].
  split; [apply Happ | apply Hmain]; vm_compute; auto.
Defined.

(** C4, as stated, fails on the code: for a message without URL and a sheet
    that refuses the row, [process_message] of app.py replies as usual and
    the sheet has no new row. *)
Lemma C4_counterexample :
  UrlPattern.findall Sample.plain = [] /\
  sheet (snd (App.process_message (Sample.externals Sample.sheet_down)
                Sample.lib Sample.plain Sample.sender
                (Sample.world (Some []))))
  = Some [] /\
  sheet (snd (App.process_message (Sample.externals Sample.offline)
                Sample.lib Sample.plain Sample.sender
                (Sample.world None)))
  = None.
Proof.
  split; [vm_compute; reflexivity|].
  split; vm_compute; reflexivity.
Qed.

(** C4 (amended): when the link extractor finds no URL in the message body,
    [process_message] (of app.py and of main.py) returns a reply that
    contains ["Message logged"]; and when the sheet handle is available and
    the append does not raise, it appends exactly one row, of kind
    [Message], with an empty URL cell. *)
Theorem C4_message_logged {E : Type} (X : Externals E) (L : PyLib)
    (body sender : str) (w : World E) :
  UrlPattern.findall body = [] ->
  (fst (App.process_message X L body sender w)
   = Ok (check_mark ++ lit " Message logged to your spreadsheet!") /\
   fst (Main.process_message X L body sender w)
   = Ok (check_mark ++ lit " Message logged to your spreadsheet!") /\
   contains (lit "Message logged")
            (check_mark ++ lit " Message logged to your spreadsheet!")
   = true) /\
  (forall rows,
     sheet w = Some rows ->
     (appends_return X (App.generate_summary_with_huggingface X L) body
        sender w ->
      exists row,
        sheet (snd (App.process_message X L body sender w))
        = Some (rows ++ [row]) /\
        is_message_row body sender row) /\
     (appends_return X (Main.generate_summary_with_ollama X L) body
        sender w ->
      exists row,
        sheet (snd (Main.process_message X L body sender w))
        = Some (rows ++ [row]) /\
        is_message_row body sender row)).
Proof.
  intros Hu. split.
  - unfold App.process_message, Main.process_message.
    rewrite !process_message_reply, Hu
      by (first [ apply generate_summary_with_huggingface_returns
                | apply generate_summary_with_ollama_returns ]).
    repeat split; reflexivity.
  - intros rows Hs. split; intros Ha.
    + apply process_message_plain; auto.
      * apply generate_summary_with_huggingface_returns.
      * apply huggingface_same_sheet.
    + apply process_message_plain; auto.
      * apply generate_summary_with_ollama_returns.
      * apply ollama_same_sheet.
Qed.

Lemma C4_witness :
  UrlPattern.findall Sample.plain = [] /\
  fst (App.process_message (Sample.externals Sample.offline) Sample.lib
         Sample.plain Sample.sender (Sample.world (Some [])))
  = Ok (check_mark ++ lit " Message logged to your spreadsheet!") /\
  exists row,
    sheet (snd (App.process_message (Sample.externals Sample.offline)
                  Sample.lib Sample.plain Sample.sender
                  (Sample.world (Some []))))
    = Some ([] ++ [row]) /\
    is_message_row Sample.plain Sample.sender row.
Proof.
  assert (Hu : UrlPattern.findall Sample.plain = [])
    by (vm_compute; reflexivity).
  split; [exact Hu|].
  destruct (C4_message_logged (Sample.externals Sample.offline)
              Sample.lib Sample.plain Sample.sender
              (Sample.world (Some [])) Hu)
    as [[Hreply _] Hrows].
  split; [exact Hreply|].
  destruct (Hrows [] eq_refl) as [Happ _].
  apply Happ. vm_compute. auto.
Defined.

(* ================================================================= *)
(** ** The claims about the log sink *)

Lemma log_to_spreadsheet_calls {E : Type} (X : Externals E)
    (message_type content : str) (url : option str) (summary sender : str)
    (w : World E) (rows : list Row) :
  sheet w = Some rows ->
  calls (snd (log_to_spreadsheet X message_type content url summary sender w))
  = calls w
    ++ [AppendRow (row_in X w message_type content url summary sender)].
Proof.
  intros Hs.
  destruct (fst (append_row X
                   (row_in X w message_type content url summary sender)
                   (ext_at_append X w))) as [[]|e] eqn:Ha.
  - rewrite (log_to_spreadsheet_appended X _ _ _ _ _ w Hs Ha). reflexivity.
  - rewrite (log_to_spreadsheet_failed X _ _ _ _ _ w Hs Ha). reflexivity.
Qed.

(** C8: for a content longer than 500 characters, the content cell of the
    row that [log_to_spreadsheet] builds and sends to the sheet is the first
    500 characters of the content, it has exactly 500 characters, the row is
    the one stored when the append succeeds, and [log_to_spreadsheet] returns
    without raising whatever the length of the content. *)
Theorem C8_content_truncated {E : Type} (X : Externals E)
    (message_type content : str) (url : option str) (summary sender : str)
    (w : World E) (rows : list Row) :
  500 < length content ->
  sheet w = Some rows ->
  nth 3 (row_in X w message_type content url summary sender) []
  = firstn 500 content /\
  length (nth 3 (row_in X w message_type content url summary sender) [])
  = 500 /\
  calls (snd (log_to_spreadsheet X message_type content url summary sender w))
  = calls w
    ++ [AppendRow (row_in X w message_type content url summary sender)] /\
  (fst (append_row X (row_in X w message_type content url summary sender)
          (ext_at_append X w)) = Ok tt ->
   sheet (snd (log_to_spreadsheet X message_type content url summary sender w))
   = Some (rows
           ++ [row_in X w message_type content url summary sender])) /\
  (forall any_content,
     fst (log_to_spreadsheet X message_type any_content url summary sender w)
     = Ok tt).
Proof.
  intros Hlen Hs.
  split; [reflexivity|].
  split; [cbn [row_in build_row nth]; apply firstn_length_le; lia|].
  split; [apply log_to_spreadsheet_calls with (rows := rows); exact Hs|].
  split.
  - intros Ha.
    rewrite (log_to_spreadsheet_appended X _ _ _ _ _ w Hs Ha). reflexivity.
  - intros c.
    destruct (log_to_spreadsheet_returns X message_type c url summary sender
                w) as [[] Hr].
    exact Hr.
Qed.

Lemma C8_witness :
  nth 3 (row_in (Sample.externals Sample.offline)
           (Sample.world (Some [])) (lit "Message")
           (repeat (chr "a") 501) None (lit "s") Sample.sender) []
  = repeat (chr "a") 500 /\
  sheet (snd (log_to_spreadsheet (Sample.externals Sample.offline)
                (lit "Message") (repeat (chr "a") 501) None (lit "s")
                Sample.sender (Sample.world (Some []))))
  = Some [[lit "2024-01-15"; lit "09:30:00"; lit "Message";
           repeat (chr "a") 500; []; lit "s"; Sample.sender]].
Proof.
  assert (Hlen : 500 < length (repeat (chr "a") 501))
    by (rewrite repeat_length; lia).
  destruct (C8_content_truncated (Sample.externals Sample.offline)
              (lit "Message") (repeat (chr "a") 501) None (lit "s")
              Sample.sender (Sample.world (Some [])) Hlen eq_refl)
    as (Hcell & _ & _ & Hstored & _).
  split.
  - rewrite Hcell. vm_compute. reflexivity.
  - rewrite (Hstored eq_refl). vm_compute. reflexivity.
Defined.

(** C9: when the sheet handle is unavailable, or the append of the row
    raises, [log_to_spreadsheet] returns without raising, leaves the sheet
    as it was and writes one error record to the log; and
    [process_message] (of app.py and of main.py) returns its reply from
    every world, whatever the sheet does. *)
Theorem C9_log_failure_contained {E : Type} (X : Externals E) (L : PyLib)
    (message_type content : str) (url : option str) (summary sender : str)
    (w : World E) :
  sheet w = None \/
  (exists e,
     fst (append_row X (row_in X w message_type content url summary sender)
            (ext_at_append X w)) = Raise e) ->
  (fst (log_to_spreadsheet X message_type content url summary sender w)
   = Ok tt /\
   sheet (snd (log_to_spreadsheet X message_type content url summary sender
                 w))
   = sheet w /\
   exists msg,
     log (snd (log_to_spreadsheet X message_type content url summary sender
                 w))
     = log w ++ [(ERROR, msg)]) /\
  (forall body from (w0 : World E),
     fst (App.process_message X L body from w0)
     = Ok (match UrlPattern.findall body with
           | [] => check_mark ++ lit " Message logged to your spreadsheet!"
           | u :: us =>
               check_mark ++ lit " Logged " ++ str_of_nat (length (u :: us))
               ++ lit " link(s) to your spreadsheet!"
           end) /\
     fst (Main.process_message X L body from w0)
     = Ok (match UrlPattern.findall body with
           | [] => check_mark ++ lit " Message logged to your spreadsheet!"
           | u :: us =>
               check_mark ++ lit " Logged " ++ str_of_nat (length (u :: us))
               ++ lit " link(s) to your spreadsheet!"
           end)).
Proof.
  intros H. split.
  - destruct (sheet w) as [rows|] eqn:Hs.
    + destruct H as [H|[e He]]; [discriminate|].
      rewrite (log_to_spreadsheet_failed X _ _ _ _ _ w Hs He). simpl.
      split; [reflexivity|]. split; [exact Hs|]. eexists; reflexivity.
    + rewrite (log_to_spreadsheet_unavailable X _ _ _ _ _ w Hs). simpl.
      split; [reflexivity|]. split; [exact Hs|]. eexists; reflexivity.
  - intros body from w0.
    unfold App.process_message, Main.process_message.
    rewrite !process_message_reply
      by (first [ apply generate_summary_with_huggingface_returns
                | apply generate_summary_with_ollama_returns ]).
    split; reflexivity.
Qed.

Lemma C9_witness :
  (log_to_spreadsheet (Sample.externals Sample.sheet_down) (lit "Message")
     Sample.plain None (lit "hello team") Sample.sender
     (Sample.world (Some []))
   = (Ok tt,
      mkWorld tt (Some []) (Some (lit "+14155238886"))
        [(ERROR, lit "Error logging to spreadsheet: Connection refused")]
        [AppendRow [lit "2024-01-15"; lit "09:30:00"; lit "Message";
                    Sample.plain; []; lit "hello team"; Sample.sender]]))
  /\
  fst (App.process_message (Sample.externals Sample.sheet_down)
         Sample.lib Sample.plain Sample.sender (Sample.world None))
  = Ok (check_mark ++ lit " Message logged to your spreadsheet!").
Proof.
  destruct (C9_log_failure_contained (Sample.externals Sample.sheet_down)
              Sample.lib (lit "Message") Sample.plain None
              (lit "hello team") Sample.sender (Sample.world (Some []))
              (or_intror (ex_intro _ (lit "Connection refused") eq_refl)))
    as [_ Hreply].
  split; [vm_compute; reflexivity|].
  exact (proj1 (Hreply Sample.plain Sample.sender (Sample.world None))).
Defined.

(* ================================================================= *)
(** ** The claim about the webhook *)

(** C10: when the [Body] field or the [From] field of the posted form is
    missing or empty, [webhook] (of app.py and of main.py) answers
    [{"status": "success"}] with status 200 and leaves the world as it was:
    no row is logged, no request is issued, no reply is sent. *)
Theorem C10_empty_fields_ignored {E : Type} (X : Externals E) (L : PyLib)
    (form : list (str * str)) (w : World E) :
  form_get form (lit "Body") [] = [] \/ form_get form (lit "From") [] = [] ->
  App.webhook X L form w
  = (Ok (JDict [(lit "status", JStr (lit "success"))], 200%Z), w) /\
  Main.webhook X L form w
  = (Ok (JDict [(lit "status", JStr (lit "success"))], 200%Z), w).
Proof.
  intros H.
  assert (Hskip :
            truthy (form_get form (lit "Body") [])
            && truthy (replace (lit "whatsapp:") []
                         (form_get form (lit "From") [])) = false).
  { destruct H as [-> | ->]; [reflexivity|]. apply andb_false_r. }
  unfold App.webhook, Main.webhook, webhook_with, webhook_request_with,
    webhook_body, webhook_error, try_except, lift, bind.
  rewrite Hskip. split; reflexivity.
Qed.

Lemma C10_witness :
  App.webhook (Sample.externals Sample.offline) Sample.lib
    [(lit "From", lit "whatsapp:+15551234567")] (Sample.world (Some []))
  = (Ok (JDict [(lit "status", JStr (lit "success"))], 200%Z),
     Sample.world (Some [])) /\
  Main.webhook (Sample.externals Sample.offline) Sample.lib
    [(lit "Body", lit "hello")] (Sample.world (Some []))
  = (Ok (JDict [(lit "status", JStr (lit "success"))], 200%Z),
     Sample.world (Some [])).
Proof.
  split.
  - apply (C10_empty_fields_ignored (Sample.externals Sample.offline)
             Sample.lib [(lit "From", lit "whatsapp:+15551234567")]
             (Sample.world (Some []))).
    left. reflexivity.
  - apply (C10_empty_fields_ignored (Sample.externals Sample.offline)
             Sample.lib [(lit "Body", lit "hello")]
             (Sample.world (Some []))).
    right. reflexivity.
Defined.

(* ================================================================= *)
(** ** The claims about the local fallback *)

Lemma filter_andb {A} (f g : A -> bool) (l : list A) :
  filter (fun x => f x && g x) l = filter f (filter g l).
Proof.
  induction l as [|x l IH]; [reflexivity|]. simpl.
  destruct (g x); simpl.
  - rewrite andb_true_r. destruct (f x); rewrite IH; reflexivity.
  - rewrite andb_false_r. exact IH.
Qed.

Lemma simple_summary_keywords {E : Type} (L : PyLib) (content : str)
    (url : option str) (w : World E) :
  truthy_opt url = false ->
  App.generate_simple_summary L content url w
  = (Ok (Spec.keyword_summary (str_lower L content)), w).
Proof.
  intros Hu.
  assert (Hbody :
            App.generate_simple_summary L content url w
            = App.generate_simple_summary L content None w).
  { destruct url as [[|c u]|]; [reflexivity | discriminate | reflexivity]. }
  rewrite Hbody.
  unfold App.generate_simple_summary, try_except, ret, Spec.keyword_summary.
  rewrite filter_andb.
  change App.common_words with Spec.stop_words.
  destruct (firstn 4 _); reflexivity.
Qed.

(** *** [str.replace] with an empty replacement *)

Lemma replace_from_skipn (p : str) (k : nat) (s : str) :
  replace_from p [] k s = replace p [] (skipn k s).
Proof.
  revert k; induction s as [|c s IH]; intros [|k]; try reflexivity.
  simpl. apply IH.
Qed.

Lemma replace_cons_hit (p : str) (c : char) (s : str) :
  p <> [] ->
  startswith p (c :: s) = true ->
  replace p [] (c :: s) = replace p [] (skipn (length p) (c :: s)).
Proof.
  intros Hp H. unfold replace at 1. cbn [replace_from]. rewrite H.
  cbn [app]. rewrite replace_from_skipn.
  destruct p as [|x p]; [congruence|].
  replace (length (x :: p) - 1) with (length p) by (cbn [length]; lia).
  reflexivity.
Qed.

Lemma replace_cons_miss (p : str) (c : char) (s : str) :
  startswith p (c :: s) = false ->
  replace p [] (c :: s) = c :: replace p [] s.
Proof.
  intros H. unfold replace. cbn [replace_from]. rewrite H. reflexivity.
Qed.

Lemma replace_none (p s : str) :
  (forall i, startswith p (skipn i s) = false) -> replace p [] s = s.
Proof.
  induction s as [|c s IH]; intros H; [reflexivity|].
  rewrite replace_cons_miss by exact (H 0).
  rewrite IH; [reflexivity|]. intros i. exact (H (S i)).
Qed.

Lemma startswith_nil (p : str) : startswith p [] = true -> p = [].
Proof. destruct p; [reflexivity | discriminate]. Qed.

Lemma occurs_only_spec (p s : str) (ok : nat -> bool) :
  p <> [] ->
  occurs_only p s ok = true ->
  forall i, startswith p (skipn i s) = true -> ok i = true.
Proof.
  intros Hp H i Hi. destruct (le_lt_dec i (length s)) as [Hle|Hgt].
  - unfold occurs_only in H. rewrite forallb_forall in H.
    specialize (H i). rewrite Hi in H. apply H, in_seq. lia.
  - rewrite skipn_all2 in Hi by lia. apply startswith_nil in Hi. congruence.
Qed.

Lemma replace_leading (p s : str) :
  p <> [] ->
  only_leading p s = true ->
  replace p [] s = Spec.strip_leading p s.
Proof.
  intros Hp H. pose proof (@occurs_only_spec p s _ Hp H) as Hocc.
  unfold Spec.strip_leading.
  destruct (startswith p s) eqn:H0.
  - destruct s as [|c s]; [apply startswith_nil in H0; congruence|].
    rewrite replace_cons_hit by assumption.
    apply replace_none. intros i.
    destruct (startswith p (skipn i (skipn (length p) (c :: s)))) eqn:Hi;
      [|reflexivity].
    rewrite skipn_skipn in Hi. apply Hocc, Nat.eqb_eq in Hi.
    destruct p; [congruence | simpl in Hi; lia].
  - apply replace_none. intros i.
    destruct (startswith p (skipn i s)) eqn:Hi; [|reflexivity].
    pose proof (Hocc i Hi) as Hz. apply Nat.eqb_eq in Hz. subst i.
    simpl in Hi. congruence.
Qed.

Lemma replace_self (p s : str) :
  p <> [] -> s = p -> replace p [] s = [].
Proof.
  intros Hp Hs.
  assert (Hpp : startswith p p = true).
  { rewrite <- (app_nil_r p) at 2. apply startswith_app. }
  destruct s as [|c s']; [congruence|].
  rewrite replace_cons_hit; [|exact Hp|rewrite Hs; exact Hpp].
  rewrite Hs, skipn_all. reflexivity.
Qed.

Lemma replace_before_tail (p t : str) :
  p <> [] ->
  (forall i, startswith p (skipn i (t ++ p)) = true ->
             i + length p = length (t ++ p)) ->
  replace p [] (t ++ p) = t.
Proof.
  intros Hp. induction t as [|c t IH]; intros H.
  - apply replace_self; [exact Hp | reflexivity].
  - cbn [app].
    destruct (startswith p (c :: t ++ p)) eqn:H0.
    + specialize (H 0 H0). cbn [app length] in H. rewrite length_app in H.
      lia.
    + rewrite replace_cons_miss by exact H0. f_equal. apply IH.
      intros i Hi. specialize (H (S i) Hi). cbn [app length] in H. lia.
Qed.

Lemma replace_trailing (p s : str) :
  p <> [] ->
  only_trailing p s = true ->
  replace p [] s = Spec.strip_suffix p s.
Proof.
  intros Hp H. pose proof (@occurs_only_spec p s _ Hp H) as Hocc.
  assert (Hpos : forall i, startswith p (skipn i s) = true ->
                           i + length p = length s).
  { intros i Hi. apply Nat.eqb_eq. exact (Hocc i Hi). }
  unfold Spec.strip_suffix, Spec.strip_leading.
  destruct (startswith (rev p) (rev s)) eqn:He.
  - apply startswith_split in He.
    assert (Hs : s = rev (skipn (length (rev p)) (rev s)) ++ p).
    { rewrite <- (rev_involutive s) at 1. rewrite He at 1.
      rewrite rev_app_distr, rev_involutive. reflexivity. }
    set (t := rev (skipn (length (rev p)) (rev s))) in *.
    rewrite Hs at 1. apply replace_before_tail; [exact Hp|].
    rewrite <- Hs. exact Hpos.
  - rewrite rev_involutive. apply replace_none. intros i.
    destruct (startswith p (skipn i s)) eqn:Hi; [|reflexivity].
    exfalso. pose proof (Hpos i Hi) as Hlen.
    apply startswith_split in Hi.
    assert (Hrest : skipn (length p) (skipn i s) = []).
    { apply length_zero_iff_nil. rewrite !length_skipn. lia. }
    rewrite Hrest, app_nil_r in Hi.
    assert (Hs : rev s = rev p ++ rev (firstn i s)).
    { rewrite <- (firstn_skipn i s) at 1. rewrite Hi.
      apply rev_app_distr. }
    rewrite Hs, startswith_app in He. discriminate.
Qed.

(** C5, at the failing input: for the URL [https://api.company.com/jobs],
    whose host is [api.company.com], the local fallback returns
    ["apipany link shared"]: [str.replace] removes the [.com] inside
    [.company] as well as the suffix.  Stripping the leading [www.] and the
    suffixes [.com], [.org], [.net], as the claim says, gives
    ["api.company link shared"]. *)
Lemma C5_inner_suffix_removed :
  urlparse_netloc Sample.lib (lit "https://api.company.com/jobs")
  = Ok (lit "api.company.com") /\
  fst (App.generate_simple_summary Sample.lib []
         (Some (lit "https://api.company.com/jobs")) (Sample.world None))
  = Ok (lit "apipany link shared") /\
  Spec.host_summary (lit "api.company.com") = lit "api.company link shared" /\
  fst (App.generate_simple_summary Sample.lib []
         (Some (lit "https://api.company.com/jobs")) (Sample.world None))
  <> Ok (Spec.host_summary (lit "api.company.com")).
Proof.
  split; [vm_compute; reflexivity|].
  split; [vm_compute; reflexivity|].
  split; [vm_compute; reflexivity|].
  vm_compute. discriminate.
Qed.

(** C6, as stated, fails on the code: ["The quick brown fox jumps"] yields
    ["quick brown jumps"], because [fox] has three characters and only
    longer words are kept. *)
Lemma C6_counterexample :
  fst (App.generate_simple_summary Sample.lib
         (lit "The quick brown fox jumps") None (Sample.world None))
  = Ok (lit "quick brown jumps") /\
  fst (App.generate_simple_summary Sample.lib
         (lit "The quick brown fox jumps") None (Sample.world None))
  <> Ok (lit "quick brown fox jumps").
Proof.
  split; [vm_compute; reflexivity|]. vm_compute. discriminate.
Qed.

(** C6 (amended): for every content without URL the local fallback
    lower-cases the content, splits it on white space, drops the stop words,
    keeps the words longer than 3 characters, takes the first 4 in their
    order and joins them with single spaces, and returns
    ["message received"] when no word remains; in particular
    ["The quick brown fox jumps"], lower-cased to
    ["the quick brown fox jumps"], yields ["quick brown jumps"]. *)
Theorem C6_keyword_summary {E : Type} (L : PyLib) (content : str)
    (url : option str) (w : World E) :
  truthy_opt url = false ->
  App.generate_simple_summary L content url w
  = (Ok (Spec.keyword_summary (str_lower L content)), w) /\
  (str_lower L content = lit "the quick brown fox jumps" ->
   fst (App.generate_simple_summary L content url w)
   = Ok (lit "quick brown jumps")).
Proof.
  intros Hu. split; [apply simple_summary_keywords, Hu|].
  intros Hl. rewrite (simple_summary_keywords L content url w Hu), Hl.
  vm_compute. reflexivity.
Qed.

Lemma C6_witness :
  App.generate_simple_summary Sample.lib (lit "The quick brown fox jumps")
    None (Sample.world None)
  = (Ok (lit "quick brown jumps"), Sample.world None) /\
  App.generate_simple_summary Sample.lib (lit "Is it on?") (Some [])
    (Sample.world None)
  = (Ok (lit "message received"), Sample.world None).
Proof.
  split.
  - rewrite (proj1 (C6_keyword_summary Sample.lib
                      (lit "The quick brown fox jumps") None
                      (Sample.world None) eq_refl)).
    vm_compute. reflexivity.
  - rewrite (proj1 (C6_keyword_summary Sample.lib (lit "Is it on?")
                      (Some []) (Sample.world None) eq_refl)).
    vm_compute. reflexivity.
Defined.

(* ================================================================= *)
(** ** The claim about the link extractor *)

(** C7, as stated, fails on the code: in a class of the pattern, [$-_] is the
    range from [$] to [_], which holds [/], [:], [?] and [=] among others;
    the code therefore returns the URL with its path and query, where the
    symbols read one by one stop at the first [/]. *)
Lemma C7_counterexample :
  UrlPattern.findall (lit "see http://example.com/page?id=7 now")
  = [lit "http://example.com/page?id=7"] /\
  UrlPattern.spec_findall (lit "see http://example.com/page?id=7 now")
  = [lit "http://example.com"] /\
  UrlPattern.findall (lit "see http://example.com/page?id=7 now")
  <> UrlPattern.spec_findall (lit "see http://example.com/page?id=7 now").
Proof.
  split; [vm_compute; reflexivity|].
  split; [vm_compute; reflexivity|].
  vm_compute. discriminate.
Qed.

(** C7 (amended): for every text, [findall] returns, from left to right and
    with repeated occurrences kept, exactly the non-overlapping occurrences
    of [http://] or [https://] followed by the longest non-empty run of
    characters among [!], the ASCII characters from [$] to [_] (which
    include the digits, the upper-case letters and [% & ' ( ) * + , - . / :
    ; < = > ? @ [ \ ] ^]) and the lower-case letters; the empty text
    yields the empty list, and [findall] is a total function. *)
Theorem C7_findall_occurrences (s : str) :
  UrlPattern.findall [] = [] /\
  UrlPattern.url_occurrences s (UrlPattern.findall s) /\
  (forall l, UrlPattern.url_occurrences s l -> l = UrlPattern.findall s) /\
  (forall c,
     UrlPattern.alt_letter c || UrlPattern.alt_digit c
     || UrlPattern.alt_range c || UrlPattern.alt_punct c
     = UrlPattern.url_char c) /\
  fst (UrlPattern.group_repeat s) = UrlPattern.url_run s.
Proof.
  split; [reflexivity|].
  split; [apply UrlPatternFacts.findall_occurrences|].
  split; [apply UrlPatternFacts.occurrences_findall|].
  split; [apply UrlPatternFacts.alternatives_url_char|].
  rewrite UrlPatternFacts.group_repeat_run. reflexivity.
Qed.

(* ================================================================= *)
(** ** The claims about the summariser chain *)

(** C2, at the failing input: the model server of main.py answers 200 with
    an empty [response] text, and [generate_summary_with_ollama] returns the
    empty string; so does [generate_summary_with_openai] when the chat model
    answers with white space only.  Neither has the guard that
    [generate_summary_with_huggingface] has for an empty list of words. *)
Lemma C2_empty_summary :
  fst (Main.generate_summary_with_ollama
         (Sample.externals Sample.empty_reply) Sample.lib
         (lit "hello there") None (Sample.world None))
  = Ok [] /\
  fst (Main.generate_summary_with_ollama
         (Sample.externals Sample.blank_chat) Sample.lib
         (lit "hello there") None (Sample.world None))
  = Ok [] /\
  fst (generate_summary_with_openai
         (Sample.externals Sample.blank_chat) Sample.lib
         (lit "hello there") None (Sample.world None))
  = Ok [].
Proof. repeat split; vm_compute; reflexivity. Qed.

Section ChainFacts.

Context {E : Type} (X : Externals E) (L : PyLib).

(** [extract_page_title] issues one GET and returns. *)
Lemma extract_page_title_run (url : str) (w : World E) :
  exists t w' c,
    extract_page_title X L url w = (Ok t, w') /\
    calls w' = calls w ++ [c] /\ is_chat c = false.
Proof.
  unfold extract_page_title, try_except, bind, requests_get, request, lift,
    ret, logger.
  destruct (get X url _ (ext w)) as [[response|e] e']; simpl.
  - destruct (Z.eqb (status_code response) 200).
    + destruct (soup_title_text L (text response)) as [[t|]|e]; simpl;
        do 3 eexists; (split; [reflexivity|]); split; reflexivity.
    + do 3 eexists; (split; [reflexivity|]); split; reflexivity.
  - do 3 eexists; (split; [reflexivity|]); split; reflexivity.
Qed.

(** [chat_summary] issues one chat completion. *)
Lemma chat_summary_run (prompt : str) (w : World E) :
  exists r w' c,
    chat_summary X prompt w = (r, w') /\
    calls w' = calls w ++ [c] /\ is_chat c = true.
Proof.
  unfold chat_summary, bind, request, lift, ret.
  destruct (chat_create X _ _ (ext w)) as [[choices|e] e']; simpl.
  - destruct (first_choice_content choices); simpl;
      do 3 eexists; (split; [reflexivity|]); split; reflexivity.
  - do 3 eexists; (split; [reflexivity|]); split; reflexivity.
Qed.

(** The handler of [generate_summary_with_openai] leaves the requests as
    they are. *)
Lemma openai_handler_calls (r : result str) (w : World E) :
  calls (snd (match r with
              | Ok a => (Ok a, w)
              | Raise e =>
                  (logger ERROR (lit "Error with OpenAI API: " ++ e) ;;
                   ret (lit "Summary unavailable")) w
              end))
  = calls w.
Proof. destruct r; reflexivity. Qed.

(** [generate_summary_with_openai] issues one chat completion, and it is
    its last request. *)
Lemma generate_summary_with_openai_calls (content : str) (url : option str)
    (w : World E) :
  exists d c,
    calls (snd (generate_summary_with_openai X L content url w))
    = calls w ++ d ++ [c] /\
    is_chat c = true.
Proof.
  unfold generate_summary_with_openai, try_except.
  destruct url as [[|c0 u]|].
  - unfold bind at 1. unfold ret at 1.
    match goal with
    | |- context [chat_summary X ?p ?w0] =>
        destruct (chat_summary_run p w0) as (r & w1 & c & -> & Hc & Hchat)
    end.
    exists [], c. rewrite openai_handler_calls. auto.
  - destruct (extract_page_title_run (c0 :: u) w)
      as (t & w1 & g & Ht & Hcalls & _).
    unfold bind at 1. unfold bind at 1. rewrite Ht. unfold ret at 1.
    match goal with
    | |- context [chat_summary X ?p ?w0] =>
        destruct (chat_summary_run p w0) as (r & w2 & c & -> & Hc & Hchat)
    end.
    exists [g], c. rewrite openai_handler_calls, Hc, Hcalls, <- app_assoc.
    auto.
  - unfold bind at 1. unfold ret at 1.
    match goal with
    | |- context [chat_summary X ?p ?w0] =>
        destruct (chat_summary_run p w0) as (r & w1 & c & -> & Hc & Hchat)
    end.
    exists [], c. rewrite openai_handler_calls. auto.
Qed.

End ChainFacts.

(* ================================================================= *)
(** ** When a backend gives no usable result *)

Section BackendFacts.

Context {E : Type} (X : Externals E) (L : PyLib).

Lemma try_except_bind_Ok {A B} (m : M E A) (k : A -> M E B)
    (h : exn -> M E B) (w w' : World E) (a : A) :
  m w = (Ok a, w') -> try_except (bind m k) h w = try_except (k a) h w'.
Proof. intros H. unfold try_except, bind. rewrite H. reflexivity. Qed.

(** The title and the state that [title_step] names are those of the call
    of [extract_page_title], whatever has been logged before it. *)
Lemma title_step_run (c : char) (u : str) (w w0 : World E) :
  ext w0 = ext w ->
  exists w1,
    extract_page_title X L (c :: u) w0
    = (Ok (fst (title_step X L (Some ((c :: u) : str)) w)), w1) /\
    ext w1 = snd (title_step X L (Some ((c :: u) : str)) w).
Proof.
  intros He.
  unfold title_step, extract_page_title, try_except, bind, requests_get,
    request, lift, ret, logger.
  rewrite He.
  destruct (get X (c :: u) _ (ext w)) as [[response|e] e'];
    cbn beta iota;
    [destruct (Z.eqb (status_code response) 200);
     [destruct (soup_title_text L (text response)) as [[t|]|e];
      cbn beta iota|]|];
    eexists; split; reflexivity.
Qed.

(** The value of the local fallback does not depend on the world. *)
Lemma simple_summary_value (content : str) (url : option str)
    (w w' : World E) :
  fst (App.generate_simple_summary L content url w)
  = fst (App.generate_simple_summary L content url w').
Proof.
  unfold App.generate_simple_summary, try_except, bind, lift, ret, logger.
  destruct url as [[|c u]|]; try reflexivity.
  destruct (urlparse_netloc L (c :: u)); reflexivity.
Qed.

(** Reading a response that is not usable gives no summary. *)
Lemma read_summary_unusable (response : Response) (w : World E) :
  match json_body response with
  | Ok (JList (JDict items :: _)) =>
      match dict_lookup (lit "summary_text") items with
      | Some (JStr _) | None => true
      | Some _ => false
      end
  | _ => false
  end = false ->
  (App.read_summary response w = (Ok None, w)) \/
  (exists e, App.read_summary response w = (Raise e, w)).
Proof.
  intros H. unfold App.read_summary, bind, lift, ret.
  destruct (json_body response) as [j|e]; [|right; eexists; reflexivity].
  destruct j as [| | | | |[|first rest]|]; try (left; reflexivity).
  destruct first as [| | | | | |items]; try (right; eexists; reflexivity).
  cbn [json_get].
  destruct (dict_lookup (lit "summary_text") items) as [v|];
    [|discriminate].
  destruct v; try discriminate; right; eexists; reflexivity.
Qed.

(** From the POST on, the [try] statement of
    [generate_summary_with_huggingface] gives no summary when the backend
    gives no usable result. *)
Lemma hf_rest_fails (headers : list (str * str)) (payload : json)
    (w : World E) :
  hf_fails_at X headers payload (ext w) = true ->
  exists w',
    try_except
      (response <- requests_post X App.hf_url headers payload 30 ;;
       if Z.eqb (status_code response) 200
       then
         r <- App.read_summary response ;;
         match r with
         | Some s => ret (Some s)
         | None => App.warn_status response
         end
       else if Z.eqb (status_code response) 503
       then
         logger INFO
           (lit "HuggingFace model loading, retrying in 10 seconds...") ;;
         request (Sleep 10) (fun e => (Ok tt, e)) ;;
         response2 <- requests_post X App.hf_url headers payload 30 ;;
         if Z.eqb (status_code response2) 200
         then
           r <- App.read_summary response2 ;;
           match r with
           | Some s => ret (Some s)
           | None => App.warn_status response2
           end
         else App.warn_status response2
       else App.warn_status response)
      (fun e =>
         logger ERROR (lit "Error with HuggingFace API: " ++ e) ;;
         ret None) w
    = (Ok None, w').
Proof.
  unfold hf_fails_at, hf_usable. intros Hf.
  unfold try_except. unfold bind at 1. unfold requests_post at 1.
  unfold request at 1.
  destruct (post X App.hf_url headers payload (ext w)) as [[r|e] e1];
    [|eexists; reflexivity].
  cbn beta iota.
  set (w1 := mkWorld e1 _ _ _ _).
  destruct (Z.eqb (status_code r) 200) eqn:H200.
  - assert (H503 : Z.eqb (status_code r) 503 = false)
      by (apply Z.eqb_eq in H200; rewrite H200; reflexivity).
    rewrite H503 in Hf. cbn [andb negb] in Hf.
    apply negb_true_iff in Hf.
    unfold bind at 1.
    destruct (read_summary_unusable r w1 Hf) as [-> | [e ->]];
      eexists; reflexivity.
  - destruct (Z.eqb (status_code r) 503); [|eexists; reflexivity].
    unfold bind at 1. unfold logger at 1. cbn beta iota.
    unfold bind at 1. unfold request at 1. cbn beta iota.
    unfold bind at 1. unfold requests_post at 1. unfold request at 1.
    cbn [ext calls sheet log twilio_phone_number w1].
    destruct (post X App.hf_url headers payload e1) as [[r2|e2] e3];
      [|eexists; reflexivity].
    cbn [fst] in Hf. cbn beta iota.
    destruct (Z.eqb (status_code r2) 200); [|eexists; reflexivity].
    cbn [andb] in Hf. apply negb_true_iff in Hf.
    unfold bind at 1.
    match goal with
    | |- context [App.read_summary r2 ?w2] =>
        destruct (read_summary_unusable r2 w2 Hf) as [-> | [e ->]]
    end;
      eexists; reflexivity.
Qed.

Lemma huggingface_try_fails (content : str) (url : option str)
    (w : World E) :
  hf_fails X L content url w = true ->
  exists w', App.huggingface_try X L content url w = (Ok None, w').
Proof.
  unfold hf_fails. intros Hf.
  unfold App.huggingface_try, App.huggingface_try_body.
  assert (Hprefix :
            exists w0,
              (match environ_get X (lit "HUGGINGFACE_API_KEY") with
               | Some (c :: k) =>
                   ret [(lit "Authorization", lit "Bearer " ++ c :: k)]
               | _ =>
                   logger WARNING
                     (lit "HUGGINGFACE_API_KEY not found, trying without auth") ;;
                   ret []
               end) w
              = (Ok (hf_headers X), w0) /\ ext w0 = ext w).
  { unfold hf_headers.
    destruct (environ_get X (lit "HUGGINGFACE_API_KEY")) as [[|c k]|];
      eexists; split; reflexivity. }
  destruct Hprefix as (w0 & Hheaders & He0).
  erewrite try_except_bind_Ok by exact Hheaders.
  destruct url as [[|c u]|].
  - erewrite try_except_bind_Ok by reflexivity.
    apply hf_rest_fails. rewrite He0. exact Hf.
  - destruct (title_step_run c u w w0 He0) as (w1 & Htitle & He1).
    revert Hf Htitle He1.
    match goal with
    | |- context [title_step X L ?x w] =>
        destruct (title_step X L x w) as [page_title e]
    end.
    cbn [fst snd]. intros Hf Htitle He1.
    erewrite try_except_bind_Ok
      by (erewrite bind_Ok by exact Htitle; reflexivity).
    apply hf_rest_fails. rewrite He1. exact Hf.
  - erewrite try_except_bind_Ok by reflexivity.
    apply hf_rest_fails. rewrite He0. exact Hf.
Qed.

(** From the POST on, the [try] statement of [generate_summary_with_ollama]
    gives no summary exactly when the answer is not usable. *)
Lemma ollama_rest_run (payload : json) (w : World E) :
  exists r w',
    try_except
      (response <- requests_post X Main.ollama_url [] payload 30 ;;
       if Z.eqb (status_code response) 200
       then
         result <- lift (json_body response) ;;
         v <- lift (json_get result (lit "response")) ;;
         summary <- lift (json_strip v) ;;
         let words := firstn 5 (split summary) in
         ret (Some (join (lit " ") words))
       else ret None)
      (fun e =>
         logger ERROR (lit "Error with Ollama API: " ++ e) ;;
         ret None) w
    = (Ok r, w') /\
    (r = None <->
     ollama_usable (fst (post X Main.ollama_url [] payload (ext w)))
     = false).
Proof.
  unfold ollama_usable, try_except, bind, requests_post, request, lift, ret,
    logger.
  destruct (post X Main.ollama_url [] payload (ext w)) as [[r|e] e1];
    cbn [fst]; cbn beta iota.
  - destruct (Z.eqb (status_code r) 200); cbn [andb].
    + destruct (json_body r) as [j|e]; cbn beta iota.
      * destruct j as [| | | | | |items]; cbn [json_get];
          try (do 2 eexists; split; [reflexivity|]; split; reflexivity).
        destruct (dict_lookup (lit "response") items) as [v|];
          [destruct v|]; cbn [json_strip];
          do 2 eexists; (split; [reflexivity|]);
          split; intros H; first [reflexivity | discriminate].
      * do 2 eexists; split; [reflexivity|]; split; reflexivity.
    + do 2 eexists; split; [reflexivity|]; split; reflexivity.
  - do 2 eexists; split; [reflexivity|]; split; reflexivity.
Qed.

Lemma ollama_try_run (content : str) (url : option str) (w : World E) :
  exists r w',
    Main.ollama_try X L content url w = (Ok r, w') /\
    (r = None <-> ollama_fails X L content url w = true).
Proof.
  unfold ollama_fails, Main.ollama_try, Main.ollama_try_body.
  destruct url as [[|c u]|].
  - erewrite try_except_bind_Ok by reflexivity.
    destruct (ollama_rest_run
                (ollama_payload (ollama_prompt content (Some []) None)) w)
      as (r & w' & Hrun & Hr).
    exists r, w'. split; [exact Hrun|].
    rewrite Hr. cbn [title_step]. rewrite negb_true_iff. reflexivity.
  - destruct (title_step_run c u w w eq_refl) as (w1 & Htitle & He1).
    revert Htitle He1.
    match goal with
    | |- context [title_step X L ?x w] =>
        destruct (title_step X L x w) as [page_title e]
    end.
    cbn [fst snd]. intros Htitle He1.
    erewrite try_except_bind_Ok
      by (erewrite bind_Ok by exact Htitle; reflexivity).
    destruct (ollama_rest_run
                (ollama_payload
                   (ollama_prompt content (Some (c :: u)) page_title)) w1)
      as (r & w' & Hrun & Hr).
    exists r, w'. split; [exact Hrun|].
    rewrite Hr, He1, negb_true_iff. reflexivity.
  - erewrite try_except_bind_Ok by reflexivity.
    destruct (ollama_rest_run
                (ollama_payload (ollama_prompt content None None)) w)
      as (r & w' & Hrun & Hr).
    exists r, w'. split; [exact Hrun|].
    rewrite Hr. cbn [title_step]. rewrite negb_true_iff. reflexivity.
Qed.

(** [generate_summary_with_openai] returns the failure text when the chat
    completion of its run fails. *)
Lemma chat_rest_fails (prompt : str) (w : World E) :
  match fst (chat_create X (lit "gpt-3.5-turbo") (chat_messages prompt)
               (ext w)) with
  | Ok (Some _ :: _) => false
  | _ => true
  end = true ->
  fst (try_except (chat_summary X prompt)
         (fun e =>
            logger ERROR (lit "Error with OpenAI API: " ++ e) ;;
            ret (lit "Summary unavailable")) w)
  = Ok (lit "Summary unavailable").
Proof.
  unfold chat_messages, try_except, chat_summary, bind, request, lift, ret,
    logger.
  destruct (chat_create X _ _ (ext w)) as [[[|[c|] rest]|e] e1];
    cbn [fst first_choice_content]; intros H;
    first [discriminate | reflexivity].
Qed.

Lemma openai_fails (content : str) (url : option str) (w : World E) :
  chat_fails X L content url w = true ->
  fst (generate_summary_with_openai X L content url w)
  = Ok (lit "Summary unavailable").
Proof.
  unfold chat_fails, generate_summary_with_openai. intros Hf.
  destruct url as [[|c u]|].
  - erewrite try_except_bind_Ok by reflexivity.
    apply chat_rest_fails. exact Hf.
  - destruct (title_step_run c u w w eq_refl) as (w1 & Htitle & He1).
    revert Hf Htitle He1.
    match goal with
    | |- context [title_step X L ?x w] =>
        destruct (title_step X L x w) as [page_title e]
    end.
    cbn [fst snd]. intros Hf Htitle He1.
    erewrite try_except_bind_Ok
      by (erewrite bind_Ok by exact Htitle; reflexivity).
    apply chat_rest_fails. rewrite He1. exact Hf.
  - erewrite try_except_bind_Ok by reflexivity.
    apply chat_rest_fails. exact Hf.
Qed.

End BackendFacts.

(** C3, as stated, fails on the code.  In app.py, with the primary backend
    down and a chat model that would answer, the summary is the one of the
    local fallback and no chat completion is requested: the secondary
    backend is not attempted.  In main.py, with both backends down, the
    summary is ["Summary unavailable"]: the local fallback is not used. *)
Lemma C3_counterexample :
  fst (App.generate_summary_with_huggingface
         (Sample.externals Sample.chat_only) Sample.lib (lit "hello")
         (Some (lit "https://www.example.com/page")) (Sample.world None))
  = Ok (lit "example link shared") /\
  existsb is_chat
    (calls (snd (App.generate_summary_with_huggingface
                   (Sample.externals Sample.chat_only) Sample.lib
                   (lit "hello") (Some (lit "https://www.example.com/page"))
                   (Sample.world None))))
  = false /\
  fst (Main.generate_summary_with_ollama
         (Sample.externals Sample.offline) Sample.lib
         (lit "The quick brown fox jumps") None (Sample.world None))
  = Ok (lit "Summary unavailable").
Proof. repeat split; vm_compute; reflexivity. Qed.

(** C3 (amended): each variant has a chain of two steps.  In app.py, when
    the Hugging Face backend gives no usable result in the run (its POST
    raises, or the answer has a status other than 200, a body that is not
    JSON, not a non-empty list, or a first element without a readable
    [summary_text]; after a 503, the same for the one repeated POST), the
    summary is the one of the local fallback; and no chat completion is
    ever requested.  In main.py, when the Ollama backend gives no usable
    result in the run (its POST raises, or the answer has a status other
    than 200 or a body that is not a JSON dict with a readable [response]),
    the run goes on as [generate_summary_with_openai] from the world that
    the Ollama step leaves: a chat completion is its last request, and when
    that completion fails in this run the summary is
    ["Summary unavailable"], not a local fallback.  When the Ollama backend
    gives a usable result, no chat completion is requested. *)
Theorem C3_fallback_order {E : Type} (X : Externals E) (L : PyLib)
    (content : str) (url : option str) (w : World E) :
  (hf_fails X L content url w = true ->
   fst (App.generate_summary_with_huggingface X L content url w)
   = fst (App.generate_simple_summary L content url w)) /\
  calls_extend (fun c => is_chat c = false) w
    (snd (App.generate_summary_with_huggingface X L content url w)) /\
  (ollama_fails X L content url w = true ->
   Main.generate_summary_with_ollama X L content url w
   = generate_summary_with_openai X L content url
       (snd (Main.ollama_try X L content url w)) /\
   (exists d c,
      calls (snd (Main.generate_summary_with_ollama X L content url w))
      = calls (snd (Main.ollama_try X L content url w)) ++ d ++ [c] /\
      is_chat c = true) /\
   (chat_fails X L content url (snd (Main.ollama_try X L content url w))
    = true ->
    fst (Main.generate_summary_with_ollama X L content url w)
    = Ok (lit "Summary unavailable"))) /\
  (ollama_fails X L content url w = false ->
   calls_extend (fun c => is_chat c = false) w
     (snd (Main.generate_summary_with_ollama X L content url w))).
Proof.
  split.
  { intros Hf.
    destruct (huggingface_try_fails X L content url w Hf) as [w1 Htry].
    unfold App.generate_summary_with_huggingface.
    erewrite bind_Ok by exact Htry.
    apply simple_summary_value. }
  split.
  { apply (generate_summary_with_huggingface_keeps X L
             (F := calls_extend_frame (fun c => is_chat c = false))).
    intros c Hc. exact Hc. }
  destruct (ollama_try_run X L content url w) as (r & w1 & Htry & Hr).
  split.
  { intros Hf. apply Hr in Hf. subst r.
    assert (Hrun : Main.generate_summary_with_ollama X L content url w
                   = generate_summary_with_openai X L content url w1).
    { unfold Main.generate_summary_with_ollama.
      erewrite bind_Ok by exact Htry. reflexivity. }
    rewrite Htry. cbn [snd].
    split; [exact Hrun|]. rewrite Hrun.
    split; [apply generate_summary_with_openai_calls|].
    apply openai_fails. }
  { intros Hf. destruct r as [s|].
    - pose proof (ollama_try_keeps X L
                    (F := calls_extend_frame (fun c => is_chat c = false))
                    content url (fun c Hc => Hc) w) as Hk.
      unfold Main.generate_summary_with_ollama.
      erewrite bind_Ok by exact Htry. rewrite Htry in Hk. exact Hk.
    - rewrite (proj1 Hr eq_refl) in Hf. discriminate. }
Qed.

Lemma C3_witness :
  (fst (App.generate_summary_with_huggingface
          (Sample.externals Sample.chat_only) Sample.lib
          (lit "The quick brown fox jumps") None (Sample.world None))
   = Ok (lit "quick brown jumps") /\
   fst (App.generate_summary_with_huggingface
          (Sample.externals Sample.server_error) Sample.lib
          (lit "hello") (Some (lit "https://www.example.com/page"))
          (Sample.world None))
   = Ok (lit "example link shared")) /\
  (Main.generate_summary_with_ollama
     (Sample.externals Sample.server_error) Sample.lib
     (lit "The quick brown fox jumps") None (Sample.world None)
   = generate_summary_with_openai
       (Sample.externals Sample.server_error) Sample.lib
       (lit "The quick brown fox jumps") None
       (snd (Main.ollama_try (Sample.externals Sample.server_error)
               Sample.lib (lit "The quick brown fox jumps") None
               (Sample.world None)))) /\
  fst (Main.generate_summary_with_ollama
         (Sample.externals Sample.offline) Sample.lib
         (lit "The quick brown fox jumps") None (Sample.world None))
  = Ok (lit "Summary unavailable").
Proof.
  split; [split|split].
  - exact (proj1 (C3_fallback_order (Sample.externals Sample.chat_only)
                    Sample.lib (lit "The quick brown fox jumps") None
                    (Sample.world None)) eq_refl).
  - exact (proj1 (C3_fallback_order (Sample.externals Sample.server_error)
                    Sample.lib (lit "hello")
                    (Some (lit "https://www.example.com/page"))
                    (Sample.world None)) eq_refl).
  - exact (proj1 (proj1 (proj2 (proj2
             (C3_fallback_order (Sample.externals Sample.server_error)
                Sample.lib (lit "The quick brown fox jumps") None
                (Sample.world None)))) eq_refl)).
  - exact (proj2 (proj2 (proj1 (proj2 (proj2
             (C3_fallback_order (Sample.externals Sample.offline)
                Sample.lib (lit "The quick brown fox jumps") None
                (Sample.world None)))) eq_refl)) eq_refl).
Defined.

(* ================================================================= *)
(** * Further properties of the code *)

(* ================================================================= *)
(** ** Words *)

Lemma split_from_app (w u s : str) :
  forallb (fun c => negb (isspace c)) u = true ->
  split_from w (u ++ s) = split_from (w ++ u) s.
Proof.
  revert w. induction u as [|c u IH]; intros w Hu.
  - rewrite app_nil_r. reflexivity.
  - cbn [forallb] in Hu. apply andb_true_iff in Hu. destruct Hu as [Hc Hu].
    apply negb_true_iff in Hc. cbn [app split_from]. rewrite Hc.
    rewrite IH by exact Hu. rewrite <- app_assoc. reflexivity.
Qed.

Lemma is_word_inv (w : str) :
  is_word w = true ->
  w <> [] /\ forallb (fun c => negb (isspace c)) w = true.
Proof.
  unfold is_word. intros H. apply andb_true_iff in H. destruct H as [Ht Hw].
  split; [|exact Hw]. intros ->. discriminate.
Qed.

Lemma split_from_space (w : str) (c : char) (s : str) :
  w <> [] -> isspace c = true ->
  split_from w (c :: s) = w :: split_from [] s.
Proof.
  intros Hw Hc. cbn [split_from]. rewrite Hc.
  destruct w; [congruence | reflexivity].
Qed.

(** The words that [split] returns are words. *)
Lemma split_from_words (s w : str) :
  forallb (fun c => negb (isspace c)) w = true ->
  Forall (fun x => is_word x = true) (split_from w s).
Proof.
  revert w. induction s as [|c s IH]; intros w Hw.
  - cbn [split_from]. destruct w as [|x w]; constructor; [|constructor].
    unfold is_word. rewrite Hw. reflexivity.
  - cbn [split_from]. destruct (isspace c) eqn:Hc.
    + destruct w as [|x w]; [apply IH; reflexivity|].
      constructor; [|apply IH; reflexivity].
      unfold is_word. rewrite Hw. reflexivity.
    + apply IH. rewrite forallb_app, Hw. cbn. rewrite Hc. reflexivity.
Qed.

Lemma split_words (s : str) : Forall (fun x => is_word x = true) (split s).
Proof. apply split_from_words. reflexivity. Qed.

(** Joining words with single spaces and splitting again gives the words
    back. *)
Lemma split_join (ws : list str) :
  Forall (fun x => is_word x = true) ws ->
  split (join (lit " ") ws) = ws.
Proof.
  induction 1 as [|w ws Hw Hws IH]; [reflexivity|].
  apply is_word_inv in Hw. destruct Hw as [Hne Hclean].
  unfold split in *. destruct ws as [|w' ws].
  - cbn [join]. rewrite <- (app_nil_r w) at 1.
    rewrite split_from_app by exact Hclean. cbn [app split_from].
    destruct w; [congruence | reflexivity].
  - change (join (lit " ") (w :: w' :: ws))
      with (w ++ lit " " ++ join (lit " ") (w' :: ws)).
    rewrite split_from_app by exact Hclean. cbn [app].
    change (lit " " ++ join (lit " ") (w' :: ws))
      with (32%N :: join (lit " ") (w' :: ws)).
    rewrite split_from_space; [|exact Hne|reflexivity].
    rewrite IH. reflexivity.
Qed.

Lemma word_count_join_firstn (n : nat) (s : str) :
  word_count (join (lit " ") (firstn n (split s))) <= n.
Proof.
  unfold word_count. rewrite split_join.
  - apply firstn_le_length.
  - apply Forall_forall. intros x Hx.
    apply (proj1 (Forall_forall _ _) (split_words s)).
    apply (In_nth _ _ []) in Hx. destruct Hx as (i & Hi & <-).
    rewrite length_firstn in Hi. rewrite nth_firstn.
    destruct (i <? n) eqn:Hlt; [|apply Nat.ltb_ge in Hlt; lia].
    apply nth_In. lia.
Qed.

Lemma join_not_empty (w : str) (ws : list str) :
  w <> [] -> join (lit " ") (w :: ws) <> [].
Proof.
  intros Hw. destruct w as [|c w]; [congruence|].
  destruct ws; cbn [join app]; discriminate.
Qed.

(* ================================================================= *)
(** ** What a computation returns *)

Section Yields.

Context {E : Type}.

Lemma yields_ret {A} (Q : A -> Prop) (a : A) :
  Q a -> yields (E := E) Q (ret a).
Proof. intros H w a' w' Hr. injection Hr as <- _. exact H. Qed.

Lemma yields_bind {A B} (P : A -> Prop) (Q : B -> Prop) (m : M E A)
    (k : A -> M E B) :
  yields P m -> (forall a, P a -> yields Q (k a)) -> yields Q (bind m k).
Proof.
  intros Hm Hk w b w' Hr. unfold bind in Hr.
  destruct (m w) as [[a|e] w1] eqn:Hmw; [|discriminate].
  exact (Hk a (Hm _ _ _ Hmw) _ _ _ Hr).
Qed.

Lemma yields_any {A} (m : M E A) : yields (fun _ => True) m.
Proof. intros w a w' _. exact I. Qed.

Lemma yields_then {A B} (Q : B -> Prop) (m : M E A) (k : A -> M E B) :
  (forall a, yields Q (k a)) -> yields Q (bind m k).
Proof.
  intros Hk. apply (yields_bind (P := fun _ => True)); [apply yields_any|].
  intros a _. apply Hk.
Qed.

Lemma yields_try_except {A} (Q : A -> Prop) (m : M E A) (h : exn -> M E A) :
  yields Q m -> (forall e, yields Q (h e)) -> yields Q (try_except m h).
Proof.
  intros Hm Hh w a w' Hr. unfold try_except in Hr.
  destruct (m w) as [[a0|e] w1] eqn:Hmw.
  - injection Hr as <- _. exact (Hm _ _ _ Hmw).
  - exact (Hh e _ _ _ Hr).
Qed.

Lemma yields_weaken {A} (P Q : A -> Prop) (m : M E A) :
  (forall a, P a -> Q a) -> yields P m -> yields Q m.
Proof. intros H Hm w a w' Hr. exact (H a (Hm _ _ _ Hr)). Qed.

(** A computation that never raises and whose values satisfy [Q] returns
    such a value from every world. *)
Lemma returns_yields {A} (Q : A -> Prop) (m : M E A) (w : World E) :
  returns m -> yields Q m -> exists a w', m w = (Ok a, w') /\ Q a.
Proof.
  intros Hr Hy. destruct (Hr w) as [a Ha].
  destruct (m w) as [r w'] eqn:Hm. simpl in Ha. subst r.
  exists a, w'. split; [reflexivity | exact (Hy _ _ _ Hm)].
Qed.

End Yields.

Ltac yields_tac :=
  repeat first
    [ apply yields_then; intros ?
    | apply yields_try_except; [|intros ?]
    | match goal with
      | |- yields _ (match ?x with _ => _ end) => destruct x
      end ].

(* ================================================================= *)
(** ** The summaries *)

Lemma firstn_words (n : nat) (s : str) :
  Forall (fun x => is_word x = true) (firstn n (split s)).
Proof.
  apply Forall_forall. intros x Hx.
  apply (proj1 (Forall_forall _ _) (split_words s)).
  rewrite <- (firstn_skipn n (split s)). apply in_or_app. left. exact Hx.
Qed.

(** The first words of a text, joined: at most as many words, and not
    empty unless the text has no word. *)
Lemma joined_words_short (n : nat) (s : str) (w : str) (ws : list str) :
  firstn n (split s) = w :: ws ->
  short_summary n (join (lit " ") (w :: ws)).
Proof.
  intros Hw. split.
  - apply join_not_empty.
    pose proof (firstn_words n s) as Hf. rewrite Hw in Hf.
    inversion Hf as [|? ? Hword _]. apply is_word_inv in Hword. tauto.
  - rewrite <- Hw. apply word_count_join_firstn.
Qed.

Section SummaryQuality.

Context {E : Type} (X : Externals E) (L : PyLib).

Lemma read_summary_short (response : Response) :
  yields (fun r => forall s, r = Some s -> short_summary 5 s)
         (App.read_summary (E := E) response).
Proof.
  unfold App.read_summary.
  apply yields_then; intros result.
  destruct result as [| | | | |[|first rest]|];
    try (apply yields_ret; intros ? ?; discriminate).
  apply yields_then; intros v. apply yields_then; intros summary.
  apply yields_ret. intros s Hs. injection Hs as <-.
  change (short_summary 5
            (match firstn 5 (split summary) with
             | [] => lit "Summary generated"
             | _ :: _ => join (lit " ") (firstn 5 (split summary))
             end)).
  destruct (firstn 5 (split summary)) as [|w ws] eqn:Hw.
  - split; [intros H; vm_compute in H; discriminate | vm_compute; lia].
  - apply (joined_words_short 5 summary Hw).
Qed.

Lemma huggingface_try_short (content : str) (url : option str) :
  yields (fun r => forall s, r = Some s -> short_summary 5 s)
         (App.huggingface_try X L content url).
Proof.
  assert (Hread : forall response,
            yields (fun r => forall s, r = Some s -> short_summary 5 s)
              (r <- App.read_summary (E := E) response ;;
               match r with
               | Some s => ret (Some s)
               | None => App.warn_status response
               end)).
  { intros response.
    eapply yields_bind; [apply read_summary_short|].
    intros [s|] Hs.
    - apply yields_ret. exact Hs.
    - unfold App.warn_status. apply yields_then; intros _.
      apply yields_ret. intros ? ?. discriminate. }
  assert (Hwarn : forall response,
            yields (fun r => forall s, r = Some s -> short_summary 5 s)
              (App.warn_status (E := E) response)).
  { intros response. unfold App.warn_status. apply yields_then; intros _.
    apply yields_ret. intros ? ?. discriminate. }
  unfold App.huggingface_try, App.huggingface_try_body.
  apply yields_try_except.
  - apply yields_then; intros headers. apply yields_then; intros t.
    apply yields_then; intros response.
    destruct (Z.eqb (status_code response) 200); [apply Hread|].
    destruct (Z.eqb (status_code response) 503); [|apply Hwarn].
    apply yields_then; intros _. apply yields_then; intros _.
    apply yields_then; intros response2.
    destruct (Z.eqb (status_code response2) 200);
      [apply Hread | apply Hwarn].
  - intros e. apply yields_then; intros _. apply yields_ret. intros ? ?. discriminate.
Qed.

Lemma replace_from_spaceless (p : str) (k : nat) (s : str) :
  spaceless s = true -> spaceless (replace_from p [] k s) = true.
Proof.
  unfold spaceless. revert k. induction s as [|c s IH]; intros k Hs.
  - reflexivity.
  - cbn [forallb] in Hs. apply andb_true_iff in Hs. destruct Hs as [Hc Hs].
    cbn [replace_from]. destruct k as [|k]; [|apply IH, Hs].
    destruct (startswith p (c :: s)); cbn [app forallb].
    + apply IH, Hs.
    + rewrite Hc. apply IH, Hs.
Qed.

Lemma link_shared_words (d : str) :
  spaceless d = true -> word_count (d ++ lit " link shared") <= 3.
Proof.
  intros Hd. unfold word_count, split.
  rewrite split_from_app by exact Hd. cbn [app].
  destruct d as [|c d]; vm_compute; lia.
Qed.

Lemma simple_summary_not_empty (content : str) (url : option str) :
  yields (fun s => s <> [])
         (App.generate_simple_summary (E := E) L content url).
Proof.
  unfold App.generate_simple_summary. apply yields_try_except.
  - destruct url as [[|c u]|].
    2:{ apply yields_then; intros d. apply yields_ret. intros H.
        apply app_eq_nil in H. destruct H as [_ H]. discriminate H. }
    all: apply yields_ret;
      match goal with
      | |- match ?k with _ => _ end <> [] => destruct k as [|w ws] eqn:Hk
      end;
      [ discriminate
      | apply join_not_empty; intros ->;
        assert (Hin : In [] (firstn 4
                  (filter (fun word => (3 <? length word)
                             && negb (str_in word App.common_words))
                     (split (str_lower L content)))))
          by (rewrite Hk; left; reflexivity);
        rewrite <- (firstn_skipn 4 (filter _ _)) in Hk;
        assert (Hin' : In [] (filter (fun word => (3 <? length word)
                             && negb (str_in word App.common_words))
                     (split (str_lower L content))))
          by (rewrite <- (firstn_skipn 4 (filter _ _)); apply in_or_app;
              left; exact Hin);
        apply filter_In in Hin'; destruct Hin' as [_ Hlen];
        discriminate Hlen ].
  - intros e. apply yields_then; intros _. apply yields_ret. discriminate.
Qed.

Lemma keywords_words (content : str) :
  Forall (fun x => is_word x = true)
    (firstn 4
       (filter (fun word => (3 <? length word)
                            && negb (str_in word App.common_words))
          (split (str_lower L content)))).
Proof.
  apply Forall_forall. intros x Hx.
  apply (proj1 (Forall_forall _ _) (split_words (str_lower L content))).
  assert (Hx' : In x (filter (fun word => (3 <? length word)
                                && negb (str_in word App.common_words))
                        (split (str_lower L content)))).
  { rewrite <- (firstn_skipn 4 (filter _ _)). apply in_or_app.
    left. exact Hx. }
  apply filter_In in Hx'. tauto.
Qed.

Lemma keyword_summary_short (content : str) :
  word_count
    (match
       firstn 4
         (filter (fun word => (3 <? length word)
                              && negb (str_in word App.common_words))
            (split (str_lower L content)))
     with
     | [] => lit "message received"
     | _ :: _ =>
         join (lit " ")
           (firstn 4
              (filter (fun word => (3 <? length word)
                                   && negb (str_in word App.common_words))
                 (split (str_lower L content))))
     end) <= 5.
Proof.
  pose proof (keywords_words content) as Hwords.
  assert (Hlen : length
            (firstn 4
               (filter (fun word => (3 <? length word)
                                    && negb (str_in word App.common_words))
                  (split (str_lower L content)))) <= 4)
    by apply firstn_le_length.
  set (k := firstn 4 _) in *. clearbody k.
  destruct k as [|w ws]; [vm_compute; lia|].
  unfold word_count. rewrite split_join by exact Hwords.
  apply Nat.le_trans with 4; [exact Hlen | lia].
Qed.

Lemma simple_summary_short (content : str) (url : option str) :
  spaceless_host L url ->
  yields (fun s => word_count s <= 5)
         (App.generate_simple_summary (E := E) L content url).
Proof.
  intros Hhost. unfold App.generate_simple_summary. apply yields_try_except.
  - destruct url as [[|c u]|].
    2:{ eapply (yields_bind (P := fun d => spaceless d = true)).
        - intros w d w' Hr. unfold lift in Hr.
          apply (Hhost c u d eq_refl). congruence.
        - intros d Hd. apply yields_ret.
          etransitivity; [apply link_shared_words|lia].
          unfold replace. repeat apply replace_from_spaceless. exact Hd. }
    all: apply yields_ret; apply keyword_summary_short.
  - intros e. apply yields_then; intros _. apply yields_ret.
    vm_compute. lia.
Qed.

Lemma chat_summary_short (prompt : str) :
  yields (fun s => word_count s <= 5) (chat_summary X prompt).
Proof.
  unfold chat_summary. apply yields_then; intros choices.
  apply yields_then; intros summary. apply yields_ret.
  apply word_count_join_firstn.
Qed.

Lemma generate_summary_with_openai_short (content : str)
    (url : option str) :
  yields (fun s => word_count s <= 5)
         (generate_summary_with_openai X L content url).
Proof.
  unfold generate_summary_with_openai. apply yields_try_except.
  - apply yields_then; intros prompt. apply chat_summary_short.
  - intros e. apply yields_then; intros _. apply yields_ret.
    vm_compute. lia.
Qed.

Lemma ollama_try_short (content : str) (url : option str) :
  yields (fun r => forall s, r = Some s -> word_count s <= 5)
         (Main.ollama_try X L content url).
Proof.
  unfold Main.ollama_try, Main.ollama_try_body. apply yields_try_except.
  - apply yields_then; intros prompt. apply yields_then; intros response.
    destruct (Z.eqb (status_code response) 200).
    + apply yields_then; intros result. apply yields_then; intros v.
      apply yields_then; intros summary. apply yields_ret.
      intros s Hs. injection Hs as <-.
      exact (word_count_join_firstn 5 summary).
    + apply yields_ret. intros ? ?. discriminate.
  - intros e. apply yields_then; intros _. apply yields_ret.
    intros ? ?. discriminate.
Qed.

End SummaryQuality.

(** X1: [generate_summary_with_huggingface] of app.py returns, from every
    world and for every content and URL, a summary that is not the empty
    string. *)
Theorem X1_app_summary_never_empty {E : Type} (X : Externals E) (L : PyLib)
    (content : str) (url : option str) (w : World E) :
  exists s w',
    App.generate_summary_with_huggingface X L content url w = (Ok s, w') /\
    s <> [].
Proof.
  apply returns_yields;
    [apply generate_summary_with_huggingface_returns|].
  unfold App.generate_summary_with_huggingface.
  eapply yields_bind; [apply huggingface_try_short|].
  intros [s|] Hs.
  - apply yields_ret. exact (proj1 (Hs s eq_refl)).
  - apply simple_summary_not_empty.
Qed.

(** X2: when the URL is absent, or its host part has no white space,
    [generate_summary_with_huggingface] of app.py returns a summary of at
    most 5 words. *)
Theorem X2_app_summary_at_most_five_words {E : Type} (X : Externals E)
    (L : PyLib) (content : str) (url : option str) (w : World E) :
  spaceless_host L url ->
  exists s w',
    App.generate_summary_with_huggingface X L content url w = (Ok s, w') /\
    word_count s <= 5.
Proof.
  intros Hhost. apply returns_yields;
    [apply generate_summary_with_huggingface_returns|].
  unfold App.generate_summary_with_huggingface.
  eapply yields_bind; [apply huggingface_try_short|].
  intros [s|] Hs.
  - apply yields_ret. exact (proj2 (Hs s eq_refl)).
  - apply simple_summary_short. exact Hhost.
Qed.

Lemma X2_witness :
  exists s w',
    App.generate_summary_with_huggingface (Sample.externals Sample.offline)
      Sample.lib Sample.one_link (Some (lit "https://www.example.com/a"))
      (Sample.world None)
    = (Ok s, w') /\
    word_count s <= 5.
Proof.
  apply (@X2_app_summary_at_most_five_words unit
           (Sample.externals Sample.offline) Sample.lib Sample.one_link
           (Some (lit "https://www.example.com/a")) (Sample.world None)).
  intros c u d Hu Hd. injection Hu as <- <-.
  vm_compute in Hd. injection Hd as <-. reflexivity.
Defined.

(** X3: [generate_summary_with_ollama] of main.py returns, from every world
    and for every content and URL, a summary of at most 5 words. *)
Theorem X3_main_summary_at_most_five_words {E : Type} (X : Externals E)
    (L : PyLib) (content : str) (url : option str) (w : World E) :
  exists s w',
    Main.generate_summary_with_ollama X L content url w = (Ok s, w') /\
    word_count s <= 5.
Proof.
  apply returns_yields; [apply generate_summary_with_ollama_returns|].
  unfold Main.generate_summary_with_ollama.
  eapply yields_bind; [apply ollama_try_short|].
  intros [s|] Hs.
  - apply yields_ret. exact (Hs s eq_refl).
  - apply generate_summary_with_openai_short.
Qed.

(* ================================================================= *)
(** ** The link extractor, continued *)

Module ExtractorFacts.

Import UrlPattern UrlPatternFacts.

Lemma url_char_below (c : char) : url_char c = true -> (c < 128)%N.
Proof.
  intros H. destruct (N.ltb_spec c 128) as [Hlt|Hge]; [exact Hlt|].
  unfold url_char in H.
  rewrite !in_range_false_above in H by lia.
  replace (N.eqb c 33) with false in H by (symmetry; apply N.eqb_neq; lia).
  discriminate.
Qed.

Lemma url_char_not_space (c : char) :
  url_char c = true -> isspace c = false.
Proof.
  intros H. apply negb_true_iff.
  pose proof (below_128 (fun c => implb (url_char c) (negb (isspace c))))
    as Hall.
  specialize (Hall ltac:(vm_compute; reflexivity) c (url_char_below c H)).
  cbv beta in Hall. rewrite H in Hall. exact Hall.
Qed.

Lemma url_run_chars (s : str) : forallb url_char (url_run s) = true.
Proof.
  induction s as [|c s IH]; [reflexivity|]. cbn [url_run].
  destruct (url_char c) eqn:Hc; [|reflexivity].
  cbn [forallb]. rewrite Hc. exact IH.
Qed.

Lemma url_run_length (s : str) : length (url_run s) <= length s.
Proof.
  induction s as [|c s IH]; [reflexivity|]. cbn [url_run].
  destruct (url_char c); cbn [length]; lia.
Qed.

Lemma url_run_stop (t : str) (c : char) (b : str) :
  url_char c = false -> url_run (t ++ c :: b) = url_run t.
Proof.
  intros Hc. induction t as [|x t IH]; cbn [app url_run].
  - rewrite Hc. reflexivity.
  - destruct (url_char x); [rewrite IH|]; reflexivity.
Qed.

Lemma url_chars_spaceless (s : str) :
  forallb url_char s = true -> spaceless s = true.
Proof.
  unfold spaceless. induction s as [|c s IH]; [reflexivity|].
  cbn [forallb]. intros H. apply andb_true_iff in H. destruct H as [Hc Hs].
  rewrite (url_char_not_space c Hc), IH by exact Hs. reflexivity.
Qed.

Lemma startswith_length (p s : str) :
  startswith p s = true -> length p <= length s.
Proof.
  intros H. apply startswith_split in H. rewrite H, length_app. lia.
Qed.

Lemma startswith_stop (p a : str) (c : char) (b : str) :
  forallb url_char p = true -> url_char c = false ->
  startswith p (a ++ c :: b) = startswith p a.
Proof.
  intros Hp Hc. revert a. induction p as [|x p IH]; intros a.
  - reflexivity.
  - cbn [forallb] in Hp. apply andb_true_iff in Hp. destruct Hp as [Hx Hp].
    destruct a as [|y a]; cbn [app startswith].
    + replace (char_eqb x c) with false; [reflexivity|].
      symmetry. apply N.eqb_neq. intros ->. congruence.
    + rewrite IH by exact Hp. reflexivity.
Qed.

Lemma prefix_chars (pre : str) :
  pre = lit "http://" \/ pre = lit "https://" ->
  forallb url_char pre = true.
Proof. intros [-> | ->]; vm_compute; reflexivity. Qed.

Lemma skipn_app_le {A} (n : nat) (a b : list A) :
  n <= length a -> skipn n (a ++ b) = skipn n a ++ b.
Proof.
  intros H. rewrite skipn_app.
  replace (n - length a) with 0 by lia. reflexivity.
Qed.

(** A character outside the class ends every match before it. *)
Lemma occurs_at_stop (a : str) (c : char) (b m : str) :
  url_char c = false ->
  (occurs_at (a ++ c :: b) m <-> occurs_at a m).
Proof.
  intros Hc. split; intros (pre & body & Hpre & Hs & Hb & Hne & Hm).
  - rewrite startswith_stop in Hs
      by (first [apply prefix_chars, Hpre | exact Hc]).
    exists pre, body. repeat (split; [assumption|]).
    split; [|split; assumption].
    rewrite Hb, skipn_app_le by (apply startswith_length, Hs).
    apply url_run_stop, Hc.
  - exists pre, body. split; [exact Hpre|].
    split; [rewrite startswith_stop
              by (first [apply prefix_chars, Hpre | exact Hc]); exact Hs|].
    split; [|split; assumption].
    rewrite Hb, skipn_app_le by (apply startswith_length, Hs).
    symmetry. apply url_run_stop, Hc.
Qed.

Lemma match_here_stop (a : str) (c : char) (b : str) :
  url_char c = false -> match_here (a ++ c :: b) = match_here a.
Proof.
  intros Hc.
  destruct (match_here (a ++ c :: b)) as [m|] eqn:H1.
  - apply match_here_occurs in H1. apply occurs_at_stop in H1; [|exact Hc].
    symmetry. apply occurs_match_here, H1.
  - destruct (match_here a) as [m|] eqn:H2; [|reflexivity].
    apply match_here_occurs in H2.
    apply (proj2 (@occurs_at_stop a c b m Hc)) in H2.
    apply occurs_match_here in H2. congruence.
Qed.

Lemma occurs_at_within (s m : str) :
  occurs_at s m -> length m <= length s.
Proof.
  intros (pre & body & Hpre & Hs & Hb & Hne & ->).
  pose proof (startswith_length _ _ Hs) as Hlen.
  pose proof (url_run_length (skipn (length pre) s)) as Hrun.
  rewrite length_skipn in Hrun. rewrite length_app, Hb. lia.
Qed.

Lemma findall_stop (a : str) (c : char) (b : str) :
  url_char c = false ->
  findall (a ++ c :: b) = findall a ++ findall b.
Proof.
  intros Hc. remember (length a) as n eqn:Hn. revert a Hn.
  induction n as [n IH] using lt_wf_ind. intros [|x a] Hn.
  - cbn [app]. rewrite findall_cons.
    change (c :: b) with ([] ++ c :: b).
    rewrite (@match_here_stop [] c b Hc).
    reflexivity.
  - change ((x :: a) ++ c :: b) with (x :: (a ++ c :: b)).
    rewrite !findall_cons.
    change (x :: (a ++ c :: b)) with ((x :: a) ++ c :: b).
    rewrite (@match_here_stop (x :: a) c b Hc).
    destruct (match_here (x :: a)) as [m|] eqn:Hm.
    + pose proof (match_here_occurs _ Hm) as Ho.
      pose proof (occurs_at_within Ho) as Hle.
      pose proof (occurs_at_length Ho) as [Hge _].
      rewrite skipn_app_le by exact Hle.
      rewrite (IH (length (skipn (length m) (x :: a)))); [reflexivity| |reflexivity].
      rewrite length_skipn. subst n. cbn [length] in *. lia.
    + apply (IH (length a)); [subst n; cbn [length]; lia | reflexivity].
Qed.

Lemma occurrences_shape (s : str) (l : list str) :
  url_occurrences s l ->
  Forall (fun u =>
            (startswith (lit "http://") u || startswith (lit "https://") u)
            && (8 <=? length u) && spaceless u = true) l /\
  length (concat l) <= length s.
Proof.
  induction 1 as [|c s l Hno _ [IH1 IH2]|s m l Ho _ [IH1 IH2]].
  - split; [constructor | reflexivity].
  - split; [exact IH1 | cbn [length]; lia].
  - pose proof (occurs_at_within Ho) as Hle.
    pose proof (occurs_at_length Ho) as [Hge _].
    rewrite length_skipn in IH2.
    split; [|cbn [concat]; rewrite length_app; lia].
    constructor; [|exact IH1].
    destruct Ho as (pre & body & Hpre & Hs & Hb & Hne & ->).
    apply andb_true_iff. split; [apply andb_true_iff; split|].
    + destruct Hpre as [-> | ->];
        [rewrite startswith_app; reflexivity
        |rewrite (startswith_app (lit "https://")); apply orb_true_r].
    + apply Nat.leb_le. exact Hge.
    + apply url_chars_spaceless. rewrite forallb_app.
      rewrite (@prefix_chars pre Hpre), Hb. apply url_run_chars.
Qed.

End ExtractorFacts.

(** X4: a character that the pattern does not accept after [://] (a space,
    a line break, a double quote, [#], a non-ASCII letter, ...) separates
    the matches: the URLs of a text cut at such a character are the URLs of
    the part before it followed by the URLs of the part after it. *)
Theorem X4_findall_stops_at_separator (a : str) (c : char) (b : str) :
  UrlPattern.url_char c = false ->
  UrlPattern.findall (a ++ c :: b)
  = UrlPattern.findall a ++ UrlPattern.findall b.
Proof. apply ExtractorFacts.findall_stop. Qed.

Lemma X4_witness :
  UrlPattern.findall (lit "a http://x.io" ++ chr " " :: lit "https://y.io b")
  = UrlPattern.findall (lit "a http://x.io")
    ++ UrlPattern.findall (lit "https://y.io b").
Proof.
  apply (X4_findall_stops_at_separator (lit "a http://x.io") (chr " ")
           (lit "https://y.io b")).
  reflexivity.
Defined.

(** X5: every URL that [findall] returns starts with [http://] or
    [https://], has at least 8 characters and no white space; and the URLs
    returned do not overlap: their lengths add up to at most the length of
    the text. *)
Theorem X5_findall_urls_shape (s : str) :
  Forall (fun u =>
            (startswith (lit "http://") u || startswith (lit "https://") u)
            && (8 <=? length u) && spaceless u = true)
         (UrlPattern.findall s) /\
  length (concat (UrlPattern.findall s)) <= length s.
Proof.
  apply ExtractorFacts.occurrences_shape,
    UrlPatternFacts.findall_occurrences.
Qed.

(* ================================================================= *)
(** ** Rows and requests of the message processor *)

Ltac quiet_tac :=
  repeat first
    [ apply keeps_ret; exact _
    | apply keeps_lift; exact _
    | apply keeps_logger; exact _
    | refine (keeps_request (F := quiet_frame) _ _ _); split; reflexivity
    | apply keeps_bind; [exact _ | | intros ?]
    | apply keeps_try_except; [exact _ | | intros ?]
    | match goal with
      | |- keeps _ (match ?x with _ => _ end) => destruct x
      end ].

Lemma count_calls_app (kind : call -> bool) (a b : list call) :
  count_calls kind (a ++ b) = count_calls kind a + count_calls kind b.
Proof. unfold count_calls. rewrite filter_app, length_app. reflexivity. Qed.

Lemma count_calls_none (kind : call -> bool) (d : list call) :
  Forall (fun c => kind c = false) d -> count_calls kind d = 0.
Proof.
  unfold count_calls. induction 1 as [|c d Hc _ IH]; [reflexivity|].
  cbn [filter]. rewrite Hc. exact IH.
Qed.

Section QuietSummarisers.

Context {E : Type} (X : Externals E) (L : PyLib).

Lemma huggingface_quiet (content : str) (url : option str) :
  keeps quiet (App.generate_summary_with_huggingface X L content url).
Proof. quiet_tac. Qed.

Lemma ollama_quiet (content : str) (url : option str) :
  keeps quiet (Main.generate_summary_with_ollama X L content url).
Proof. quiet_tac. Qed.

End QuietSummarisers.

Section LoggedFacts.

Context {E : Type}.

Lemma quiet_logged (w w' : World E) : quiet w w' -> logged 0 w w'.
Proof.
  intros (Hs & Ht & d & Hd & Fd). split; [exact Ht|]. split.
  - exists d. split; [exact Hd|].
    rewrite !count_calls_none
      by (eapply Forall_impl; [|exact Fd]; cbv beta; tauto).
    destruct (sheet w); auto.
  - rewrite Hs. destruct (sheet w) as [rows|]; [|reflexivity].
    exists []. rewrite app_nil_r. auto.
Qed.

Lemma logged_trans (n m : nat) (a b c : World E) :
  logged n a b -> logged m b c -> logged (n + m) a c.
Proof.
  intros (T1 & (d1 & H1 & S1 & A1) & R1) (T2 & (d2 & H2 & S2 & A2) & R2).
  split; [congruence|]. split.
  - exists (d1 ++ d2). rewrite H2, H1, app_assoc. split; [reflexivity|].
    rewrite !count_calls_app, S1, S2, A1, A2. split; [reflexivity|].
    destruct (sheet a) as [rows|].
    + destruct R1 as (new1 & -> & _). reflexivity.
    + rewrite R1. reflexivity.
  - destruct (sheet a) as [rows|].
    + destruct R1 as (new1 & Hb & L1 & F1). rewrite Hb in R2.
      destruct R2 as (new2 & Hc & L2 & F2). exists (new1 ++ new2).
      rewrite Hc, <- app_assoc, length_app. split; [reflexivity|].
      split; [lia | apply Forall_app; auto].
    + rewrite R1 in R2. exact R2.
Qed.

Context (X : Externals E).

(** [log_to_spreadsheet] returns; it requests one append when there is a
    handle, and the sheet then has the row more or is as before. *)
Lemma log_to_spreadsheet_logged (message_type content : str)
    (url : option str) (summary sender : str) (w : World E) :
  exists w',
    log_to_spreadsheet X message_type content url summary sender w
    = (Ok tt, w') /\
    logged 1 w w'.
Proof.
  destruct (sheet w) as [rows|] eqn:Hs.
  - destruct (fst (append_row X
                     (row_in X w message_type content url summary sender)
                     (ext_at_append X w))) as [[]|e] eqn:Ha.
    + rewrite (log_to_spreadsheet_appended X _ _ _ _ _ w Hs Ha).
      eexists. split; [reflexivity|]. unfold logged. cbn [sheet calls
        twilio_phone_number]. rewrite Hs.
      split; [reflexivity|]. split.
      * eexists. split; [reflexivity|]. split; reflexivity.
      * eexists. split; [reflexivity|]. split; [cbn; lia|].
        constructor; [reflexivity | constructor].
    + rewrite (log_to_spreadsheet_failed X _ _ _ _ _ w Hs Ha).
      eexists. split; [reflexivity|]. unfold logged. cbn [sheet calls
        twilio_phone_number]. rewrite Hs.
      split; [reflexivity|]. split.
      * eexists. split; [reflexivity|]. split; reflexivity.
      * exists []. rewrite app_nil_r. split; [reflexivity|].
        split; [cbn; lia | constructor].
  - rewrite (log_to_spreadsheet_unavailable X _ _ _ _ _ w Hs).
    eexists. split; [reflexivity|]. unfold logged. cbn [sheet calls
      twilio_phone_number]. rewrite Hs.
    split; [reflexivity|]. split; [|reflexivity].
    exists []. rewrite app_nil_r. split; [reflexivity|].
    split; reflexivity.
Qed.

Variable summarize : str -> option str -> M E str.

Hypothesis summarize_returns : forall content url,
  returns (summarize content url).

Hypothesis summarize_quiet : forall content url,
  keeps quiet (summarize content url).

Lemma summarize_then_log (message_type body : str) (url : option str)
    (sender : str) (w : World E) :
  exists w',
    (summary <- summarize body url ;;
     log_to_spreadsheet X message_type body url summary sender) w
    = (Ok tt, w') /\
    logged 1 w w'.
Proof.
  destruct (summarize_returns body url w) as [a Ha].
  pose proof (summarize_quiet body url w) as Hq.
  destruct (summarize body url w) as [r w1] eqn:Hrun.
  simpl in Ha, Hq. subst r.
  destruct (log_to_spreadsheet_logged message_type body url a sender w1)
    as (w2 & Hlog & Hl).
  exists w2. split.
  - erewrite bind_Ok by exact Hrun. exact Hlog.
  - exact (logged_trans (quiet_logged Hq) Hl).
Qed.

Lemma for_each_logged (body sender : str) (urls : list str) :
  forall w : World E,
  exists w',
    for_each urls (log_link X summarize body sender) w = (Ok tt, w') /\
    logged (length urls) w w'.
Proof.
  induction urls as [|url urls IH]; intros w.
  - exists w. split; [reflexivity|]. apply quiet_logged, frame_refl.
  - destruct (summarize_then_log (lit "Link") body (Some url) sender w)
      as (w1 & Hrun & Hl).
    destruct (IH w1) as (w2 & Hrun' & Hl').
    exists w2. split.
    + cbn [for_each]. erewrite bind_Ok by exact Hrun. exact Hrun'.
    + exact (logged_trans Hl Hl').
Qed.

Lemma process_message_logged (body sender : str) (w : World E) :
  exists reply w',
    process_message_with X summarize body sender w = (Ok reply, w') /\
    logged (Nat.max 1 (length (UrlPattern.findall body))) w w'.
Proof.
  unfold process_message_with.
  set (w0 := snd (logger INFO (lit "Processing message from " ++ sender
                               ++ lit ": " ++ body) w)).
  assert (H0 : logged 0 w w0).
  { apply quiet_logged.
    apply (keeps_logger (F := quiet_frame)). }
  unfold bind at 1. cbn [logger]. fold w0.
  destruct (UrlPattern.findall body) as [|url urls].
  - destruct (summarize_returns body None w0) as [a Ha].
    pose proof (summarize_quiet body None w0) as Hq.
    destruct (summarize body None w0) as [r wa] eqn:Hrun.
    simpl in Ha, Hq. subst r.
    destruct (log_to_spreadsheet_logged (lit "Message") body None a sender
                wa) as (w1 & Hlog & Hl).
    eexists. exists w1. split.
    + erewrite bind_Ok by exact Hrun. erewrite bind_Ok by exact Hlog.
      reflexivity.
    + exact (logged_trans H0 (logged_trans (quiet_logged Hq) Hl)).
  - destruct (for_each_logged body sender (url :: urls) w0)
      as (w1 & Hrun & Hl).
    eexists. exists w1. split.
    + erewrite bind_Ok by exact Hrun. reflexivity.
    + replace (Nat.max 1 (length (url :: urls)))
        with (0 + length (url :: urls)) by (cbn [length]; lia).
      exact (logged_trans H0 Hl).
Qed.

End LoggedFacts.

(** X6: [process_message] (of app.py and of main.py) only adds rows at the
    end of the sheet: from every world, the rows that were there are kept in
    their places, at most one row is added per URL found (at most one when
    no URL is found), every added row has seven cells, and a bot without
    sheet handle stays without it. *)
Theorem X6_rows_only_appended {E : Type} (X : Externals E) (L : PyLib)
    (body sender : str) (w : World E) :
  match sheet w with
  | None =>
      sheet (snd (App.process_message X L body sender w)) = None /\
      sheet (snd (Main.process_message X L body sender w)) = None
  | Some rows =>
      (exists new_rows,
         sheet (snd (App.process_message X L body sender w))
         = Some (rows ++ new_rows) /\
         length new_rows <= Nat.max 1 (length (UrlPattern.findall body)) /\
         Forall (fun row => length row = 7) new_rows) /\
      (exists new_rows,
         sheet (snd (Main.process_message X L body sender w))
         = Some (rows ++ new_rows) /\
         length new_rows <= Nat.max 1 (length (UrlPattern.findall body)) /\
         Forall (fun row => length row = 7) new_rows)
  end.
Proof.
  destruct (process_message_logged X
              (App.generate_summary_with_huggingface X L)
              (generate_summary_with_huggingface_returns X L)
              (huggingface_quiet X L) body sender w)
    as (r1 & w1 & H1 & _ & _ & R1).
  destruct (process_message_logged X
              (Main.generate_summary_with_ollama X L)
              (generate_summary_with_ollama_returns X L)
              (ollama_quiet X L) body sender w)
    as (r2 & w2 & H2 & _ & _ & R2).
  unfold App.process_message, Main.process_message. rewrite H1, H2.
  cbn [snd]. destruct (sheet w); split; assumption.
Qed.

(** X7: [process_message] (of app.py and of main.py) requests exactly one
    append per row to log when the bot has a sheet handle (one per URL
    found, one for a message without URL), whether or not the appends
    succeed, and none when it has no handle; it sends no message itself. *)
Theorem X7_one_append_per_row {E : Type} (X : Externals E) (L : PyLib)
    (body sender : str) (w : World E) :
  (exists d,
     calls (snd (App.process_message X L body sender w)) = calls w ++ d /\
     count_calls is_send d = 0 /\
     count_calls is_append d
     = match sheet w with
       | None => 0
       | Some _ => Nat.max 1 (length (UrlPattern.findall body))
       end) /\
  (exists d,
     calls (snd (Main.process_message X L body sender w)) = calls w ++ d /\
     count_calls is_send d = 0 /\
     count_calls is_append d
     = match sheet w with
       | None => 0
       | Some _ => Nat.max 1 (length (UrlPattern.findall body))
       end).
Proof.
  destruct (process_message_logged X
              (App.generate_summary_with_huggingface X L)
              (generate_summary_with_huggingface_returns X L)
              (huggingface_quiet X L) body sender w)
    as (r1 & w1 & H1 & _ & C1 & _).
  destruct (process_message_logged X
              (Main.generate_summary_with_ollama X L)
              (generate_summary_with_ollama_returns X L)
              (ollama_quiet X L) body sender w)
    as (r2 & w2 & H2 & _ & C2 & _).
  unfold App.process_message, Main.process_message. rewrite H1, H2.
  cbn [snd]. split; assumption.
Qed.

(* ================================================================= *)
(** ** The webhook, continued *)

Section WebhookFacts.

Context {E : Type} (X : Externals E).

(** [send_whatsapp_message] returns; it requests one message, from the
    number of the bot to the number given, both with the [whatsapp:]
    prefix. *)
Lemma send_whatsapp_message_run (to_number message : str) (w : World E) :
  exists w',
    send_whatsapp_message X to_number message w = (Ok tt, w') /\
    calls w'
    = calls w
      ++ [MessagesCreate message
            (lit "whatsapp:" ++ format_opt (twilio_phone_number w))
            (lit "whatsapp:" ++ to_number)] /\
    sheet w' = sheet w.
Proof.
  unfold send_whatsapp_message, try_except, bind, get_twilio_phone_number,
    request, logger, ret.
  destruct (messages_create X message _ _ (ext w)) as [[[]|e] e'];
    eexists; (split; [reflexivity|]); split; reflexivity.
Qed.

Variable summarize : str -> option str -> M E str.

Hypothesis summarize_returns : forall content url,
  returns (summarize content url).

Hypothesis summarize_quiet : forall content url,
  keeps quiet (summarize content url).

Lemma webhook_skipped (form : list (str * str)) (w : World E) :
  truthy (form_get form (lit "Body") [])
  && truthy (replace (lit "whatsapp:") [] (form_get form (lit "From") []))
  = false ->
  webhook_with X summarize form w
  = (Ok (JDict [(lit "status", JStr (lit "success"))], 200%Z), w).
Proof.
  intros H.
  unfold webhook_with, webhook_request_with, webhook_body, try_except, lift,
    bind.
  rewrite H. reflexivity.
Qed.

Lemma webhook_processed (form : list (str * str)) (w : World E) :
  truthy (form_get form (lit "Body") [])
  && truthy (replace (lit "whatsapp:") [] (form_get form (lit "From") []))
  = true ->
  exists reply w1 w2,
    process_message_with X summarize (form_get form (lit "Body") [])
      (replace (lit "whatsapp:") [] (form_get form (lit "From") [])) w
    = (Ok reply, w1) /\
    webhook_with X summarize form w
    = (Ok (JDict [(lit "status", JStr (lit "success"))], 200%Z), w2) /\
    calls w2
    = calls w1
      ++ [MessagesCreate reply
            (lit "whatsapp:" ++ format_opt (twilio_phone_number w))
            (lit "whatsapp:"
             ++ replace (lit "whatsapp:") []
                  (form_get form (lit "From") []))] /\
    sheet w2 = sheet w1 /\
    logged (Nat.max 1 (length (UrlPattern.findall
                                 (form_get form (lit "Body") []))))
           w w1.
Proof.
  intros H.
  destruct (process_message_logged X summarize summarize_returns
              summarize_quiet
              (form_get form (lit "Body") [])
              (replace (lit "whatsapp:") [] (form_get form (lit "From") []))
              w) as (reply & w1 & Hrun & Hl).
  destruct (send_whatsapp_message_run
              (replace (lit "whatsapp:") [] (form_get form (lit "From") []))
              reply w1) as (w2 & Hsend & Hcalls & Hsheet).
  exists reply, w1, w2. split; [exact Hrun|].
  split; [|split; [|split; [exact Hsheet | exact Hl]]].
  - unfold webhook_with, webhook_request_with, webhook_body, try_except.
    unfold bind at 1. unfold lift at 1. cbn beta iota. rewrite H.
    erewrite bind_Ok; [reflexivity|].
    erewrite bind_Ok by exact Hrun. exact Hsend.
  - rewrite Hcalls. destruct Hl as (Ht & _). rewrite Ht. reflexivity.
Qed.

End WebhookFacts.

(** X8: [webhook] (of app.py and of main.py) never raises, and answers 500
    exactly when reading the posted form raises (the [message] is then the
    text of that exception).  For every form that is read it answers
    [{"status": "success"}] with status 200, from every world: nothing that
    the summarisers, the sheet or the messaging gateway do reaches the
    branch that answers 500. *)
Theorem X8_webhook_error_only_from_request {E : Type} (X : Externals E)
    (L : PyLib) (request_form : result (list (str * str))) (w : World E) :
  fst (App.webhook_request X L request_form w)
  = Ok (match request_form with
        | Ok _ => (JDict [(lit "status", JStr (lit "success"))], 200%Z)
        | Raise e =>
            (JDict [(lit "status", JStr (lit "error"));
                    (lit "message", JStr e)], 500%Z)
        end) /\
  fst (Main.webhook_request X L request_form w)
  = Ok (match request_form with
        | Ok _ => (JDict [(lit "status", JStr (lit "success"))], 200%Z)
        | Raise e =>
            (JDict [(lit "status", JStr (lit "error"));
                    (lit "message", JStr e)], 500%Z)
        end).
Proof.
  destruct request_form as [form|e]; [|split; reflexivity].
  change (App.webhook_request X L (Ok form) w)
    with (webhook_with X (App.generate_summary_with_huggingface X L) form w).
  change (Main.webhook_request X L (Ok form) w)
    with (webhook_with X (Main.generate_summary_with_ollama X L) form w).
  destruct (truthy (form_get form (lit "Body") [])
            && truthy (replace (lit "whatsapp:") []
                         (form_get form (lit "From") []))) eqn:Hc.
  - destruct (webhook_processed X
                (App.generate_summary_with_huggingface X L)
                (generate_summary_with_huggingface_returns X L)
                (huggingface_quiet X L) form w Hc)
      as (r1 & a1 & b1 & _ & -> & _).
    destruct (webhook_processed X
                (Main.generate_summary_with_ollama X L)
                (generate_summary_with_ollama_returns X L)
                (ollama_quiet X L) form w Hc)
      as (r2 & a2 & b2 & _ & -> & _).
    split; reflexivity.
  - rewrite !webhook_skipped by exact Hc. split; reflexivity.
Qed.

(** X9: when the [Body] field is not empty and the [From] field is not
    empty once every [whatsapp:] is removed from it, the last request of
    [webhook] (of app.py and of main.py) is one message: its body is the
    reply of [process_message], it goes from [whatsapp:] and the number of
    the bot (the text [None] when the number is not configured) to
    [whatsapp:] and the sender; no other message is requested. *)
Theorem X9_webhook_sends_the_reply {E : Type} (X : Externals E) (L : PyLib)
    (form : list (str * str)) (w : World E) :
  truthy (form_get form (lit "Body") [])
  && truthy (replace (lit "whatsapp:") [] (form_get form (lit "From") []))
  = true ->
  (exists reply d,
     fst (App.process_message X L (form_get form (lit "Body") [])
            (replace (lit "whatsapp:") [] (form_get form (lit "From") []))
            w)
     = Ok reply /\
     calls (snd (App.webhook X L form w))
     = calls w ++ d
       ++ [MessagesCreate reply
             (lit "whatsapp:" ++ format_opt (twilio_phone_number w))
             (lit "whatsapp:"
              ++ replace (lit "whatsapp:") []
                   (form_get form (lit "From") []))] /\
     count_calls is_send d = 0) /\
  (exists reply d,
     fst (Main.process_message X L (form_get form (lit "Body") [])
            (replace (lit "whatsapp:") [] (form_get form (lit "From") []))
            w)
     = Ok reply /\
     calls (snd (Main.webhook X L form w))
     = calls w ++ d
       ++ [MessagesCreate reply
             (lit "whatsapp:" ++ format_opt (twilio_phone_number w))
             (lit "whatsapp:"
              ++ replace (lit "whatsapp:") []
                   (form_get form (lit "From") []))] /\
     count_calls is_send d = 0).
Proof.
  intros Hc. unfold App.webhook, Main.webhook, App.process_message,
    Main.process_message.
  destruct (webhook_processed X
              (App.generate_summary_with_huggingface X L)
              (generate_summary_with_huggingface_returns X L)
              (huggingface_quiet X L) form w Hc)
    as (r1 & a1 & b1 & -> & -> & C1 & _ & _ & (d1 & D1 & S1 & _) & _).
  destruct (webhook_processed X
              (Main.generate_summary_with_ollama X L)
              (generate_summary_with_ollama_returns X L)
              (ollama_quiet X L) form w Hc)
    as (r2 & a2 & b2 & -> & -> & C2 & _ & _ & (d2 & D2 & S2 & _) & _).
  cbn [fst snd]. split.
  - exists r1, d1. rewrite C1, D1, <- app_assoc. auto.
  - exists r2, d2. rewrite C2, D2, <- app_assoc. auto.
Qed.

Lemma X9_witness :
  exists reply d,
    fst (App.process_message (Sample.externals Sample.offline) Sample.lib
           Sample.plain (lit "+15551234567") (Sample.world (Some [])))
    = Ok reply /\
    calls (snd (App.webhook (Sample.externals Sample.offline) Sample.lib
                  [(lit "Body", Sample.plain);
                   (lit "From", lit "whatsapp:+15551234567")]
                  (Sample.world (Some []))))
    = calls (Sample.world (Some [])) ++ d
      ++ [MessagesCreate reply (lit "whatsapp:+14155238886")
            (lit "whatsapp:+15551234567")] /\
    count_calls is_send d = 0.
Proof.
  exact (proj1 (X9_webhook_sends_the_reply
                  (Sample.externals Sample.offline) Sample.lib
                  [(lit "Body", Sample.plain);
                   (lit "From", lit "whatsapp:+15551234567")]
                  (Sample.world (Some [])) eq_refl)).
Defined.

Lemma replace_prefix_back (p n : str) :
  p <> [] ->
  occurs_only p n (fun _ => false) = true ->
  replace p [] (p ++ n) = n.
Proof.
  intros Hp Hn.
  destruct p as [|c p'] eqn:Ep; [congruence|]. rewrite <- Ep in *.
  assert (Hs : p ++ n = c :: (p' ++ n)) by (rewrite Ep; reflexivity).
  rewrite Hs, replace_cons_hit;
    [|exact Hp|rewrite <- Hs; apply startswith_app].
  rewrite <- Hs, skipn_length_app. apply replace_none. intros i.
  destruct (startswith p (skipn i n)) eqn:Hi; [|reflexivity].
  symmetry. exact (@occurs_only_spec p n _ Hp Hn i Hi).
Qed.

(** X10: the reply goes back to where the message came from.  When the
    [From] field is [whatsapp:] followed by a non-empty number in which
    [whatsapp:] does not occur, and the [Body] field is not empty, the last
    request of [webhook] (of app.py and of main.py) is a message addressed
    to the [From] field as it was posted. *)
Theorem X10_reply_returns_to_sender {E : Type} (X : Externals E)
    (L : PyLib) (form : list (str * str)) (number : str) (w : World E) :
  form_get form (lit "Body") [] <> [] ->
  form_get form (lit "From") [] = lit "whatsapp:" ++ number ->
  number <> [] ->
  occurs_only (lit "whatsapp:") number (fun _ => false) = true ->
  (exists reply from d,
     calls (snd (App.webhook X L form w))
     = calls w ++ d
       ++ [MessagesCreate reply from (form_get form (lit "From") [])]) /\
  (exists reply from d,
     calls (snd (Main.webhook X L form w))
     = calls w ++ d
       ++ [MessagesCreate reply from (form_get form (lit "From") [])]).
Proof.
  intros Hb Hf Hn Hocc.
  assert (Hstrip : replace (lit "whatsapp:") [] (form_get form (lit "From") [])
                   = number).
  { rewrite Hf. apply replace_prefix_back; [discriminate | exact Hocc]. }
  assert (Hc : truthy (form_get form (lit "Body") [])
               && truthy (replace (lit "whatsapp:") []
                            (form_get form (lit "From") [])) = true).
  { rewrite Hstrip. destruct (form_get form (lit "Body") []);
      [congruence|]. destruct number; [congruence | reflexivity]. }
  unfold App.webhook, Main.webhook.
  destruct (webhook_processed X
              (App.generate_summary_with_huggingface X L)
              (generate_summary_with_huggingface_returns X L)
              (huggingface_quiet X L) form w Hc)
    as (r1 & a1 & b1 & _ & -> & C1 & _ & _ & (d1 & D1 & _) & _).
  destruct (webhook_processed X
              (Main.generate_summary_with_ollama X L)
              (generate_summary_with_ollama_returns X L)
              (ollama_quiet X L) form w Hc)
    as (r2 & a2 & b2 & _ & -> & C2 & _ & _ & (d2 & D2 & _) & _).
  cbn [snd]. rewrite Hstrip, <- Hf, D1, <- app_assoc in C1.
  rewrite Hstrip, <- Hf, D2, <- app_assoc in C2.
  split; [exists r1 | exists r2]; eauto.
Qed.

Lemma X10_witness :
  exists reply from d,
    calls (snd (App.webhook (Sample.externals Sample.offline) Sample.lib
                  [(lit "Body", Sample.one_link);
                   (lit "From", lit "whatsapp:+15551234567")]
                  (Sample.world None)))
    = calls (Sample.world None) ++ d
      ++ [MessagesCreate reply from (lit "whatsapp:+15551234567")].
Proof.
  refine (proj1 (@X10_reply_returns_to_sender unit
                   (Sample.externals Sample.offline) Sample.lib
                   [(lit "Body", Sample.one_link);
                    (lit "From", lit "whatsapp:+15551234567")]
                   (lit "+15551234567") (Sample.world None) _ _ _ _)).
  - vm_compute. discriminate.
  - reflexivity.
  - vm_compute. discriminate.
  - vm_compute. reflexivity.
Defined.

Lemma calls_not_extended {E : Type} (w : World E) (d : list call)
    (c : call) :
  calls w <> calls w ++ d ++ [c].
Proof.
  intros H. apply (f_equal (@length call)) in H.
  rewrite !length_app in H. cbn [length] in H. lia.
Qed.

(** X11: [webhook] (of app.py and of main.py) leaves the world as it was
    exactly when the [Body] field is missing or empty, or the [From] field
    is missing or has nothing but [whatsapp:] in it; in every other case it
    issues at least one request. *)
Theorem X11_webhook_ignores_exactly_empty_fields {E : Type}
    (X : Externals E) (L : PyLib) (form : list (str * str)) (w : World E) :
  (snd (App.webhook X L form w) = w <->
   truthy (form_get form (lit "Body") [])
   && truthy (replace (lit "whatsapp:") [] (form_get form (lit "From") []))
   = false) /\
  (snd (Main.webhook X L form w) = w <->
   truthy (form_get form (lit "Body") [])
   && truthy (replace (lit "whatsapp:") [] (form_get form (lit "From") []))
   = false).
Proof.
  unfold App.webhook, Main.webhook.
  destruct (truthy (form_get form (lit "Body") [])
            && truthy (replace (lit "whatsapp:") []
                         (form_get form (lit "From") []))) eqn:Hc.
  - destruct (webhook_processed X
                (App.generate_summary_with_huggingface X L)
                (generate_summary_with_huggingface_returns X L)
                (huggingface_quiet X L) form w Hc)
      as (r1 & a1 & b1 & _ & -> & C1 & _ & _ & (d1 & D1 & _) & _).
    destruct (webhook_processed X
                (Main.generate_summary_with_ollama X L)
                (generate_summary_with_ollama_returns X L)
                (ollama_quiet X L) form w Hc)
      as (r2 & a2 & b2 & _ & -> & C2 & _ & _ & (d2 & D2 & _) & _).
    cbn [snd]. rewrite D1, <- app_assoc in C1.
    rewrite D2, <- app_assoc in C2.
    split; (split; [|discriminate]); intros ->;
      exfalso; eapply calls_not_extended; eassumption.
  - rewrite !webhook_skipped by exact Hc. cbn [snd].
    split; split; reflexivity.
Qed.

(* ================================================================= *)
(** ** The title fetcher *)

Lemma lstrip_head (s : str) (c : char) (r : str) :
  lstrip s = c :: r -> isspace c = false.
Proof.
  induction s as [|x s IH]; [discriminate|]. cbn [lstrip].
  destruct (isspace x) eqn:Hx; [exact IH|].
  intros H. injection H as <- _. exact Hx.
Qed.

Lemma lstrip_snoc (y : str) (c : char) :
  isspace c = false -> exists y', lstrip (y ++ [c]) = y' ++ [c].
Proof.
  intros Hc. induction y as [|x y IH]; cbn [app lstrip].
  - rewrite Hc. exists []. reflexivity.
  - destruct (isspace x); [exact IH|]. exists (x :: y). reflexivity.
Qed.

(** A stripped text does not start with white space. *)
Lemma strip_head (s : str) (c : char) (r : str) :
  strip s = c :: r -> isspace c = false.
Proof.
  unfold strip, rstrip. destruct (lstrip s) as [|h t] eqn:Ht.
  - discriminate.
  - pose proof (@lstrip_head s h t Ht) as Hh. cbn [rev].
    destruct (@lstrip_snoc (rev t) h Hh) as [y' ->].
    rewrite rev_app_distr. cbn [rev app]. intros H. injection H as <- _.
    exact Hh.
Qed.

(** X12: [extract_page_title] never raises and issues exactly one request,
    a GET of the URL with the browser user agent and a timeout of 10
    seconds; it leaves the sheet alone; a title it returns has at most 100
    characters and does not start with white space; and it returns no title
    unless the GET was answered with status 200. *)
Theorem X12_page_title_bounded {E : Type} (X : Externals E) (L : PyLib)
    (url : str) (w : World E) :
  exists title w',
    extract_page_title X L url w = (Ok title, w') /\
    calls w' = calls w ++ [HttpGet url user_agent 10] /\
    sheet w' = sheet w /\
    (forall t, title = Some t ->
       length t <= 100 /\
       (forall c r, t = c :: r -> isspace c = false) /\
       exists response,
         fst (get X url user_agent (ext w)) = Ok response /\
         status_code response = 200%Z).
Proof.
  unfold extract_page_title, try_except, bind, requests_get, request, lift,
    ret, logger.
  change [(lit "User-Agent",
           lit "Mozilla/5.0 (Windows NT 10.0; Win64; x64) AppleWebKit/537.36 (KHTML, like Gecko) Chrome/91.0.4472.124 Safari/537.36")]
    with user_agent.
  destruct (get X url user_agent (ext w)) as [[response|e] e'];
    cbn beta iota.
  - destruct (Z.eqb (status_code response) 200) eqn:Hst.
    + destruct (soup_title_text L (text response)) as [[t|]|e];
        cbn beta iota;
        do 2 eexists; (split; [reflexivity|]);
        (split; [reflexivity|]); (split; [reflexivity|]);
        intros t' Ht'; try discriminate.
      assert (Ht : t' = firstn 100 (strip t))
        by (injection Ht' as <-; reflexivity).
      clear Ht'. subst t'. split; [apply firstn_le_length|]. split.
      * intros c r Hcr. destruct (strip t) as [|h s'] eqn:Hs;
          [discriminate|]. cbn [firstn] in Hcr.
        change (h :: firstn 99 s' = c :: r) in Hcr.
        injection Hcr as <- _.
        exact (@strip_head t h s' Hs).
      * exists response. split; [reflexivity|]. apply Z.eqb_eq, Hst.
    + do 2 eexists; (split; [reflexivity|]);
        (split; [reflexivity|]); (split; [reflexivity|]).
      intros t' Ht'. discriminate.
  - do 2 eexists; (split; [reflexivity|]);
      (split; [reflexivity|]); (split; [reflexivity|]).
    intros t' Ht'. discriminate.
Qed.

(* ================================================================= *)
(** ** The Hugging Face request *)

Section HuggingFaceFacts.

Context {E : Type} (X : Externals E) (L : PyLib).

Lemma no_requests_calls {A} (m : M E A) (w : World E) :
  keeps (calls_extend (fun _ => False)) m -> calls (snd (m w)) = calls w.
Proof.
  intros H. destruct (H w) as (d & Hd & F). destruct d as [|c d].
  - rewrite app_nil_r in Hd. exact Hd.
  - inversion F; contradiction.
Qed.

(** What follows a response with status 200 (lines 131-136, 151), and the
    warning of line 151, issue no request. *)
Lemma after_200_calls (response : Response) (w : World E) :
  calls (snd ((r <- App.read_summary response ;;
               match r with
               | Some s => ret (Some s)
               | None => App.warn_status response
               end) w))
  = calls w.
Proof. apply no_requests_calls. keeps_tac. Qed.

Lemma warn_status_calls (response : Response) (w : World E) :
  calls (snd (App.warn_status response w)) = calls w.
Proof. apply no_requests_calls. keeps_tac. Qed.

Lemma try_except_calls {A} (m : M E A) (h : exn -> M E A) (w : World E) :
  (forall e w1, calls (snd (h e w1)) = calls w1) ->
  calls (snd (try_except m h w)) = calls (snd (m w)).
Proof.
  intros Hh. unfold try_except. destruct (m w) as [[a|e] w1]; [reflexivity|].
  apply Hh.
Qed.

Lemma handler_calls (e : exn) (w : World E) :
  calls (snd ((logger ERROR (lit "Error with HuggingFace API: " ++ e) ;;
               ret (@None str)) w))
  = calls w.
Proof. reflexivity. Qed.

(** The requests of the [try] statement for a content without URL. *)
Lemma huggingface_try_calls (content : str) (w : World E) :
  calls (snd (App.huggingface_try X L content None w))
  = calls w
    ++ match fst (post X App.hf_url (hf_headers X)
                    (hf_payload (firstn 500 content)) (ext w)) with
       | Ok response =>
           if Z.eqb (status_code response) 503
           then [hf_post X content; Sleep 10; hf_post X content]
           else [hf_post X content]
       | Raise _ => [hf_post X content]
       end.
Proof.
  unfold App.huggingface_try.
  rewrite try_except_calls by (intros; apply handler_calls).
  unfold App.huggingface_try_body, hf_post, hf_headers, hf_payload,
    requests_post.
  destruct (environ_get X (lit "HUGGINGFACE_API_KEY")) as [[|c k]|];
    unfold bind at 1; unfold bind at 1; cbn [ret logger];
    unfold bind at 1; cbn [ret]; unfold bind at 1; unfold request at 1;
    cbn [ext calls sheet twilio_phone_number log];
    (match goal with
     | |- calls (snd (let (_, _) := let (_, _) := ?Q in _ in _))
          = _ ++ match fst ?P with _ => _ end =>
         change Q with P; destruct P as [[r|e] e1]
     end);
    cbn [fst]; cbn beta iota; try reflexivity;
    (destruct (Z.eqb (status_code r) 200) eqn:H200;
     [ apply Z.eqb_eq in H200; rewrite H200; cbn [Z.eqb Pos.eqb];
       etransitivity; [apply after_200_calls | reflexivity]
     | ]);
    (destruct (Z.eqb (status_code r) 503);
     [|etransitivity; [apply warn_status_calls | reflexivity]]);
    unfold bind at 1; cbn [logger]; unfold bind at 1; unfold request at 1;
    cbn [ext calls sheet twilio_phone_number log];
    unfold bind at 1; unfold request at 1;
    cbn [ext calls sheet twilio_phone_number log];
    (match goal with
     | |- context [post X ?u ?h ?p ?e0] =>
         destruct (post X u h p e0) as [[r2|e2] e3]
     end);
    cbn beta iota;
    [ | cbn [snd calls]; rewrite <- !app_assoc; reflexivity
      | | cbn [snd calls]; rewrite <- !app_assoc; reflexivity
      | | cbn [snd calls]; rewrite <- !app_assoc; reflexivity ];
    (destruct (Z.eqb (status_code r2) 200);
     (etransitivity;
      [first [apply after_200_calls | apply warn_status_calls]|]);
     cbn [calls]; rewrite <- !app_assoc; reflexivity).
Qed.

Lemma simple_summary_calls (content : str) (url : option str)
    (w : World E) :
  calls (snd (App.generate_simple_summary L content url w)) = calls w.
Proof. apply no_requests_calls. keeps_tac. Qed.

(** With a first response of status 200, the [try] statement returns what
    the reading of that response returns. *)
Lemma huggingface_try_200 (content : str) (w : World E)
    (response : Response) :
  fst (post X App.hf_url (hf_headers X) (hf_payload (firstn 500 content))
         (ext w)) = Ok response ->
  status_code response = 200%Z ->
  exists w1,
    App.huggingface_try X L content None w
    = try_except
        (r <- App.read_summary response ;;
         match r with
         | Some s => ret (Some s)
         | None => App.warn_status response
         end)
        (fun e =>
           logger ERROR (lit "Error with HuggingFace API: " ++ e) ;;
           ret None) w1.
Proof.
  intros Hpost H200. apply Z.eqb_eq in H200.
  unfold hf_headers, hf_payload in Hpost.
  unfold App.huggingface_try, App.huggingface_try_body, requests_post.
  destruct (environ_get X (lit "HUGGINGFACE_API_KEY")) as [[|c k]|];
    unfold try_except at 1;
    unfold bind at 1; unfold bind at 1; cbn [ret logger];
    unfold bind at 1; cbn [ret]; unfold bind at 1; unfold request at 1;
    cbn [ext calls sheet twilio_phone_number log];
    (match goal with
     | |- exists _,
            (let (_, _) := let (_, _) := let (_, _) := ?Q in _ in _ in _)
            = _ =>
         match type of Hpost with
         | fst ?P = _ => change Q with P; destruct P as [[r|e] e1]
         end
     end);
    cbn [fst] in Hpost; [|discriminate| |discriminate| |discriminate];
    injection Hpost as ->; cbn beta iota; rewrite H200;
    eexists; unfold try_except; reflexivity.
Qed.

Lemma summary_from_try (content : str) (w : World E) (r : option str)
    (w' : World E) :
  App.huggingface_try X L content None w = (Ok r, w') ->
  fst (App.generate_summary_with_huggingface X L content None w)
  = match r with
    | Some s => Ok s
    | None => Ok (Spec.keyword_summary (str_lower L content))
    end.
Proof.
  intros H. unfold App.generate_summary_with_huggingface.
  erewrite bind_Ok by exact H. destruct r as [s|]; [reflexivity|].
  rewrite simple_summary_keywords by reflexivity. reflexivity.
Qed.

End HuggingFaceFacts.

(** X13: for a content without URL, [generate_summary_with_huggingface]
    posts its request once; when the answer has status 503 it waits 10
    seconds and posts the same request once more, whatever the second
    answer; in no other case does it post again. *)
Theorem X13_one_retry_on_503 {E : Type} (X : Externals E) (L : PyLib)
    (content : str) (w : World E) :
  calls (snd (App.generate_summary_with_huggingface X L content None w))
  = calls w
    ++ match fst (post X App.hf_url (hf_headers X)
                    (hf_payload (firstn 500 content)) (ext w)) with
       | Ok response =>
           if Z.eqb (status_code response) 503
           then [hf_post X content; Sleep 10; hf_post X content]
           else [hf_post X content]
       | Raise _ => [hf_post X content]
       end.
Proof.
  rewrite <- (huggingface_try_calls X L content w).
  unfold App.generate_summary_with_huggingface, bind.
  destruct (App.huggingface_try X L content None w) as [[[s|]|e] w1];
    cbn [snd fst]; [reflexivity| |reflexivity].
  apply (simple_summary_calls (E := E)).
Qed.

(** X14: for a content without URL, when the Hugging Face endpoint answers
    with status 200: a first list element without [summary_text] gives the
    summary ["Summary generated"]; a [summary_text] that is a string gives
    its first five words joined by single spaces, or ["Summary generated"]
    when it has no word; and a body that is not JSON, or not a non-empty
    list, gives the summary of the local keyword extraction. *)
Theorem X14_huggingface_answer_cases {E : Type} (X : Externals E)
    (L : PyLib) (content : str) (w : World E) (response : Response) :
  fst (post X App.hf_url (hf_headers X) (hf_payload (firstn 500 content))
         (ext w)) = Ok response ->
  status_code response = 200%Z ->
  (forall items rest,
     json_body response = Ok (JList (JDict items :: rest)) ->
     dict_lookup (lit "summary_text") items = None ->
     fst (App.generate_summary_with_huggingface X L content None w)
     = Ok (lit "Summary generated")) /\
  (forall items rest text,
     json_body response = Ok (JList (JDict items :: rest)) ->
     dict_lookup (lit "summary_text") items = Some (JStr text) ->
     fst (App.generate_summary_with_huggingface X L content None w)
     = Ok (match firstn 5 (split (strip text)) with
           | [] => lit "Summary generated"
           | _ :: _ => join (lit " ") (firstn 5 (split (strip text)))
           end)) /\
  ((forall first rest, json_body response <> Ok (JList (first :: rest))) ->
   fst (App.generate_summary_with_huggingface X L content None w)
   = Ok (Spec.keyword_summary (str_lower L content))).
Proof.
  intros Hpost H200.
  destruct (huggingface_try_200 X L content w Hpost H200) as [w1 Htry].
  split; [|split].
  - intros items rest Hj Hk.
    apply (summary_from_try X L content w (r := Some (lit "Summary generated"))
             (w' := w1)).
    rewrite Htry. unfold try_except, bind, App.read_summary, lift.
    rewrite Hj. cbv beta iota delta [bind json_get]. rewrite Hk.
    reflexivity.
  - intros items rest text Hj Hk.
    apply (summary_from_try X L content w
             (r := Some (match firstn 5 (split (strip text)) with
                         | [] => lit "Summary generated"
                         | _ :: _ =>
                             join (lit " ") (firstn 5 (split (strip text)))
                         end))
             (w' := w1)).
    rewrite Htry. unfold try_except, bind, App.read_summary, lift.
    rewrite Hj. cbv beta iota delta [bind json_get]. rewrite Hk.
    reflexivity.
  - intros Hj.
    assert (Hnone : exists w2,
              App.huggingface_try X L content None w = (Ok None, w2)).
    { rewrite Htry. unfold try_except, bind, App.read_summary, lift,
        App.warn_status, logger, ret.
      destruct (json_body response) as [j|e]; [|eexists; reflexivity].
      destruct j as [| | | | |[|first rest]|]; try (eexists; reflexivity).
      exfalso. exact (Hj first rest eq_refl). }
    destruct Hnone as [w2 Hnone].
    exact (summary_from_try X L content w Hnone).
Qed.

Lemma X14_witness :
  fst (App.generate_summary_with_huggingface
         (Sample.externals Sample.no_summary_text) Sample.lib Sample.plain
         None (Sample.world None))
  = Ok (lit "Summary generated").
Proof.
  refine (proj1 (@X14_huggingface_answer_cases unit
                   (Sample.externals Sample.no_summary_text) Sample.lib
                   Sample.plain (Sample.world None)
                   (mkResponse 200 (lit "[{}]") (Ok (JList [JDict []])))
                   eq_refl eq_refl) [] [] eq_refl eq_refl).
Defined.


(* ================================================================= *)
(** ** The requests of main.py for a link *)

Section MainRequestFacts.

Context {E : Type} (X : Externals E) (L : PyLib).

Lemma extract_page_title_get (url : str) (w : World E) :
  exists title w',
    extract_page_title X L url w = (Ok title, w') /\
    calls w' = calls w ++ [HttpGet url user_agent 10].
Proof.
  unfold extract_page_title, try_except, bind, requests_get, request, lift,
    ret, logger.
  change [(lit "User-Agent",
           lit "Mozilla/5.0 (Windows NT 10.0; Win64; x64) AppleWebKit/537.36 (KHTML, like Gecko) Chrome/91.0.4472.124 Safari/537.36")]
    with user_agent.
  destruct (get X url user_agent (ext w)) as [[response|e] e'];
    cbn beta iota;
    [destruct (Z.eqb (status_code response) 200);
     [destruct (soup_title_text L (text response)) as [[t|]|e];
      cbn beta iota|]|];
    do 2 eexists; split; reflexivity.
Qed.

(** The [try] statement of [generate_summary_with_ollama], for a link: it
    never raises, and issues a GET of the link and one POST to Ollama. *)
Lemma ollama_try_link_calls (content : str) (c : char) (u : str)
    (w : World E) :
  exists payload r w',
    Main.ollama_try X L content (Some (c :: u)) w = (Ok r, w') /\
    calls w'
    = calls w ++ [HttpGet (c :: u) user_agent 10;
                  HttpPost Main.ollama_url [] payload 30].
Proof.
  destruct (extract_page_title_get (c :: u) w) as (title & w1 & Ht & Hc).
  unfold Main.ollama_try, Main.ollama_try_body, try_except.
  unfold bind at 1. unfold bind at 1. rewrite Ht.
  unfold bind, requests_post, request, lift, ret, logger.
  cbn beta iota.
  destruct (post X Main.ollama_url [] _ (ext w1)) as [[response|e] e'];
    cbn beta iota;
    [destruct (Z.eqb (status_code response) 200);
     [destruct (json_body response) as [j|e]; cbn beta iota;
      [destruct (json_get j (lit "response")) as [v|e]; cbn beta iota;
       [destruct (json_strip v) as [s|e]; cbn beta iota|]|]|]|];
    do 3 eexists; (split; [reflexivity|]);
    cbn [calls]; rewrite Hc, <- app_assoc; reflexivity.
Qed.

(** [generate_summary_with_openai], for a link: it never raises, and issues
    a GET of the link and one chat completion. *)
Lemma openai_link_calls (content : str) (c : char) (u : str) (w : World E) :
  exists messages s w',
    generate_summary_with_openai X L content (Some (c :: u)) w = (Ok s, w') /\
    calls w'
    = calls w ++ [HttpGet (c :: u) user_agent 10;
                  ChatCompletion (lit "gpt-3.5-turbo") messages 20
                    (lit "0.3")].
Proof.
  destruct (extract_page_title_get (c :: u) w) as (title & w1 & Ht & Hc).
  unfold generate_summary_with_openai, try_except.
  unfold bind at 1. unfold bind at 1. rewrite Ht.
  unfold chat_summary, bind, request, lift, ret, logger.
  cbn beta iota.
  destruct (chat_create X (lit "gpt-3.5-turbo") _ (ext w1))
    as [[choices|e] e'];
    cbn beta iota;
    [destruct (first_choice_content choices) as [s|e]; cbn beta iota|];
    do 3 eexists; (split; [reflexivity|]);
    cbn [calls]; rewrite Hc, <- app_assoc; reflexivity.
Qed.

End MainRequestFacts.

(** X15: for a link, [generate_summary_with_ollama] of main.py never raises
    and issues these requests, in this order: a GET of the link, a POST to
    the Ollama endpoint with no header and a timeout of 30 seconds; and,
    unless the Ollama step returned a summary, a second GET of the same link
    followed by one chat completion with model [gpt-3.5-turbo].  So the page
    is downloaded once for each summariser that is tried. *)
Theorem X15_main_link_requests {E : Type} (X : Externals E) (L : PyLib)
    (content : str) (c : char) (u : str) (w : World E) :
  exists payload messages s w',
    Main.generate_summary_with_ollama X L content (Some (c :: u)) w
    = (Ok s, w') /\
    calls w'
    = calls w
      ++ [HttpGet (c :: u) user_agent 10;
          HttpPost Main.ollama_url [] payload 30]
      ++ match fst (Main.ollama_try X L content (Some (c :: u)) w) with
         | Ok (Some _) => []
         | _ => [HttpGet (c :: u) user_agent 10;
                 ChatCompletion (lit "gpt-3.5-turbo") messages 20
                   (lit "0.3")]
         end.
Proof.
  destruct (ollama_try_link_calls X L content c u w)
    as (payload & r & w1 & Htry & Hc).
  destruct (openai_link_calls X L content c u w1)
    as (messages & s2 & w2 & Hopenai & Hc2).
  exists payload, messages.
  unfold Main.generate_summary_with_ollama.
  erewrite bind_Ok by exact Htry. rewrite Htry. cbn [fst].
  destruct r as [s|].
  - exists s, w1. split; [reflexivity|]. rewrite app_nil_r. exact Hc.
  - exists s2, w2. split; [exact Hopenai|].
    rewrite Hc2, Hc, <- app_assoc. reflexivity.
Qed.

(* ================================================================= *)
(** ** The local fallback for a link *)

(** X16: for a URL whose host part [urlparse] can extract, and in which
    [www.] occurs at the start of the host only and each of [.com], [.org],
    [.net] at its end only, [generate_simple_summary] returns the host with
    the leading [www.] and these suffixes stripped, followed by
    [" link shared"], and leaves the world as it is. *)
Theorem X16_host_stripped_at_its_ends {E : Type} (L : PyLib)
    (content : str) (c : char) (u domain : str) (w : World E) :
  urlparse_netloc L (c :: u) = Ok domain ->
  only_leading (lit "www.") domain = true ->
  only_trailing (lit ".com") (Spec.strip_leading (lit "www.") domain)
  = true ->
  only_trailing (lit ".org")
    (Spec.strip_suffix (lit ".com")
       (Spec.strip_leading (lit "www.") domain))
  = true ->
  only_trailing (lit ".net")
    (Spec.strip_suffix (lit ".org")
       (Spec.strip_suffix (lit ".com")
          (Spec.strip_leading (lit "www.") domain)))
  = true ->
  App.generate_simple_summary L content (Some (c :: u)) w
  = (Ok (Spec.host_summary domain), w).
Proof.
  intros Hd Hw Hcom Horg Hnet.
  unfold App.generate_simple_summary, try_except, bind, lift, ret.
  rewrite Hd. cbn beta iota.
  unfold Spec.host_summary.
  rewrite (replace_leading (p := lit "www.")) by (discriminate || exact Hw).
  rewrite (replace_trailing (p := lit ".com"))
    by (discriminate || exact Hcom).
  rewrite (replace_trailing (p := lit ".org"))
    by (discriminate || exact Horg).
  rewrite (replace_trailing (p := lit ".net"))
    by (discriminate || exact Hnet).
  reflexivity.
Qed.

Lemma X16_witness :
  App.generate_simple_summary Sample.lib []
    (Some (lit "https://www.example.com/page")) (Sample.world None)
  = (Ok (lit "example link shared"), Sample.world None) /\
  App.generate_simple_summary Sample.lib []
    (Some (lit "https://docs.python.org/3/")) (Sample.world None)
  = (Ok (lit "docs.python link shared"), Sample.world None).
Proof.
  split.
  - apply (@X16_host_stripped_at_its_ends unit Sample.lib [] (chr "h")
             (lit "ttps://www.example.com/page") (lit "www.example.com")
             (Sample.world None));
      reflexivity.
  - apply (@X16_host_stripped_at_its_ends unit Sample.lib [] (chr "h")
             (lit "ttps://docs.python.org/3/") (lit "docs.python.org")
             (Sample.world None));
      reflexivity.
Defined.
